(** * mdf3reader: a shallow embedding of the MDF 3.x reader and writer core

    The development follows [mdfreader/mdf3reader.py]: the type encoder
    ([_arrayformat3], [_datatypeformat3]), the channel and record schema
    classes, the unsorted block reader of [DATA], the bit-repack step of
    [mdf3.read3], the conversion functions with their dispatcher, and, of
    [mdf3.write3], the channel ordering and the emission of the ID, header,
    data group and channel group blocks.

    Python integers are [Z]; Python floats and float64 samples are Rocq's
    binary64 [float]; dictionaries are [gmap]s; bytes are [Z] in 0..255;
    exceptions and the lines printed on stderr are threaded by the [Py]
    monad below. *)

From Stdlib Require Import ZArith List String Ascii Floats Lia Bool.
From stdpp Require Import base option list gmap strings pretty sorting.

Set Default Proof Using "Type".

(** ** Python outcomes: a value or an exception, plus the lines sent to stderr *)

Inductive exn : Type :=
| TypeError (msg : string)
| KeyError (key : string)
| IndexError (msg : string)
| UnboundLocalError (var : string)
| StructError (msg : string)
| OverflowError (msg : string)
| ValueError (msg : string)
| ZeroDivisionError.

Inductive outcome (A : Type) : Type :=
| Return (a : A)
| Raise (e : exn).
Arguments Return {A} a.
Arguments Raise {A} e.

Definition Py (A : Type) : Type := (outcome A * list string)%type.

Definition ret {A} (a : A) : Py A := (Return a, []).
Definition raise {A} (e : exn) : Py A := (Raise e, []).
Definition print_stderr (line : string) : Py unit := (Return tt, [line]).
Definition bind {A B} (m : Py A) (k : A -> Py B) : Py B :=
  match m with
  | (Return a, []) => k a
  | (Return a, out) => let '(r, out') := k a in (r, out ++ out')
  | (Raise e, out) => (Raise e, out)
  end.

Notation "'do' x <- m ; k" := (bind m (fun x => k))
  (at level 10, x name, m at level 100, k at level 200).
Notation "'do_' m ; k" := (bind m (fun _ => k))
  (at level 10, m at level 100, k at level 200).

Definition value_of {A} (m : Py A) : outcome A := fst m.
Definition stderr_of {A} (m : Py A) : list string := snd m.

Fixpoint mapM {A B} (f : A -> Py B) (l : list A) : Py (list B) :=
  match l with
  | [] => ret []
  | a :: l' => do b <- f a ; do bs <- mapM f l' ; ret (b :: bs)
  end.

(** Python's [str] on an integer, [x in (a, b, ...)] on integers, and the
    truth value of an integer. *)
Definition str (n : Z) : string := pretty n.
Definition in_tuple (x : Z) (t : list Z) : bool := existsb (Z.eqb x) t.
Definition truthy (n : Z) : bool := negb (n =? 0)%Z.

(** ** 4.A Type encoder *)

Module TypeEncoder.
Local Open Scope Z_scope.

(** The local variable [dataType] after the first if/elif chain of
    [_arrayformat3]: [None] while it is still unbound. *)
Definition _arrayformat3_dataType (signalDataType numberOfBits : Z)
  : Py (option string) :=
  if in_tuple signalDataType [0; 9; 13] then
    if numberOfBits <=? 8 then ret (Some "u1")
    else if numberOfBits <=? 16 then ret (Some "u2")
    else if numberOfBits <=? 32 then ret (Some "u4")
    else if numberOfBits <=? 64 then ret (Some "u8")
    else do_ print_stderr ("Unsupported number of bits for unsigned int "
                         +:+ str signalDataType +:+ " nBits " +:+ " "
                         +:+ str numberOfBits) ; ret None
  else if in_tuple signalDataType [1; 10; 14] then
    if numberOfBits <=? 8 then ret (Some "i1")
    else if numberOfBits <=? 16 then ret (Some "i2")
    else if numberOfBits <=? 32 then ret (Some "i4")
    else if numberOfBits <=? 64 then ret (Some "i8")
    else do_ print_stderr ("Unsupported number of bits for signed int "
                         +:+ str signalDataType +:+ " nBits " +:+ " "
                         +:+ str numberOfBits) ; ret None
  else if in_tuple signalDataType [2; 3; 11; 12; 15; 16] then
    if numberOfBits =? 32 then ret (Some "f4")
    else if numberOfBits =? 64 then ret (Some "f8")
    else do_ print_stderr ("Unsupported number of bit for floating point "
                         +:+ str signalDataType +:+ " nBits " +:+ " "
                         +:+ str numberOfBits) ; ret None
  else if signalDataType =? 7 then ret (Some ("S" +:+ str (numberOfBits / 8)))
  else if signalDataType =? 8 then ret (Some ("V" +:+ str (numberOfBits / 8)))
  else do_ print_stderr ("Unsupported Signal Data Type " +:+ str signalDataType
                       +:+ " nBits " +:+ " " +:+ str numberOfBits) ; ret None.

(** The same chain in [_datatypeformat3], with struct codes. *)
Definition _datatypeformat3_dataType (signalDataType numberOfBits : Z)
  : Py (option string) :=
  if in_tuple signalDataType [0; 9; 13] then
    if numberOfBits <=? 8 then ret (Some "B")
    else if numberOfBits <=? 16 then ret (Some "H")
    else if numberOfBits <=? 32 then ret (Some "I")
    else if numberOfBits <=? 64 then ret (Some "Q")
    else do_ print_stderr ("Unsupported number of bits for unsigned int "
                         +:+ str signalDataType) ; ret None
  else if in_tuple signalDataType [1; 10; 14] then
    if numberOfBits <=? 8 then ret (Some "b")
    else if numberOfBits <=? 16 then ret (Some "h")
    else if numberOfBits <=? 32 then ret (Some "i")
    else if numberOfBits <=? 64 then ret (Some "q")
    else do_ print_stderr ("Unsupported number of bits for signed int "
                         +:+ str signalDataType) ; ret None
  else if in_tuple signalDataType [2; 3; 11; 12; 15; 16] then
    if numberOfBits =? 32 then ret (Some "f")
    else if numberOfBits =? 64 then ret (Some "d")
    else do_ print_stderr ("Unsupported number of bit for floating point "
                         +:+ str signalDataType) ; ret None
  else if signalDataType =? 7 then ret (Some (str (numberOfBits / 8) +:+ "s"))
  else if signalDataType =? 8 then ret (Some (str (numberOfBits / 8) +:+ "s"))
  else do_ print_stderr ("('Unsupported Signal Data Type " +:+ str signalDataType
                       +:+ " ', " +:+ str numberOfBits +:+ ")") ; ret None.

(** Reading the local [dataType]: an unbound local raises. *)
Definition read_dataType (dataType : option string) : Py string :=
  match dataType with
  | Some d => ret d
  | None => raise (UnboundLocalError "dataType")
  end.

(** "deal with byte order" and the final [return dataType], shared by the
    two encoders. *)
Definition deal_with_byte_order (signalDataType ByteOrder : Z)
    (dataType : option string) : Py string :=
  if in_tuple signalDataType [0; 1; 2; 3] then
    if truthy ByteOrder then do d <- read_dataType dataType ; ret (">" +:+ d)
    else do d <- read_dataType dataType ; ret ("<" +:+ d)
  else if in_tuple signalDataType [13; 14; 15; 16] then
    do d <- read_dataType dataType ; ret ("<" +:+ d)
  else if in_tuple signalDataType [9; 10; 11; 12] then
    do d <- read_dataType dataType ; ret (">" +:+ d)
  else read_dataType dataType.

Definition _arrayformat3 (signalDataType numberOfBits ByteOrder : Z) : Py string :=
  do dataType <- _arrayformat3_dataType signalDataType numberOfBits ;
  deal_with_byte_order signalDataType ByteOrder dataType.

Definition _datatypeformat3 (signalDataType numberOfBits ByteOrder : Z) : Py string :=
  do dataType <- _datatypeformat3_dataType signalDataType numberOfBits ;
  deal_with_byte_order signalDataType ByteOrder dataType.

(** An input is accepted when the encoder returns a type descriptor. *)
Definition accepted (r : Py string) : Prop := exists s, value_of r = Return s.

(** The widths the integer group is widened to. *)
Definition widths : list Z := [8; 16; 32; 64].

(** [w] is the next of {8,16,32,64} at or above [n]. *)
Definition next_width (n w : Z) : Prop :=
  In w widths /\ n <= w /\ forall w', In w' widths -> n <= w' -> w <= w'.

(** The spec's reading of the result for the integer group, to compare the
    encoders with: the numpy code of a [w]-bit integer, and the struct code
    of a [w]-bit integer. *)
Definition spec_numpy_int (signed : bool) (w : Z) : string :=
  (if signed then "i" else "u") +:+ str (w / 8).

Definition spec_struct_int (signed : bool) (w : Z) : string :=
  if w =? 8 then (if signed then "b" else "B")
  else if w =? 16 then (if signed then "h" else "H")
  else if w =? 32 then (if signed then "i" else "I")
  else (if signed then "q" else "Q").

Definition integer_group (signalDataType : Z) : Prop :=
  In signalDataType [0; 1; 9; 10; 13; 14].

Definition signed_type (signalDataType : Z) : bool :=
  in_tuple signalDataType [1; 10; 14].

(** Endianness of a produced descriptor: its first character. *)
Definition big_endian (s : string) : Prop := exists t, s = String ">" t.
Definition little_endian (s : string) : Prop := exists t, s = String "<" t.

End TypeEncoder.

(** ** numpy columns and the Python objects the conversions handle *)

Module Numpy.
Local Open Scope float_scope.

(** The float64 nearest to an integer (round to nearest, ties to even). *)
Definition float_of_Z (z : Z) : float :=
  SF2Prim (binary_normalize prec emax z 0 false).

(** The columns modelled: an integer column (with its dtype label), a
    float64 column and a text column. A float32 column, which numpy keeps
    in float32 through arithmetic with Python floats, is not among them. *)
Inductive ndarray : Type :=
| IntArray (dtype : string) (values : list Z)
| FloatArray (values : list float)
| StrArray (values : list string).

Inductive pyobj : Type :=
| PyNone
| PyFloat (x : float)
| PyArray (a : ndarray).

Definition size (a : ndarray) : nat :=
  match a with
  | IntArray _ l => length l
  | FloatArray l => length l
  | StrArray l => length l
  end.

(** The samples of a numeric column as float64, as numpy takes them in
    arithmetic or comparison with a Python float (its promotion of an
    integer column with a Python float; releases before numpy 2 compute the
    8- and 16-bit integer dtypes in a narrower float); text has no such
    view. *)
Definition as_float64 (a : ndarray) : Py (list float) :=
  match a with
  | IntArray _ l => ret (map float_of_Z l)
  | FloatArray l => ret l
  | StrArray _ => raise (TypeError "ufunc loop does not support str operands")
  end.

Inductive arith : Type := Add | Sub | Mul | Div.

Definition arith_op (o : arith) (x y : float) : float :=
  match o with
  | Add => x + y
  | Sub => x - y
  | Mul => x * y
  | Div => x / y
  end.

(** numpy broadcasting of two 1-D operands. *)
Definition broadcast (f : float -> float -> float) (xs ys : list float)
  : Py (list float) :=
  if Nat.eqb (length xs) (length ys) then ret (zip_with f xs ys)
  else match xs, ys with
       | [x], _ => ret (map (f x) ys)
       | _, [y] => ret (map (fun x => f x y) xs)
       | _, _ => raise (ValueError "operands could not be broadcast together")
       end.

(** [a o b] for the operand kinds the conversions build: a Python float
    with a Python float (division by zero raises), a column with a float,
    a float with a column, two columns (elementwise, in float64, where a
    division by zero yields inf or nan and does not raise). *)
Definition binop (o : arith) (a b : pyobj) : Py pyobj :=
  match a, b with
  | PyFloat x, PyFloat y =>
      match o with
      | Div => if y =? 0 then raise ZeroDivisionError else ret (PyFloat (x / y))
      | _ => ret (PyFloat (arith_op o x y))
      end
  | PyArray a, PyFloat y =>
      do xs <- as_float64 a;
      ret (PyArray (FloatArray (map (fun x => arith_op o x y) xs)))
  | PyFloat x, PyArray b =>
      do ys <- as_float64 b;
      ret (PyArray (FloatArray (map (fun y => arith_op o x y) ys)))
  | PyArray a, PyArray b =>
      do xs <- as_float64 a;
      do ys <- as_float64 b;
      do zs <- broadcast (arith_op o) xs ys;
      ret (PyArray (FloatArray zs))
  | _, _ => raise (TypeError "unsupported operand type(s)")
  end.

(** [float(obj)], which [math.exp] and [math.log] apply to their argument:
    a Python float is taken as it is, and a column (a 1-D array) does not
    convert, whatever its length: numpy converts 0-dimensional arrays only. *)
Definition to_float (d : pyobj) : Py float :=
  match d with
  | PyFloat x => ret x
  | PyArray _ =>
      raise (TypeError
               "only 0-dimensional arrays can be converted to Python scalars")
  | PyNone => raise (TypeError "must be real number, not NoneType")
  end.

(** numpy orders floats with nan last: [a] sorts before [b]. *)
Definition np_less (a b : float) : bool :=
  (a <? b) || (negb (b =? b) && (a =? a)).

(** [searchsorted(a, v)] (side left) for one key [v] in a sorted [a]: the
    index [i] with [a[i-1] < v <= a[i]], the count of leading entries of
    [a] that sort before [v]. numpy finds it by bisection; the two agree
    where [a] is sorted, or where every entry of [a] sorts before [v]. *)
Fixpoint searchsorted (a : list float) (v : float) : nat :=
  match a with
  | [] => 0
  | x :: a' => if np_less x v then S (searchsorted a' v) else 0
  end.

End Numpy.

(** ** The text of a formula conversion *)

Module Formula.
Local Open Scope Z_scope.

(** [s.find(c)] for one character: the lowest index, or -1. *)
Fixpoint find (c : ascii) (s : string) : Z :=
  match s with
  | EmptyString => -1
  | String a rest =>
      if Ascii.eqb a c then 0
      else let k := find c rest in
           if k <? 0 then -1 else k + 1
  end.

(** [s[:k]]: a negative [k] counts from the end. *)
Definition slice_to (s : string) (k : Z) : string :=
  if k <? 0 then String.substring 0 (Z.to_nat (Z.of_nat (String.length s) + k)) s
  else String.substring 0 (Z.to_nat k) s.

(** [s.replace('pow(', 'power(')] *)
Fixpoint replace_pow (s : string) : string :=
  match s with
  | String "p" (String "o" (String "w" (String "(" rest))) =>
      "power(" +:+ replace_pow rest
  | String c rest => String c (replace_pow rest)
  | EmptyString => EmptyString
  end.

(** The text [formulaConv] hands to [lambdify]:
    [formula[:formula.find('\x00')].replace('pow(', 'power(')]. *)
Definition formula_text (textFormula : string) : string :=
  replace_pow (slice_to textFormula (find Ascii.zero textFormula)).

(** No character of [s] is NUL. *)
Definition no_nul (s : string) : Prop :=
  forall c, In c (list_ascii_of_string s) -> c <> Ascii.zero.

End Formula.

(** ** 4.G Conversion functions *)

Module Conversion.
Import Numpy.
Local Open Scope float_scope.

(** The values of a tabular conversion dict, [{'int': x, 'phys': y}], and of
    a text range table dict. *)
Record value_pair : Type := { v_int : float; v_phys : float }.
Record text_range : Type :=
  { lowerRange : float; upperRange : float; Textrange : string }.

(** [conversion['parameters']]: a dict whose shape follows the conversion
    type. The dicts keyed by pair number keep their items in order. *)
Inductive parameters : Type :=
| Coefficients (P : gmap string float)
| ValuePairs (items : list (Z * value_pair))
| TextRanges (items : list (Z * text_range))
| TextFormula (textFormula : string).

(** [conv[k]] for a coefficient name. *)
Definition coefficient (conv : parameters) (k : string) : Py float :=
  match conv with
  | Coefficients P =>
      match P !! k with
      | Some v => ret v
      | None => raise (KeyError k)
      end
  | _ => raise (KeyError k)
  end.

(** [d[k]] in a dict keyed by integers. *)
Fixpoint dict_get {V} (items : list (Z * V)) (k : Z) : Py V :=
  match items with
  | [] => raise (KeyError (str k))
  | (k', v) :: rest => if (k' =? k)%Z then ret v else dict_get rest k
  end.

(** [x in (0.0, -0.0)] *)
Definition in_zeros (x : float) : bool := (x =? 0) || (x =? -0).

Definition linearConv (data : pyobj) (conv : parameters) : Py pyobj :=
  do P2 <- coefficient conv "P2";
  do identity <- (if P2 =? 1 then
                    do P1 <- coefficient conv "P1"; ret (in_zeros P1)
                  else ret false);
  if identity then ret data
  else
    do P2 <- coefficient conv "P2";
    do scaled <- binop Mul data (PyFloat P2);
    do P1 <- coefficient conv "P1";
    binop Add scaled (PyFloat P1).

(** [array([(key, val['int'], val['phys']) for (key, val) in conv.items()])]:
    the rows of the 2-D array. *)
Definition rows_of (items : list (Z * value_pair)) : list (float * float * float) :=
  map (fun kv => (float_of_Z (fst kv), v_int (snd kv), v_phys (snd kv))) items.

Definition table_rows (conv : parameters) : Py (list (float * float * float)) :=
  match conv with
  | ValuePairs items => ret (rows_of items)
  | TextRanges [] => ret []
  | TextRanges _ => raise (KeyError "int")
  | Coefficients P =>
      if decide (P = ∅) then ret []
      else raise (TypeError "'float' object is not subscriptable")
  | TextFormula _ => raise (TypeError "string indices must be integers")
  end.

(** [tmp[:, 1]] and [tmp[:, 2]]: with no row the array is 1-D and cannot
    take two indices. *)
Definition column_1 (tmp : list (float * float * float)) : Py (list float) :=
  match tmp with
  | [] => raise (IndexError "too many indices for array")
  | _ => ret (map (fun r => snd (fst r)) tmp)
  end.

Definition column_2 (tmp : list (float * float * float)) : Py (list float) :=
  match tmp with
  | [] => raise (IndexError "too many indices for array")
  | _ => ret (map snd tmp)
  end.

(** [tmp[i, 2]] for one index. *)
Definition row_phys (tmp : list (float * float * float)) (i : nat) : Py float :=
  match tmp !! i with
  | Some r => ret (snd r)
  | None => raise (IndexError ("index " +:+ str (Z.of_nat i)
                                 +:+ " is out of bounds for axis 0 with size "
                                 +:+ str (Z.of_nat (length tmp))))
  end.

(** [tabConv]; the lookup is numeric: a text column, which numpy would
    compare with the x column as text, is an error here. *)
Definition tabConv (data : pyobj) (conv : parameters) : Py pyobj :=
  do tmp <- table_rows conv;
  do xs <- column_1 tmp;
  match data with
  | PyArray a =>
      do vs <- as_float64 a;
      let indexes := map (searchsorted xs) vs in
      do ys <- mapM (row_phys tmp) indexes;
      ret (PyArray (FloatArray ys))
  | PyFloat v =>
      do y <- row_phys tmp (searchsorted xs v);
      ret (PyFloat y)
  | PyNone => raise (TypeError "'<' not supported between 'float' and 'NoneType'")
  end.

Definition polyConv (data : pyobj) (conv : parameters) : Py pyobj :=
  do P2 <- coefficient conv "P2";
  do P4 <- coefficient conv "P4";
  do P5 <- coefficient conv "P5";
  do a <- binop Sub data (PyFloat P5);
  do P6 <- coefficient conv "P6";
  do b <- binop Sub a (PyFloat P6);
  do c <- binop Mul (PyFloat P4) b;
  do num <- binop Sub (PyFloat P2) c;
  do P3 <- coefficient conv "P3";
  do P5' <- coefficient conv "P5";
  do a' <- binop Sub data (PyFloat P5');
  do P6' <- coefficient conv "P6";
  do b' <- binop Sub a' (PyFloat P6');
  do c' <- binop Mul (PyFloat P3) b';
  do P1 <- coefficient conv "P1";
  do den <- binop Sub c' (PyFloat P1);
  binop Div num den.

(** [conv[a] == 0 and conv[b] != 0 and conv[c] != 0], short-circuiting. *)
Definition branch_condition (conv : parameters) (a b c : string) : Py bool :=
  do Pa <- coefficient conv a;
  if Pa =? 0 then
    do Pb <- coefficient conv b;
    if negb (Pb =? 0) then
      do Pc <- coefficient conv c; ret (negb (Pc =? 0))
    else ret false
  else ret false.

(** [try: body except: handler]: a bare except catches every exception. *)
Definition try_except {A} (body : Py A) (handler : Py A) : Py A :=
  match body with
  | (Return a, out) => (Return a, out)
  | (Raise _, out) => let '(r, out') := handler in (r, out ++ out')
  end.

(** [len(data)] and [data[i]] on the objects a channel can hold. *)
Inductive sample : Type :=
| SFloat (x : float)
| SStr (s : string).

Definition len (data : pyobj) : Py nat :=
  match data with
  | PyArray a => ret (size a)
  | PyFloat _ => raise (TypeError "object of type 'float' has no len()")
  | PyNone => raise (TypeError "object of type 'NoneType' has no len()")
  end.

Definition samples (a : ndarray) : list sample :=
  match a with
  | IntArray _ l => map (fun z => SFloat (float_of_Z z)) l
  | FloatArray l => map SFloat l
  | StrArray l => map SStr l
  end.

Definition getitem (data : pyobj) (i : nat) : Py sample :=
  match data with
  | PyArray a =>
      match samples a !! i with
      | Some x => ret x
      | None => raise (IndexError "index out of bounds")
      end
  | _ => raise (TypeError "object is not subscriptable")
  end.

(** [lo <= x <= up]: a float does not compare with text. *)
Definition between (lo : float) (x : sample) (up : float) : Py bool :=
  match x with
  | SFloat v => ret ((lo <=? v) && (v <=? up))
  | SStr _ => raise (TypeError "'<=' not supported between 'float' and 'str'")
  end.

(** The inner loop of [textRangeTableConv] over the pairs it visits (those
    from index 1 on), each a [(lower[pair], upper[pair], text[pair])]:
    the first hit sets [value] and breaks. *)
Fixpoint scan_pairs (value : string) (x : sample)
    (pairs : list (float * float * string)) : Py string :=
  match pairs with
  | [] => ret value
  | (lo, up, t) :: rest =>
      do hit <- between lo x up;
      if hit then ret t else scan_pairs value x rest
  end.

(** [asarray(temp)] on a list of texts; the empty list gives an empty
    float64 array. *)
Definition asarray (temp : list string) : ndarray :=
  match temp with
  | [] => FloatArray []
  | _ => StrArray temp
  end.

Definition range (n : nat) : list Z := map Z.of_nat (seq 0 n).

(** The dict [conv] read as a range table: a dict of another shape has no
    pair under the key 0, or pairs without a ['lowerRange']. *)
Definition range_items (conv : parameters) : Py (list (Z * text_range)) :=
  match conv with
  | TextRanges items => ret items
  | ValuePairs [] => ret []
  | ValuePairs _ => raise (KeyError "lowerRange")
  | Coefficients P => if decide (P = ∅) then ret [] else raise (KeyError "0")
  | TextFormula _ => raise (KeyError "0")
  end.

Definition textRangeTableConv (data : pyobj) (conv : parameters) : Py pyobj :=
  try_except
    (do items <- range_items conv;
         let npair := length items in
         do lower <- mapM (fun pair => do e <- dict_get items pair;
                                       ret (lowerRange e)) (range npair);
         do upper <- mapM (fun pair => do e <- dict_get items pair;
                                       ret (upperRange e)) (range npair);
         do text <- mapM (fun pair => do e <- dict_get items pair;
                                      ret (Textrange e)) (range npair);
         do n <- len data;
         do temp <- mapM (fun Lindex =>
                            do value <- match text !! 0%nat with
                                        | Some t => ret t
                                        | None => raise (IndexError "list index out of range")
                                        end;
                            do x <- getitem data Lindex;
                            scan_pairs value x
                              (drop 1 (zip (zip lower upper) text)))
                         (seq 0 n);
         ret (PyArray (asarray temp)))
    (do_ print_stderr "Failed to convert text to range table"; ret PyNone).

(** What the module imports from outside the repository and numpy's
    elementwise layer: [math.exp] and [math.log] on a float (they may
    raise: overflow, domain error), [numpy.interp], and the evaluation of a
    formula text by sympy's [lambdify] ([None] when anything in that
    attempt fails). *)
Record Env : Type := {
  math_exp : float -> Py float;
  math_log : float -> Py float;
  interp : pyobj -> list float -> list float -> Py pyobj;
  lambdify_apply : string -> pyobj -> option pyobj
}.

Section WithEnv.
Context (env : Env).

Definition tabInterpConv (data : pyobj) (conv : parameters) : Py pyobj :=
  do tmp <- table_rows conv;
  do xs <- column_1 tmp;
  do ys <- column_2 tmp;
  interp env data xs ys.

(** The first formula of [expConv] and [logConv], around the function [f]:
    [f(((data - P7) * P6 - P3) / P1) / P2]. *)
Definition first_branch (f : float -> Py float) (data : pyobj)
    (conv : parameters) : Py pyobj :=
  do P7 <- coefficient conv "P7";
  do a <- binop Sub data (PyFloat P7);
  do P6 <- coefficient conv "P6";
  do b <- binop Mul a (PyFloat P6);
  do P3 <- coefficient conv "P3";
  do c <- binop Sub b (PyFloat P3);
  do P1 <- coefficient conv "P1";
  do d <- binop Div c (PyFloat P1);
  do x <- to_float d;
  do e <- f x;
  do P2 <- coefficient conv "P2";
  binop Div (PyFloat e) (PyFloat P2).

(** The second formula: [f((P3 / (data - P7) - P6) / P4) / P5]. *)
Definition second_branch (f : float -> Py float) (data : pyobj)
    (conv : parameters) : Py pyobj :=
  do P3 <- coefficient conv "P3";
  do P7 <- coefficient conv "P7";
  do a <- binop Sub data (PyFloat P7);
  do b <- binop Div (PyFloat P3) a;
  do P6 <- coefficient conv "P6";
  do c <- binop Sub b (PyFloat P6);
  do P4 <- coefficient conv "P4";
  do d <- binop Div c (PyFloat P4);
  do x <- to_float d;
  do e <- f x;
  do P5 <- coefficient conv "P5";
  binop Div (PyFloat e) (PyFloat P5).

(** The shared body of [expConv] and [logConv]; the last branch prints and
    falls off the end of the function, which returns [None]. *)
Definition exp_log_conv (f : float -> Py float) (data : pyobj)
    (conv : parameters) : Py pyobj :=
  do c1 <- branch_condition conv "P4" "P1" "P2";
  if c1 then first_branch f data conv
  else
    do c2 <- branch_condition conv "P1" "P4" "P5";
    if c2 then second_branch f data conv
    else
      do_ print_stderr "Non possible conversion parameters for channel ";
      ret PyNone.

Definition expConv (data : pyobj) (conv : parameters) : Py pyobj :=
  exp_log_conv (math_exp env) data conv.

Definition logConv (data : pyobj) (conv : parameters) : Py pyobj :=
  exp_log_conv (math_log env) data conv.

Definition rationalConv (data : pyobj) (conv : parameters) : Py pyobj :=
  do P1 <- coefficient conv "P1";
  do a <- binop Mul (PyFloat P1) data;
  do b <- binop Mul a data;
  do P2 <- coefficient conv "P2";
  do c <- binop Mul (PyFloat P2) data;
  do d <- binop Add b c;
  do P3 <- coefficient conv "P3";
  do num <- binop Add d (PyFloat P3);
  do P4 <- coefficient conv "P4";
  do a' <- binop Mul (PyFloat P4) data;
  do b' <- binop Mul a' data;
  do P5 <- coefficient conv "P5";
  do c' <- binop Mul (PyFloat P5) data;
  do d' <- binop Add b' c';
  do P6 <- coefficient conv "P6";
  do den <- binop Add d' (PyFloat P6);
  binop Div num den.

Definition formulaConv (data : pyobj) (conv : parameters) : Py pyobj :=
  try_except
    (match conv with
     | TextFormula formula =>
         match lambdify_apply env (Formula.formula_text formula) data with
         | Some r => ret r
         | None => raise (ValueError "formula")
         end
     | _ => raise (KeyError "textFormula")
     end)
    (do_ print_stderr "Please install sympy to convert channel ";
     match conv with
     | TextFormula formula =>
         do_ print_stderr ("Failed to convert formulae " +:+ formula);
         ret PyNone
     | _ => raise (KeyError "textFormula")
     end).

(** The container: [self[channelName]] is a dict with the key ['data'] and,
    until the channel is converted, the key ['conversion'], itself a dict
    with ['type'] and ['parameters']. *)
Record conversion_block : Type :=
  { conv_type : Z; conv_parameters : parameters }.

Record channel_entry : Type :=
  { data : pyobj; conversion : option conversion_block }.

Definition self_getitem (self : gmap string channel_entry)
    (channelName : string) : Py channel_entry :=
  match self !! channelName with
  | Some c => ret c
  | None => raise (KeyError channelName)
  end.

Definition _convert3 (self : gmap string channel_entry)
    (channelName : string) : Py pyobj :=
  do chan <- self_getitem self channelName;
  match conversion chan with
  | Some conversion =>
      let type := conv_type conversion in
      let parameters := conv_parameters conversion in
      if (type =? 0)%Z then linearConv (data chan) parameters
      else if (type =? 1)%Z then tabInterpConv (data chan) parameters
      else if (type =? 2)%Z then tabConv (data chan) parameters
      else if (type =? 6)%Z then polyConv (data chan) parameters
      else if (type =? 7)%Z then expConv (data chan) parameters
      else if (type =? 8)%Z then logConv (data chan) parameters
      else if (type =? 9)%Z then rationalConv (data chan) parameters
      else if (type =? 10)%Z then formulaConv (data chan) parameters
      else if (type =? 12)%Z then textRangeTableConv (data chan) parameters
      else ret (data chan)
  | None => ret (data chan)
  end.

(** Modelled from the spec: [setChannelData] of the [mdf_skeleton]
    container, whose code is outside mdf3reader.py; the container is "a plain
    mapping with helper accessors" that "stores converted channels by name",
    so the accessor stores its argument as the channel's data. *)
Definition setChannelData (self : gmap string channel_entry)
    (channelName : string) (d : pyobj) : Py (gmap string channel_entry) :=
  do chan <- self_getitem self channelName;
  ret (<[channelName := {| data := d; conversion := conversion chan |}]> self).

(** Modelled from the spec: [remove_channel_conversion] of the same
    container, whose code is outside mdf3reader.py; an accessor of the
    plain mapping that, by its name, removes the channel's ['conversion']
    entry and leaves its data alone. *)
Definition remove_channel_conversion (self : gmap string channel_entry)
    (channelName : string) : Py (gmap string channel_entry) :=
  do chan <- self_getitem self channelName;
  ret (<[channelName := {| data := data chan; conversion := None |}]> self).

(** [_convertChannel3] returns the container after its two updates. *)
Definition _convertChannel3 (self : gmap string channel_entry)
    (channelName : string) : Py (gmap string channel_entry) :=
  do converted <- _convert3 self channelName;
  do self' <- setChannelData self channelName converted;
  remove_channel_conversion self' channelName.

End WithEnv.

(** The spec's reading of a text range table, to compare [textRangeTableConv]
    with: [x] lies in the closed interval of a pair; the text of the first
    pair from index 1 on whose interval contains [x], else the text at
    index 0. *)
Definition contains (r : text_range) (x : float) : bool :=
  (lowerRange r <=? x) && (x <=? upperRange r).

Definition spec_range_text (table : list text_range) (x : float) : string :=
  match table with
  | [] => ""
  | default :: pairs =>
      match find (fun r => contains r x) pairs with
      | Some r => Textrange r
      | None => Textrange default
      end
  end.

(** The x column of a tabular conversion, and what the spec says of it:
    sorted (non-decreasing), and the two candidate readings of the lookup
    of an input [v] that returns [y]. *)
Definition table_xs (items : list (Z * value_pair)) : list float :=
  map (fun kv => v_int (snd kv)) items.

Definition non_decreasing (xs : list float) : Prop :=
  forall i j xi xj, (i <= j)%nat -> xs !! i = Some xi -> xs !! j = Some xj ->
                    (xi <=? xj) = true.

(** [y] belongs to the entry whose x is the largest one not exceeding [v]. *)
Definition spec_nearest_not_greater (items : list (Z * value_pair))
    (v y : float) : Prop :=
  exists kv, In kv items /\ (v_int (snd kv) <=? v) = true /\
    (forall kv', In kv' items -> (v_int (snd kv') <=? v) = true ->
                 (v_int (snd kv') <=? v_int (snd kv)) = true) /\
    y = v_phys (snd kv).

(** [y] belongs to the entry whose x is the smallest one not less than [v]. *)
Definition spec_nearest_not_less (items : list (Z * value_pair))
    (v y : float) : Prop :=
  exists kv, In kv items /\ (v_int (snd kv) <? v) = false /\
    (forall kv', In kv' items -> (v_int (snd kv') <? v) = false ->
                 (v_int (snd kv) <=? v_int (snd kv')) = true) /\
    y = v_phys (snd kv).

(** A seven-coefficient parameter dict. *)
Definition coefficients7 (P1 P2 P3 P4 P5 P6 P7 : float) : parameters :=
  Coefficients (list_to_map [("P1", P1); ("P2", P2); ("P3", P3); ("P4", P4);
                             ("P5", P5); ("P6", P6); ("P7", P7)]%string).

(** The dict of a table given as a list: pair [i] under the key [i]. *)
Definition enumerate {V} (table : list V) : list (Z * V) :=
  imap (fun i v => (Z.of_nat i, v)) table.

End Conversion.

(** ** struct: unpacking one field, packing one integer *)

Module PyStruct.
Local Open Scope Z_scope.

(** A value unpacked from a record: an integer, the bit pattern of a float
    of [nbytes] bytes (byte order resolved), or bytes. *)
Inductive value : Type :=
| VInt (n : Z)
| VFloatBits (nbytes : nat) (bits : Z)
| VBytes (b : list Z).

Inductive code : Type :=
| CInt (signed : bool) (nbytes : nat)
| CFloat (nbytes : nat)
| CBytes (count : nat).

(** The standard sizes of the codes the type encoder produces. *)
Definition code_of_char (c : ascii) : option code :=
  if Ascii.eqb c "B" then Some (CInt false 1)
  else if Ascii.eqb c "H" then Some (CInt false 2)
  else if Ascii.eqb c "I" then Some (CInt false 4)
  else if Ascii.eqb c "Q" then Some (CInt false 8)
  else if Ascii.eqb c "b" then Some (CInt true 1)
  else if Ascii.eqb c "h" then Some (CInt true 2)
  else if Ascii.eqb c "i" then Some (CInt true 4)
  else if Ascii.eqb c "q" then Some (CInt true 8)
  else if Ascii.eqb c "f" then Some (CFloat 4)
  else if Ascii.eqb c "d" then Some (CFloat 8)
  else None.

Definition digit_of (c : ascii) : option nat :=
  let n := nat_of_ascii c in
  if (48 <=? n)%nat && (n <=? 57)%nat then Some (n - 48)%nat else None.

(** A repeat count followed by [s]. *)
Fixpoint parse_count (acc : nat) (fmt : string) : option code :=
  match fmt with
  | EmptyString => None
  | String c EmptyString =>
      if Ascii.eqb c "s" then Some (CBytes acc) else None
  | String c rest =>
      match digit_of c with
      | Some d => parse_count (10 * acc + d)%nat rest
      | None => None
      end
  end.

Definition parse_code (fmt : string) : option code :=
  match fmt with
  | String c EmptyString =>
      match code_of_char c with
      | Some k => Some k
      | None => parse_count 0 fmt
      end
  | _ => parse_count 0 fmt
  end.

(** A format of one field: an optional byte-order mark, then the code.
    [host_big] is the byte order of the machine ([sys.byteorder == 'big']),
    which a format without a mark follows. *)
Definition parse_format (host_big : bool) (fmt : string) : option (bool * code) :=
  match fmt with
  | String c rest =>
      if Ascii.eqb c "<" then pair false <$> parse_code rest
      else if Ascii.eqb c ">" then pair true <$> parse_code rest
      else pair host_big <$> parse_code fmt
  | EmptyString => None
  end.

Definition nbytes_of (k : code) : nat :=
  match k with
  | CInt _ n => n
  | CFloat n => n
  | CBytes n => n
  end.

(** Bytes, least significant first, to the unsigned integer they spell. *)
Fixpoint of_little_endian (b : list Z) : Z :=
  match b with
  | [] => 0
  | x :: b' => x + 256 * of_little_endian b'
  end.

(** The [n] bytes of an unsigned integer, least significant first. *)
Fixpoint to_little_endian (n : nat) (v : Z) : list Z :=
  match n with
  | O => []
  | S n' => v mod 256 :: to_little_endian n' (v / 256)
  end.

Definition unsigned_of (big : bool) (b : list Z) : Z :=
  of_little_endian (if big then rev b else b).

Definition signed_of (big : bool) (b : list Z) : Z :=
  let u := unsigned_of big b in
  let m := 2 ^ (8 * Z.of_nat (length b)) in
  if u <? m / 2 then u else u - m.

(** [Struct(fmt).unpack(buf)[0]]: the buffer must have the size of the
    format. *)
Definition unpack (host_big : bool) (fmt : string) (buf : list Z) : Py value :=
  match parse_format host_big fmt with
  | None => raise (StructError "bad char in struct format")
  | Some (big, k) =>
      if negb (Nat.eqb (length buf) (nbytes_of k)) then
        raise (StructError ("unpack requires a buffer of "
                              +:+ str (Z.of_nat (nbytes_of k)) +:+ " bytes"))
      else match k with
           | CInt false _ => ret (VInt (unsigned_of big buf))
           | CInt true _ => ret (VInt (signed_of big buf))
           | CFloat n => ret (VFloatBits n (unsigned_of big buf))
           | CBytes _ => ret (VBytes buf)
           end
  end.

(** [pack(fmt, v)] for one unsigned integer code: the value must fit. *)
Definition pack_unsigned (host_big : bool) (fmt : string) (v : Z) : Py (list Z) :=
  match parse_format host_big fmt with
  | Some (big, CInt false n) =>
      if (0 <=? v) && (v <? 2 ^ (8 * Z.of_nat n)) then
        ret (if big then rev (to_little_endian n v) else to_little_endian n v)
      else raise (StructError "argument out of range")
  | _ => raise (StructError "bad char in struct format")
  end.

(** [buf[lo:hi]] for the non-negative bounds the readers pass. *)
Definition slice {A} (l : list A) (lo hi : Z) : list A :=
  take (Z.to_nat hi - Z.to_nat lo) (drop (Z.to_nat lo) l).

End PyStruct.

(** ** 4.B and 4.C Channel descriptors and record schemas *)

Module Schema.
Import PyStruct.
Local Open Scope Z_scope.

(** The blocks of the description tree ([mdfinfo3.info3]) the classes read. *)
Record CNBlock_t : Type := {
  signalName : string;
  cn_signalDataType : Z;
  numberOfBits : Z;
  numberOfTheFirstBits : Z;
  cn_channelType : Z;
  signalDescription : option string
}.

Record CCBlock_t : Type := {
  physicalUnit : option string;
  cc_conversion : option Conversion.conversion_block
}.

Record CGBlock_t : Type := {
  cg_recordID : Z;
  dataRecordSize : Z;
  cg_numberOfRecords : Z
}.

Record DGBlock_t : Type := {
  numberOfRecordIDs : Z;
  numberOfChannelGroups : Z;
  pointerToDataRecords : Z
}.

(** [info]: the nested dicts, keyed by data group, channel group and
    channel number; a channel group lists its channel numbers in order. *)
Record info3 : Type := {
  ByteOrder : list Z;
  DGBlock : gmap Z DGBlock_t;
  CGBlock : gmap (Z * Z) CGBlock_t;
  CNBlock : gmap (Z * Z) (list (Z * CNBlock_t));
  CCBlock : gmap (Z * Z * Z) CCBlock_t
}.

Definition lookup_or_KeyError {K V} `{Countable K} (m : gmap K V) (k : K)
    (shown : string) : Py V :=
  match m !! k with
  | Some v => ret v
  | None => raise (KeyError shown)
  end.

(** Modelled from the spec: [_bits_to_bytes] of the [mdf] module, whose code
    is outside mdf3reader.py; the channel descriptor has
    [n_bytes = ceil(bit_count/8)]. *)
Definition _bits_to_bytes (nBits : Z) : Z := (nBits + 7) / 8.

Record Channel : Type := {
  name : string;
  channelNumber : Z;
  signalDataType : Z;
  bitCount : Z;
  dataFormat : string;
  CFormat : string;
  nBytes : Z;
  byteOffset : Z;
  bitOffset : Z;
  recAttributeName : string;
  channelType : Z;
  posByteBeg : Z;
  posByteEnd : Z;
  posBitBeg : Z;
  posBitEnd : Z;
  unit_ : string;
  desc : string;
  conversion : CCBlock_t
}.

(** [RecordFormat]: [((recAttributeName + '_title', recAttributeName), dataFormat)]. *)
Definition RecordFormat (c : Channel) : (string * string) * string :=
  ((recAttributeName c +:+ "_title", recAttributeName c), dataFormat c).

Section WithNames.
(** [_convertName] of the [mdf] module (outside mdf3reader.py) turns a
    channel name into a valid Python identifier; it is a parameter here. *)
Context (_convertName : string -> string).

(** [Channel.__init__] *)
Definition Channel_init (info : info3) (dataGroup channelGroup channelNumber
    recordIDnumber : Z) : Py Channel :=
  do cns <- lookup_or_KeyError (CNBlock info) (dataGroup, channelGroup) "CNBlock";
  do cn <- Conversion.dict_get cns channelNumber;
  do ByteOrder0 <- match ByteOrder info with
                   | b :: _ => ret b
                   | [] => raise (IndexError "tuple index out of range")
                   end;
  do dataFormat <- TypeEncoder._arrayformat3 (cn_signalDataType cn)
                     (numberOfBits cn) ByteOrder0;
  do CFormat <- TypeEncoder._datatypeformat3 (cn_signalDataType cn)
                  (numberOfBits cn) ByteOrder0;
  do_ match parse_format false CFormat with
      | Some _ => ret tt
      | None => raise (StructError "bad char in struct format")
      end;
  let nBytes := _bits_to_bytes (numberOfBits cn) in
  let recordbitOffset := numberOfTheFirstBits cn in
  let byteOffset := recordbitOffset / 8 in
  let bitOffset := recordbitOffset mod 8 in
  let posByteBeg := recordIDnumber + byteOffset in
  let posByteEnd := recordIDnumber + byteOffset + nBytes in
  let posBitBeg := posByteBeg * 8 + bitOffset in
  do cc <- lookup_or_KeyError (CCBlock info)
             (dataGroup, channelGroup, channelNumber) "CCBlock";
  ret {| name := signalName cn;
         channelNumber := channelNumber;
         signalDataType := cn_signalDataType cn;
         bitCount := numberOfBits cn;
         dataFormat := dataFormat;
         CFormat := CFormat;
         nBytes := nBytes;
         byteOffset := byteOffset;
         bitOffset := bitOffset;
         recAttributeName := _convertName (signalName cn);
         channelType := cn_channelType cn;
         posByteBeg := posByteBeg;
         posByteEnd := posByteEnd;
         posBitBeg := posBitBeg;
         posBitEnd := posBitBeg + numberOfBits cn;
         unit_ := default "" (physicalUnit cc);
         desc := default "" (signalDescription cn);
         conversion := cc |}.

(** The [record] class: the list of its channels and its attributes. *)
Record record : Type := {
  channels : list Channel;
  CGrecordLength : Z;
  recordLength : Z;
  dataBlockLength : Z;
  numberOfRecords : Z;
  recordID : Z;
  recordIDnumber : Z;
  dataGroup : Z;
  channelGroup : Z;
  numpyDataRecordFormat : list ((string * string) * string);
  dataRecordName : list string;
  master_name : string;
  master_number : option Z;
  recordToChannelMatching : gmap string string;
  channelNames : list string;
  hiddenBytes : bool;
  byte_aligned : bool
}.

(** What the channel loop of [loadInfo] updates. *)
Record loop_state : Type := {
  l_channels : list Channel;
  l_channelNames : list string;
  l_master_name : string;
  l_master_number : option Z;
  l_byte_aligned : bool;
  l_matching : gmap string string;
  l_format : list ((string * string) * string);
  l_names : list string;
  l_recordLength : Z
}.

(** One turn of [for channelNumber in ...] in [loadInfo], on the channel
    just built. *)
Definition loadInfo_step (st : loop_state) (channel : Channel) : Py loop_state :=
  let is_master := match l_master_number st with
                   | None => true
                   | Some _ => channelType channel =? 1
                   end in
  let master_name := if is_master then name channel else l_master_name st in
  let master_number := if is_master then Some (channelNumber channel)
                       else l_master_number st in
  let previous := last (l_channels st) in
  let chans := l_channels st ++ [channel] in
  let names := l_channelNames st ++ [recAttributeName channel] in
  let not_aligned :=
    match previous with
    | Some prev =>
        (byteOffset prev <=? byteOffset channel)
        && (posBitBeg channel <? 8 * (byteOffset prev + nBytes prev))
        && (8 * (byteOffset prev + nBytes prev) <? posBitEnd channel)
    | None => false
    end in
  let byte_aligned := if not_aligned then false else l_byte_aligned st in
  let embedded :=
    match previous with
    | Some prev =>
        (8 * byteOffset prev <=? posBitBeg channel)
        && (posBitEnd channel <=? 8 * (byteOffset prev + nBytes prev))
    | None => false
    end in
  match previous with
  | Some prev =>
      if embedded then
        if decide (l_matching st = ∅) then
          ret {| l_channels := chans; l_channelNames := names;
                 l_master_name := master_name; l_master_number := master_number;
                 l_byte_aligned := byte_aligned;
                 l_matching := <[recAttributeName channel := recAttributeName channel]>
                                 (l_matching st);
                 l_format := l_format st ++ [RecordFormat channel];
                 l_names := l_names st ++ [name channel];
                 l_recordLength := l_recordLength st + nBytes channel |}
        else
          do owner <- lookup_or_KeyError (l_matching st) (recAttributeName prev)
                        (recAttributeName prev);
          ret {| l_channels := chans; l_channelNames := names;
                 l_master_name := master_name; l_master_number := master_number;
                 l_byte_aligned := byte_aligned;
                 l_matching := <[recAttributeName channel := owner]> (l_matching st);
                 l_format := l_format st; l_names := l_names st;
                 l_recordLength := l_recordLength st |}
      else
        ret {| l_channels := chans; l_channelNames := names;
               l_master_name := master_name; l_master_number := master_number;
               l_byte_aligned := byte_aligned;
               l_matching := <[recAttributeName channel := recAttributeName channel]>
                               (l_matching st);
               l_format := l_format st ++ [RecordFormat channel];
               l_names := l_names st ++ [recAttributeName channel];
               l_recordLength := l_recordLength st + nBytes channel |}
  | None =>
      ret {| l_channels := chans; l_channelNames := names;
             l_master_name := master_name; l_master_number := master_number;
             l_byte_aligned := byte_aligned;
             l_matching := <[recAttributeName channel := recAttributeName channel]>
                             (l_matching st);
             l_format := l_format st ++ [RecordFormat channel];
             l_names := l_names st ++ [recAttributeName channel];
             l_recordLength := l_recordLength st + nBytes channel |}
  end.

Fixpoint loadInfo_loop (info : info3) (dataGroup channelGroup recordIDnumber : Z)
    (channelNumbers : list Z) (st : loop_state) : Py loop_state :=
  match channelNumbers with
  | [] => ret st
  | channelNumber :: rest =>
      do channel <- Channel_init info dataGroup channelGroup channelNumber
                      recordIDnumber;
      do st' <- loadInfo_step st channel;
      loadInfo_loop info dataGroup channelGroup recordIDnumber rest st'
  end.

(** [record(dataGroup, channelGroup)] followed by [loadInfo(info)]. *)
Definition loadInfo (info : info3) (dataGroup channelGroup : Z) : Py record :=
  do dg <- lookup_or_KeyError (DGBlock info) dataGroup "DGBlock";
  do cg <- lookup_or_KeyError (CGBlock info) (dataGroup, channelGroup) "CGBlock";
  let recordIDnumber := numberOfRecordIDs dg in
  let id_name := "RecordID" +:+ str channelGroup in
  let with_id := 0 <? recordIDnumber in
  let st0 := {| l_channels := []; l_channelNames := [];
                l_master_name := "master_" +:+ str dataGroup;
                l_master_number := None;
                l_byte_aligned := true; l_matching := ∅;
                l_format := if with_id
                            then [((id_name +:+ "_title", id_name), "uint8")]
                            else [];
                l_names := if with_id then [id_name] else [];
                l_recordLength := 0 |} in
  do cns <- lookup_or_KeyError (CNBlock info) (dataGroup, channelGroup) "CNBlock";
  do st <- loadInfo_loop info dataGroup channelGroup recordIDnumber
             (map fst cns) st0;
  let id2_name := "RecordID" +:+ str channelGroup +:+ "_2" in
  let with_id2 := recordIDnumber =? 2 in
  ret {| channels := l_channels st;
         CGrecordLength := dataRecordSize cg;
         recordLength := l_recordLength st;
         dataBlockLength :=
           if with_id2 then (dataRecordSize cg + 2) * cg_numberOfRecords cg
           else if with_id then (dataRecordSize cg + 1) * cg_numberOfRecords cg
           else dataRecordSize cg * cg_numberOfRecords cg;
         numberOfRecords := cg_numberOfRecords cg;
         recordID := cg_recordID cg;
         recordIDnumber := recordIDnumber;
         dataGroup := dataGroup;
         channelGroup := channelGroup;
         numpyDataRecordFormat :=
           if with_id2
           then l_format st ++ [((id2_name +:+ "_title", id2_name), "uint8")]
           else l_format st;
         dataRecordName := if with_id2 then l_names st ++ [id2_name] else l_names st;
         master_name := l_master_name st;
         master_number := l_master_number st;
         recordToChannelMatching := l_matching st;
         channelNames := l_channelNames st;
         hiddenBytes := l_recordLength st <? dataRecordSize cg;
         byte_aligned := l_byte_aligned st |}.

End WithNames.

(** [record.readRecordBuf(buf, channelSet)]: the dict of the values
    unpacked from one record. [host_big] is the byte order of the machine,
    followed by a format without a byte-order mark. *)
Definition readRecordBuf (host_big : bool) (self : record) (buf : list Z)
    (channelSet : option (gset string)) : Py (gmap string value) :=
  let channelSet := match channelSet with
                    | Some cs => cs
                    | None => list_to_set (channelNames self)
                    end in
  foldl (fun acc Channel =>
           do temp <- acc;
           if decide (recAttributeName Channel ∈ channelSet) then
             do v <- unpack host_big (CFormat Channel)
                       (slice buf (posByteBeg Channel) (posByteEnd Channel));
             ret (<[recAttributeName Channel := v]> temp)
           else ret temp)
        (ret ∅) (channels self).

End Schema.

(** ** 4.E The DATA class and its unsorted reader *)

Module DataBlock.
Import PyStruct Schema.
Local Open Scope Z_scope.

(** A [DATA] object: the dict from record ID to the channel group's
    [record] (the key ['record'] of each entry), and the attributes. The
    file is its bytes. *)
Record DATA : Type := {
  entries : gmap Z record;
  fid : list Z;
  pointerToData : Z;
  BlockLength : Z
}.

Definition DATA_init (fid : list Z) (pointer : Z) : DATA :=
  {| entries := ∅; fid := fid; pointerToData := pointer; BlockLength := 0 |}.

Definition addRecord (self : DATA) (r : record) : DATA :=
  {| entries := <[recordID r := r]> (entries self);
     fid := fid self;
     pointerToData := pointerToData self;
     BlockLength := BlockLength self + dataBlockLength r |}.

(** What a name denotes where [loadUnSorted] reads the name [record]: the
    module-level class [record] (the method has no local or attribute of
    that name), or, in the charitable reading, the [DATA] dict itself. *)
Inductive binding : Type :=
| TheRecordClass
| TheDataDict.

(** [for recordID in record]: the keys, when the name denotes a dict. *)
Definition iterate (b : binding) (self : DATA) : Py (list Z) :=
  match b with
  | TheRecordClass => raise (TypeError "'type' object is not iterable")
  | TheDataDict => ret (map fst (map_to_list (entries self)))
  end.

(** [record[recordID]['record']] *)
Definition subscript (b : binding) (self : DATA) (recordID : Z) : Py record :=
  match b with
  | TheRecordClass => raise (TypeError "'type' object is not subscriptable")
  | TheDataDict => lookup_or_KeyError (entries self) recordID (str recordID)
  end.

(** The initialisation loops: an empty list per channel name. *)
Definition init_buf (b : binding) (self : DATA) : Py (gmap string (list value)) :=
  do recordIDs <- iterate b self;
  foldl (fun acc recordID =>
           do buf <- acc;
           do r <- subscript b self recordID;
           ret (foldl (fun buf channelName => <[channelName := []]> buf)
                      buf (channelNames r)))
        (ret ∅) recordIDs.

(** [for channelName in temp: buf[channelName].append(temp[channelName])] *)
Definition append_all (buf : gmap string (list value))
    (temp : gmap string value) : Py (gmap string (list value)) :=
  foldl (fun acc kv =>
           do buf <- acc;
           do l <- lookup_or_KeyError buf (fst kv) (fst kv);
           ret (<[fst kv := l ++ [snd kv]]> buf))
        (ret buf) (map_to_list temp).

(** The [while position < len(stream)] loop; [fuel] bounds its turns, and
    the loop that has not ended within them gives [None]. *)
Fixpoint read_loop (fuel : nat) (host_big : bool) (b : binding) (self : DATA)
    (stream : list Z) (nameList : option (gset string)) (position : Z)
    (buf : gmap string (list value)) : option (Py (gmap string (list value))) :=
  if Z.of_nat (length stream) <=? position then Some (ret buf)
  else
    match fuel with
    | O => None
    | S fuel' =>
        let step :=
          do id <- unpack host_big "B" (slice stream position (position + 1));
          let recordID := match id with VInt n => n | _ => 0 end in
          do r <- lookup_or_KeyError (entries self) recordID (str recordID);
          do r1 <- subscript b self recordID;
          do temp <- readRecordBuf host_big r
                       (slice stream position (position + CGrecordLength r1 + 1))
                       nameList;
          do r2 <- subscript b self recordID;
          do buf' <- append_all buf temp;
          ret (position + CGrecordLength r2, buf') in
        match step with
        | (Return (position', buf'), []) =>
            read_loop fuel' host_big b self stream nameList position' buf'
        | (Return (position', buf'), out) =>
            match read_loop fuel' host_big b self stream nameList position' buf' with
            | Some (r, out') => Some (r, out ++ out')
            | None => None
            end
        | (Raise e, out) => Some (Raise e, out)
        end
    end.

(** [loadUnSorted] with the name [record] denoting [b]; the result maps
    each channel name to its list of values ([array(buf[chan])]). *)
Definition loadUnSorted_with (b : binding) (fuel : nat) (host_big : bool)
    (self : DATA) (nameList : option (gset string))
  : option (Py (gmap string (list value))) :=
  let stream := take (Z.to_nat (BlockLength self))
                     (drop (Z.to_nat (pointerToData self)) (fid self)) in
  match init_buf b self with
  | (Return buf, out) =>
      match read_loop fuel host_big b self stream nameList 0 buf with
      | Some (r, out') => Some (r, out ++ out')
      | None => None
      end
  | (Raise e, out) => Some (Raise e, out)
  end.

(** [DATA.loadUnSorted] as written: the name [record] is the class. *)
Definition loadUnSorted := loadUnSorted_with TheRecordClass.

(** The part of [read3] that builds the [DATA] object of a data group: one
    [record] per channel group that has records. *)
Definition read3_DATA (_convertName : string -> string) (info : info3)
    (fid : list Z) (dataGroup : Z) : Py DATA :=
  do dg <- lookup_or_KeyError (DGBlock info) dataGroup "DGBlock";
  foldl (fun acc channelGroup =>
           do buf <- acc;
           do temp <- loadInfo _convertName info dataGroup channelGroup;
           if negb (numberOfRecords temp =? 0) then ret (addRecord buf temp)
           else ret buf)
        (ret (DATA_init fid (pointerToDataRecords dg)))
        (Conversion.range (Z.to_nat (numberOfChannelGroups dg))).

(** What an example shows of a schema. *)
Definition schema_summary (r : record) :=
  (recordID r, CGrecordLength r, dataBlockLength r,
   map (fun c => (recAttributeName c, CFormat c, posByteBeg c, posByteEnd c))
       (channels r)).

End DataBlock.

(** ** 4.H The writer: the file stream and the IDBlock *)

Module Writer.
Import PyStruct.
Local Open Scope Z_scope.

(** A binary file open for writing: its bytes and the stream position. *)
Record stream : Type := { content : list Z; position : nat }.

(** [open(fileName, 'wb')] *)
Definition open_wb : stream := {| content := []; position := 0 |}.

(** [f.write(b)]: overwrite from the position on, extending the file (a
    gap left by a seek past the end reads as zeros). *)
Definition write (f : stream) (b : list Z) : stream :=
  {| content := take (position f) (content f)
                ++ replicate (position f - length (content f)) 0
                ++ b
                ++ drop (position f + length b) (content f);
     position := position f + length b |}.

Definition seek (f : stream) (p : nat) : stream :=
  {| content := content f; position := p |}.

Definition tell (f : stream) : nat := position f.

(** [s.encode('latin1', 'replace')]: one byte per character. *)
Definition encode_latin1 (s : string) : list Z :=
  map (fun c => Z.of_nat (nat_of_ascii c)) (list_ascii_of_string s).

(** ['\0' * n] *)
Fixpoint nul (n : nat) : string :=
  match n with
  | O => EmptyString
  | S n' => String Ascii.zero (nul n')
  end.

(** [writeChar(f, value, size)]; both version branches write the latin1
    bytes of [temp] as one ['<Ns'] field. *)
Definition writeChar (f : stream) (value : string) (size : option nat) : stream :=
  let temp :=
    match size with
    | None => value
    | Some size =>
        (if (size <? String.length value)%nat then String.substring 0 size value
         else value +:+ nul (size - String.length value)) +:+ nul 1
    end in
  write f (encode_latin1 temp).

(** [f.write(pack(fmt, v))] for the unsigned codes, in the byte order of
    the machine when the format has no mark. *)
Definition write_pack (host_big : bool) (f : stream) (fmt : string) (v : Z)
  : Py stream :=
  do b <- pack_unsigned host_big fmt v;
  ret (write f b).

(** [writePointer(f, pointer, value)] *)
Definition writePointer (host_big : bool) (f : stream) (pointer : nat) (value : Z)
  : Py stream :=
  let currentPosition := tell f in
  do f' <- write_pack host_big (seek f pointer) "I" value;
  ret (seek f' currentPosition).

Definition UINT16 : string := "H".
Definition LINK : string := "I".

(** "Starts first to write ID and header": the IDBlock part of [write3],
    on the stream just opened. *)
Definition write3_IDBlock (host_big : bool) (fid : stream) : Py stream :=
  let fid := writeChar fid "MDF     " None in
  let fid := writeChar fid "3.30    " None in
  let fid := writeChar fid "MDFreadr" None in
  do fid <- write_pack host_big fid UINT16 0;
  do fid <- write_pack host_big fid UINT16 0;
  do fid <- write_pack host_big fid UINT16 330;
  do fid <- write_pack host_big fid UINT16 28591;
  ret (writeChar fid (nul 32) None).

(** The start of the header block that follows: the three pointer slots
    whose positions [write3] records with [tell]. *)
Definition write3_HDBlock_pointers (host_big : bool) (fid : stream)
  : Py (stream * (nat * nat * nat)) :=
  let fid := writeChar fid "HD" None in
  do fid <- write_pack host_big fid UINT16 208;
  let DG := tell fid in
  do fid <- write_pack host_big fid LINK 272;
  let TX := tell fid in
  do fid <- write_pack host_big fid LINK 0;
  let PR := tell fid in
  do fid <- write_pack host_big fid LINK 0;
  ret (fid, (DG, TX, PR)).

(** The record-size patch of a channel group: seek, write a UINT16, seek
    back. *)
Definition patch_UINT16 (host_big : bool) (f : stream) (pointer : nat) (value : Z)
  : Py stream :=
  let currentPosition := tell f in
  do f' <- write_pack host_big (seek f pointer) UINT16 value;
  ret (seek f' currentPosition).

(** What [write3] does to the stream afterwards: writes at the current
    position, and patches at positions it recorded with [tell]. *)
Inductive operation : Type :=
| Write (b : list Z)
| WritePointer (pointer : nat) (value : Z)
| PatchSize (pointer : nat) (value : Z).

Definition patched (o : operation) : option nat :=
  match o with
  | Write _ => None
  | WritePointer pointer _ => Some pointer
  | PatchSize pointer _ => Some pointer
  end.

Definition run_operation (host_big : bool) (f : stream) (o : operation) : Py stream :=
  match o with
  | Write b => ret (write f b)
  | WritePointer pointer value => writePointer host_big f pointer value
  | PatchSize pointer value => patch_UINT16 host_big f pointer value
  end.

Fixpoint run (host_big : bool) (f : stream) (ops : list operation) : Py stream :=
  match ops with
  | [] => ret f
  | o :: ops' => do f' <- run_operation host_big f o; run host_big f' ops'
  end.

(** The pointers patched lie at or after [n]. *)
Definition patches_from (n : nat) (ops : list operation) : Prop :=
  forall o pointer, In o ops -> patched o = Some pointer -> (n <= pointer)%nat.

(** The IDBlock of an MDF 3.30 file. *)
Definition IDBlock_bytes : list Z :=
  encode_latin1 "MDF     " ++ encode_latin1 "3.30    " ++ encode_latin1 "MDFreadr"
  ++ [0; 0] ++ [0; 0] ++ [74; 1] ++ [175; 111] ++ replicate 32 0.

End Writer.

(** ** 4.F The bit-repack step of [mdf3.read3] *)

Module Reader.
Import Numpy Schema.
Local Open Scope Z_scope.

(** [chan.bitCount // 8.0 == chan.bitCount / 8.0]: the bit count fills
    whole bytes. *)
Definition whole_bytes (bitCount : Z) : bool := bitCount mod 8 =? 0.

(** The spec's wording of the same test. *)
Definition positive_multiple_of_8 (n : Z) : Prop := exists k, 0 < k /\ n = 8 * k.

(** [int(pow(2, chan.bitCount) - 1)]; a negative exponent gives a float
    below 1, truncated to 0. *)
Definition mask_of (bitCount : Z) : Z :=
  if bitCount <? 0 then 0 else 2 ^ bitCount - 1.

(** numpy's [right_shift] and [bitwise_and] of an integer column with a
    Python integer (arithmetic shift, two's complement and): the values
    are numpy's. The dtype label is passed on as it is, where numpy gives
    the result the byte order of the machine: the label of a byte-swapped
    column stands for the width and the sign only. *)
Definition right_shift (temp : ndarray) (n : Z) : Py ndarray :=
  match temp with
  | IntArray dt l => ret (IntArray dt (map (fun v => Z.shiftr v n) l))
  | _ => raise (TypeError "ufunc 'right_shift' not supported for the input types")
  end.

Definition bitwise_and (temp : ndarray) (mask : Z) : Py ndarray :=
  match temp with
  | IntArray dt l => ret (IntArray dt (map (fun v => Z.land v mask) l))
  | _ => raise (TypeError "ufunc 'bitwise_and' not supported for the input types")
  end.

(** The body of [for chan in channels] in [read3], from the column [temp]
    of the channel's storage slot to the column handed to [add_channel]
    ([None]: the column is empty and no channel is added). *)
Definition read3_channel (chan : Channel) (temp : ndarray) : Py (option ndarray) :=
  if negb (Nat.eqb (size temp) 0) then
    do temp' <- (if negb (whole_bytes (bitCount chan)) then
                   let mask := mask_of (bitCount chan) in
                   if in_tuple (signalDataType chan) [0; 1; 9; 10; 13; 14] then
                     do shifted <- right_shift temp (bitOffset chan);
                     bitwise_and shifted mask
                   else
                     do_ print_stderr
                           "bit count and offset not applied to correct data type";
                     ret temp
                 else ret temp);
    ret (Some temp')
  else ret None.

End Reader.

(** ** Concrete inputs used by the examples below *)

Module Scenarios.
Import Numpy Conversion.
Local Open Scope float_scope.

(** A text range table: the default text, then two overlapping ranges. *)
Definition range_table : list text_range :=
  [ {| lowerRange := 0; upperRange := 0; Textrange := "unknown" |};
    {| lowerRange := 0; upperRange := 10; Textrange := "low" |};
    {| lowerRange := 5; upperRange := 20; Textrange := "mid" |} ].

(** A stand-in for the math library in examples that never reach it: every
    call reports a range error. *)
Definition no_libm : Env :=
  {| math_exp := fun _ => raise (OverflowError "math range error");
     math_log := fun _ => raise (ValueError "math domain error");
     interp := fun _ _ _ => raise (ValueError "interp");
     lambdify_apply := fun _ _ => None |}.

(** A math library tabulated at the one point an example evaluates it at:
    [exp(0) = 1], [log(1) = 0]. *)
Definition libm_at_origin : Env :=
  {| math_exp := fun x => if x =? 0 then ret 1
                          else raise (OverflowError "math range error");
     math_log := fun x => if x =? 1 then ret 0
                          else raise (ValueError "math domain error");
     interp := fun _ _ _ => raise (ValueError "interp");
     lambdify_apply := fun _ _ => None |}.

(** A two-entry table: x = 0 gives 10, x = 10 gives 20. *)
Definition step_table : list (Z * value_pair) :=
  [ (0%Z, {| v_int := 0; v_phys := 10 |});
    (1%Z, {| v_int := 10; v_phys := 20 |}) ].

(** A container with one channel: three raw samples and an exponential
    conversion whose parameters are all zero. *)
Definition invalid_exp_container : gmap string channel_entry :=
  {[ "rpm"%string :=
       {| data := PyArray (IntArray "<u2" [10; 20; 30]%Z);
          conversion := Some {| conv_type := 7;
                                conv_parameters := coefficients7 0 0 0 0 0 0 0 |} |} ]}.

(** S2: one data group, one channel group with a record of one byte and no
    record ID, holding three unsigned channels of 3, 2 and 3 bits at the bit
    positions 0, 3 and 5. *)
Definition cn (signalName : string) (sdt nbits first type : Z) : Schema.CNBlock_t :=
  {| Schema.signalName := signalName; Schema.cn_signalDataType := sdt;
     Schema.numberOfBits := nbits; Schema.numberOfTheFirstBits := first;
     Schema.cn_channelType := type; Schema.signalDescription := None |}.

Definition no_conversion : Schema.CCBlock_t :=
  {| Schema.physicalUnit := None; Schema.cc_conversion := None |}.

Definition S2_info : Schema.info3 :=
  {| Schema.ByteOrder := [0%Z];
     Schema.DGBlock := {[ 0%Z := {| Schema.numberOfRecordIDs := 0;
                                    Schema.numberOfChannelGroups := 1;
                                    Schema.pointerToDataRecords := 0 |} ]};
     Schema.CGBlock := {[ (0%Z, 0%Z) := {| Schema.cg_recordID := 0;
                                           Schema.dataRecordSize := 1;
                                           Schema.cg_numberOfRecords := 1 |} ]};
     Schema.CNBlock := {[ (0%Z, 0%Z) := [ (0%Z, cn "a" 0 3 0 1);
                                          (1%Z, cn "b" 0 2 3 0);
                                          (2%Z, cn "c" 0 3 5 0) ] ]};
     Schema.CCBlock := list_to_map [ ((0%Z, 0%Z, 0%Z), no_conversion);
                                     ((0%Z, 0%Z, 1%Z), no_conversion);
                                     ((0%Z, 0%Z, 2%Z), no_conversion) ] |}.

(** The channels [loadInfo] builds for S2 (names kept as they are). *)
Definition S2_channels : list Schema.Channel :=
  Eval vm_compute in
    match value_of (Schema.loadInfo (fun n => n) S2_info 0 0) with
    | Return r => Schema.channels r
    | Raise _ => []
    end.

Definition S2_channel_b : Schema.Channel :=
  Eval vm_compute in
    match S2_channels with
    | [_; b; _] => b
    | _ => {| Schema.name := ""; Schema.channelNumber := 0;
              Schema.signalDataType := 0; Schema.bitCount := 0;
              Schema.dataFormat := ""; Schema.CFormat := ""; Schema.nBytes := 0;
              Schema.byteOffset := 0; Schema.bitOffset := 0;
              Schema.recAttributeName := ""; Schema.channelType := 0;
              Schema.posByteBeg := 0; Schema.posByteEnd := 0;
              Schema.posBitBeg := 0; Schema.posBitEnd := 0;
              Schema.unit_ := ""; Schema.desc := "";
              Schema.conversion := no_conversion |}
    end.

(** S4: one data group with a one-byte record ID and two channel groups:
    record ID 1 with one uint8 channel (record of 1 byte, 2 records) and
    record ID 2 with one uint16 little-endian channel (record of 2 bytes,
    1 record); the file is the block 01 AA 02 34 12 01 BB. *)
Definition S4_info : Schema.info3 :=
  {| Schema.ByteOrder := [0%Z];
     Schema.DGBlock := {[ 0%Z := {| Schema.numberOfRecordIDs := 1;
                                    Schema.numberOfChannelGroups := 2;
                                    Schema.pointerToDataRecords := 0 |} ]};
     Schema.CGBlock := list_to_map
       [ ((0%Z, 0%Z), {| Schema.cg_recordID := 1; Schema.dataRecordSize := 1;
                         Schema.cg_numberOfRecords := 2 |});
         ((0%Z, 1%Z), {| Schema.cg_recordID := 2; Schema.dataRecordSize := 2;
                         Schema.cg_numberOfRecords := 1 |}) ];
     Schema.CNBlock := list_to_map
       [ ((0%Z, 0%Z), [ (0%Z, cn "a" 0 8 0 1) ]);
         ((0%Z, 1%Z), [ (0%Z, cn "b" 0 16 0 1) ]) ];
     Schema.CCBlock := list_to_map [ ((0%Z, 0%Z, 0%Z), no_conversion);
                                     ((0%Z, 1%Z, 0%Z), no_conversion) ] |}.

Definition S4_file : list Z := [1; 170; 2; 52; 18; 1; 187]%Z.

(** The per-channel vectors the spec expects for S4. *)
Definition S4_expected : gmap string (list PyStruct.value) :=
  list_to_map [ ("a"%string, [PyStruct.VInt 170; PyStruct.VInt 187]);
                ("b"%string, [PyStruct.VInt 4660]) ].

End Scenarios.

(** ** Further notions used by the properties of the tables *)

Module Tables.
Import Numpy Conversion.
Local Open Scope float_scope.

(** The y column of a tabular conversion. *)
Definition table_ys (items : list (Z * value_pair)) : list float :=
  map (fun kv => v_phys (snd kv)) items.

(** [raw] is an integer column or a float64 column, and [xs] are its
    samples as float64. *)
Definition int_or_float64 (raw : ndarray) (xs : list float) : Prop :=
  (exists dtype values, raw = IntArray dtype values /\ xs = map float_of_Z values)
  \/ raw = FloatArray xs.

(** Every entry of [xs] is below the entries after it. *)
Definition strictly_increasing (xs : list float) : Prop :=
  forall i j xi xj, (i < j)%nat -> xs !! i = Some xi -> xs !! j = Some xj ->
                    (xi <? xj) = true.

End Tables.

(** ** Further notions used by the properties of the schema *)

Module Layout.
Import Schema.
Local Open Scope Z_scope.

(** The channels declared as masters ([channelType == 1]). *)
Definition declared_masters (cs : list Channel) : list Channel :=
  filter (fun c => channelType c = 1) cs.

(** The last declared master, or else the first channel. *)
Definition expected_master (cs : list Channel) : option Channel :=
  match last (declared_masters cs) with
  | Some m => Some m
  | None => head cs
  end.

(** The signal types and widths of the branches of the type encoders that
    bind [dataType]. *)
Definition supported (signalDataType numberOfBits : Z) : Prop :=
  (In signalDataType [0; 1; 9; 10; 13; 14] /\ numberOfBits <= 64) \/
  (In signalDataType [2; 3; 11; 12; 15; 16]
   /\ (numberOfBits = 32 \/ numberOfBits = 64)) \/
  signalDataType = 7 \/ signalDataType = 8.

(** The names [readRecordBuf] selects: [channelSet], or every channel name
    when it is [None]. *)
Definition selected (self : record) (channelSet : option (gset string))
  : gset string :=
  match channelSet with
  | Some cs => cs
  | None => list_to_set (channelNames self)
  end.

(** The invariant of the channel loop of [loadInfo] on the storage slots:
    the names follow the channels, every channel has a supported type, and
    its entry in the matching names a field of the record format, listed
    among the record names. *)
Definition slots_ok (st : loop_state) : Prop :=
  l_channelNames st = map recAttributeName (l_channels st) /\
  forall c, In c (l_channels st) ->
    supported (signalDataType c) (bitCount c) /\
    exists owner fmt,
      l_matching st !! recAttributeName c = Some owner /\
      In ((owner +:+ "_title", owner), fmt) (l_format st) /\
      In owner (l_names st).

(** The invariant of the same loop on the master: it is the expected
    master of the channels seen so far, and the initial name [initial]
    while there is none. *)
Definition master_ok (initial : string) (st : loop_state) : Prop :=
  match expected_master (l_channels st) with
  | Some m => l_master_number st = Some (channelNumber m)
              /\ l_master_name st = name m
  | None => l_channels st = [] /\ l_master_number st = None
            /\ l_master_name st = initial
  end.

End Layout.

(** ** 4.K The header, data group and channel group blocks of [write3] *)

Module BlockWriter.
Import PyStruct Writer.
Local Open Scope Z_scope.

Definition INT16 : string := "h".
Definition UINT32 : string := "I".
Definition UINT64 : string := "Q".

(** [pack(fmt, v)] for one signed integer code: two's complement, and the
    value must fit. *)
Definition pack_signed (host_big : bool) (fmt : string) (v : Z) : Py (list Z) :=
  match parse_format host_big fmt with
  | Some (big, CInt true n) =>
      if (- 2 ^ (8 * Z.of_nat n - 1) <=? v) && (v <? 2 ^ (8 * Z.of_nat n - 1)) then
        let b := to_little_endian n (v mod 2 ^ (8 * Z.of_nat n)) in
        ret (if big then rev b else b)
      else raise (StructError "argument out of range")
  | _ => raise (StructError "bad char in struct format")
  end.

Definition write_pack_signed (host_big : bool) (f : stream) (fmt : string) (v : Z)
  : Py stream :=
  do b <- pack_signed host_big fmt v;
  ret (write f b).

(** The keys of [self.file_metadata] the header reads; [None] is Python's
    [None]. *)
Record file_metadata : Type := {
  author : option string;
  organisation : option string;
  project : option string;
  subject : option string
}.

(** "Header Block": [ndataGroup] is [len(self.masterChannelList)], [date]
    and [time] are what [strftime] returns and [timestamp] is
    [int(time() * 1000000000)]. *)
Definition write3_HDBlock (host_big : bool) (fid : stream) (ndataGroup : Z)
    (date time : string) (metadata : file_metadata) (timestamp : Z)
  : Py (stream * (nat * nat * nat)) :=
  do started <- write3_HDBlock_pointers host_big fid;
  let fid := fst started in
  let pointers := snd started in
  do fid <- write_pack host_big fid UINT16 ndataGroup;
  let fid := writeChar fid date None in
  let fid := writeChar fid time None in
  let fid := match author metadata with
             | Some a => writeChar fid a (Some 31%nat)
             | None => writeChar fid " " (Some 31%nat)
             end in
  let fid := match organisation metadata with
             | Some o => writeChar fid o (Some 31%nat)
             | None => writeChar fid " " (Some 31%nat)
             end in
  let fid := match project metadata with
             | Some p => writeChar fid p (Some 31%nat)
             | None => writeChar fid " " (Some 31%nat)
             end in
  let fid := match subject metadata with
             | Some s => writeChar fid s (Some 31%nat)
             | None => writeChar fid " " (Some 31%nat)
             end in
  do fid <- write_pack host_big fid UINT64 timestamp;
  do fid <- write_pack_signed host_big fid INT16 1;
  do fid <- write_pack host_big fid UINT16 0;
  ret (writeChar fid "Local PC Reference Time         " None, pointers).

(** [pointers['DG'][dataGroup]] and [pointers['CG'][dataGroup]]. *)
Record DG_pointers : Type := { DG_nextDG : nat; DG_CG : nat; DG_data : nat }.
Record CG_pointers : Type := {
  CG_firstCN : nat;
  CG_TX : nat;
  CG_dataRecordSize : nat
}.

(** "writes dataGroup Block": [HD_DG] is [pointers['HD']['DG']] and [DG]
    lists the pointers of the data groups written before. *)
Definition write3_DGBlock (host_big : bool) (fid : stream) (HD_DG : nat)
    (DG : list DG_pointers) (dataGroup : nat) : Py (stream * DG_pointers) :=
  do fid <- (if (0 <? dataGroup)%nat then
               match DG !! (dataGroup - 1)%nat with
               | Some previous =>
                   writePointer host_big fid (DG_nextDG previous) (Z.of_nat (tell fid))
               | None => raise (KeyError (str (Z.of_nat dataGroup - 1)))
               end
             else writePointer host_big fid HD_DG (Z.of_nat (tell fid)));
  let fid := writeChar fid "DG" None in
  do fid <- write_pack host_big fid UINT16 28;
  let nextDG := tell fid in
  do fid <- write_pack host_big fid LINK 0;
  let CG := tell fid in
  do fid <- write_pack host_big fid LINK 0;
  do fid <- write_pack host_big fid LINK 0;
  let data := tell fid in
  do fid <- write_pack host_big fid LINK 0;
  do fid <- write_pack host_big fid UINT16 1;
  do fid <- write_pack host_big fid UINT16 0;
  let fid := writeChar fid (nul 32) None in
  ret (fid, {| DG_nextDG := nextDG; DG_CG := CG; DG_data := data |}).

(** The channel group block that follows: [numChannels] is the length of
    the channel list of the data group and [nRecords] is
    [len(masterData)]. *)
Definition write3_CGBlock (host_big : bool) (fid : stream) (DG : DG_pointers)
    (numChannels nRecords : Z) : Py (stream * CG_pointers) :=
  do fid <- writePointer host_big fid (DG_CG DG) (Z.of_nat (tell fid));
  let fid := writeChar fid "CG" None in
  do fid <- write_pack host_big fid UINT16 30;
  do fid <- write_pack host_big fid LINK 0;
  let firstCN := tell fid in
  do fid <- write_pack host_big fid LINK 0;
  let TX := tell fid in
  do fid <- write_pack host_big fid LINK 0;
  do fid <- write_pack host_big fid UINT16 0;
  do fid <- write_pack host_big fid UINT16 numChannels;
  let dataRecordSize := tell fid in
  do fid <- write_pack host_big fid UINT16 0;
  do fid <- write_pack host_big fid UINT32 nRecords;
  do fid <- write_pack host_big fid LINK 0;
  ret (fid, {| CG_firstCN := firstCN; CG_TX := TX;
               CG_dataRecordSize := dataRecordSize |}).

(** What a reader of the file finds at [pointer]: [unpack(fmt, ...)] of the
    [size] bytes there. *)
Definition read_at (host_big : bool) (f : stream) (fmt : string)
    (size pointer : nat) : Py value :=
  unpack host_big fmt
    (slice (content f) (Z.of_nat pointer) (Z.of_nat (pointer + size))).

(** The stream position is the end of the file. *)
Definition at_end (f : stream) : Prop := position f = length (content f).

End BlockWriter.

(** ** 4.L The order of the channels of a data group in [write3] *)

Module MasterOrder.

(** Python's order on strings: by code points, a string before its
    extensions. *)
Definition str_le (s t : string) : Prop := String.leb s t = true.

#[global] Instance str_le_dec (s t : string) : Decision (str_le s t) :=
  decide (String.leb s t = true).

(** [sorted(l)] *)
Definition sorted (l : list string) : list string := merge_sort str_le l.

(** [l.index(x)] *)
Definition index (x : string) (l : list string) : Py nat :=
  match list_find (fun y => y = x) l with
  | Some (i, _) => ret i
  | None => raise (ValueError ("'" +:+ x +:+ "' is not in list"))
  end.

(** The body of the loop "put master channel in first position for each
    datagroup": sort, take the master out and insert it in front. *)
Definition master_first (master : string) (channels : list string)
  : Py (list string) :=
  let masterList := sorted channels in
  do masterPosition <- index master masterList;
  let masterList := delete masterPosition masterList in
  ret (master :: masterList).

(** The loop over [self.masterChannelList], a dict from the master to the
    channels of its data group, in the order of its keys. *)
Definition order_masters (masterChannelList : list (string * list string))
  : Py (list (string * list string)) :=
  mapM (fun entry =>
          do masterList <- master_first (fst entry) (snd entry);
          ret (fst entry, masterList))
       masterChannelList.

End MasterOrder.

(** ** 4.M Reading the block of a data group *)

Module DataRead.
Import PyStruct Schema DataBlock.

Section WithSortedReader.
(** [record.readSortedRecord(fid, pointer, channelSet)] reads through numpy
    and the compiled [dataRead] extension; it is a parameter here, and
    [recarray] is the type of what it returns. *)
Context {recarray : Type}.
Context (readSortedRecord :
           record -> list Z -> Z -> option (gset string) -> Py recarray).

(** What [read] stores under the key ['data'] of a record ID. *)
Inductive loaded : Type :=
| SortedData (rec : recarray)
| UnsortedData (columns : gmap string (list value)).

(** [DATA.loadSorted(record, nameList)] *)
Definition loadSorted (self : DATA) (r : record)
    (nameList : option (gset string)) : Py recarray :=
  readSortedRecord r (fid self) (pointerToData self) nameList.

(** The loop of the unsorted branch of [read] over the channels of one
    record: [self[recordID]['data'][name] = data[name]]. *)
Definition pick_columns (data : gmap string (list value)) (r : record)
  : Py (gmap string (list value)) :=
  foldl (fun acc channel =>
           do columns <- acc;
           do column <- lookup_or_KeyError data (recAttributeName channel)
                          (recAttributeName channel);
           ret (<[recAttributeName channel := column]> columns))
        (ret ∅) (channels r).

(** [DATA.read(channelSet)]: the ['data'] entries it stores, by record ID
    ([None] when the unsorted loop runs out of [fuel]). *)
Definition read (fuel : nat) (host_big : bool) (self : DATA)
    (channelSet : option (gset string)) : option (Py (gmap Z loaded)) :=
  let keys := map_to_list (entries self) in
  if Nat.eqb (length keys) 1 then
    match keys with
    | (recordID, r) :: _ =>
        Some (do d <- loadSorted self r channelSet;
              ret {[ recordID := SortedData d ]})
    | [] => Some (ret ∅)
    end
  else if (2 <=? length keys)%nat then
    match loadUnSorted fuel host_big self channelSet with
    | Some loading =>
        Some (do data <- loading;
              foldl (fun acc entry =>
                       do stored <- acc;
                       do columns <- pick_columns data (snd entry);
                       ret (<[fst entry := UnsortedData columns]> stored))
                    (ret ∅) keys)
    | None => None
    end
  else Some (ret ∅).

End WithSortedReader.

End DataRead.

(* ===================================================================== *)
(** * Properties *)

Section TypeEncoderFacts.
Import TypeEncoder.
Local Open Scope Z_scope.

Example arrayformat3_u12_le : value_of (_arrayformat3 0 12 0) = Return "<u2"%string.
Proof. reflexivity. Qed.

Example arrayformat3_be_i64 : value_of (_arrayformat3 10 33 0) = Return ">i8"%string.
Proof. reflexivity. Qed.

Example arrayformat3_text : value_of (_arrayformat3 7 80 1) = Return "S10"%string.
Proof. vm_compute. reflexivity. Qed.

Example arrayformat3_65 :
  _arrayformat3 0 65 0
  = (Raise (UnboundLocalError "dataType"),
     ["Unsupported number of bits for unsigned int 0 nBits  65"%string]).
Proof. vm_compute. reflexivity. Qed.

Lemma next_width_8 n : n <= 8 -> next_width n 8.
Proof. unfold next_width, widths; simpl; intuition lia. Qed.

Lemma next_width_16 n : 8 < n <= 16 -> next_width n 16.
Proof. unfold next_width, widths; simpl; intuition lia. Qed.

Lemma next_width_32 n : 16 < n <= 32 -> next_width n 32.
Proof. unfold next_width, widths; simpl; intuition lia. Qed.

Lemma next_width_64 n : 32 < n <= 64 -> next_width n 64.
Proof. unfold next_width, widths; simpl; intuition lia. Qed.

Ltac split_bits n :=
  destruct (Z.leb_spec n 8); [|
  destruct (Z.leb_spec n 16); [|
  destruct (Z.leb_spec n 32); [|
  destruct (Z.leb_spec n 64)]]].

Ltac run_encoder :=
  cbv [_arrayformat3 _datatypeformat3 _arrayformat3_dataType
       _datatypeformat3_dataType deal_with_byte_order read_dataType
       in_tuple existsb Z.eqb Pos.eqb orb].

(** The integer group on an in-range width: both encoders return the
    byte-order mark followed by the code of the widened width. *)
Lemma integer_group_widened sdt n bo :
  integer_group sdt -> n <= 64 ->
  exists w, next_width n w /\
    value_of (_arrayformat3 sdt n bo)
      = Return ((if in_tuple sdt [9; 10] then ">"
                 else if in_tuple sdt [13; 14] then "<"
                 else if truthy bo then ">" else "<")
                +:+ spec_numpy_int (signed_type sdt) w) /\
    value_of (_datatypeformat3 sdt n bo)
      = Return ((if in_tuple sdt [9; 10] then ">"
                 else if in_tuple sdt [13; 14] then "<"
                 else if truthy bo then ">" else "<")
                +:+ spec_struct_int (signed_type sdt) w).
Proof.
  intros Hg Hn. unfold integer_group in Hg. simpl in Hg.
  split_bits n; try lia;
    [ exists 8 | exists 16 | exists 32 | exists 64 ];
    (split; [ auto using next_width_8, next_width_16, next_width_32, next_width_64 | ]);
    repeat (destruct Hg as [<- | Hg]); try contradiction;
    run_encoder;
    repeat match goal with
           | H : ?a <= ?b |- context [?a <=? ?b] =>
               rewrite (proj2 (Z.leb_le a b) H)
           | H : ?b < ?a |- context [?a <=? ?b] =>
               rewrite (proj2 (Z.leb_gt a b) H)
           end;
    destruct (truthy bo); split; reflexivity.
Qed.

(** The integer group above 64 bits: [dataType] stays unbound and both
    encoders raise. *)
Lemma integer_group_rejected sdt n bo :
  integer_group sdt -> 64 < n ->
  value_of (_arrayformat3 sdt n bo) = Raise (UnboundLocalError "dataType") /\
  value_of (_datatypeformat3 sdt n bo) = Raise (UnboundLocalError "dataType").
Proof.
  intros Hg Hn. unfold integer_group in Hg. simpl in Hg.
  assert (H8 : 8 < n) by lia. assert (H16 : 16 < n) by lia.
  assert (H32 : 32 < n) by lia.
  repeat (destruct Hg as [<- | Hg]); try contradiction;
    run_encoder;
    rewrite (proj2 (Z.leb_gt n 8) H8), (proj2 (Z.leb_gt n 16) H16),
      (proj2 (Z.leb_gt n 32) H32), (proj2 (Z.leb_gt n 64) Hn);
    destruct (truthy bo); split; reflexivity.
Qed.

Ltac eval_tuples :=
  repeat match goal with
         | |- context [in_tuple ?a ?l] =>
             let b := eval vm_compute in (in_tuple a l) in
             change (in_tuple a l) with b; cbv beta iota
         end.

Ltac split_conditions :=
  repeat match goal with
         | |- context [Z.leb ?a ?b] => destruct (Z.leb a b)
         | |- context [Z.eqb ?a ?b] => destruct (Z.eqb a b)
         | |- context [truthy ?b] => destruct (truthy b)
         end.

Ltac endianness_case :=
  cbv [_arrayformat3 _datatypeformat3 _arrayformat3_dataType
       _datatypeformat3_dataType deal_with_byte_order];
  eval_tuples; split_conditions;
  cbv [bind ret raise print_stderr value_of fst read_dataType String.append];
  intros H; first [ discriminate H | injection H as <-; cbv beta iota; eexists; reflexivity ].

(** The byte-order mark of every descriptor the encoders return. *)
Lemma encoder_endianness (encoder : Z -> Z -> Z -> Py string) sdt n bo s :
  encoder = _arrayformat3 \/ encoder = _datatypeformat3 ->
  value_of (encoder sdt n bo) = Return s ->
  (9 <= sdt <= 12 -> big_endian s) /\
  (13 <= sdt <= 16 -> little_endian s) /\
  (0 <= sdt <= 3 -> if truthy bo then big_endian s else little_endian s).
Proof.
  intros Henc H. repeat split; intros Hr; revert H.
  - assert (Hs : sdt = 9 \/ sdt = 10 \/ sdt = 11 \/ sdt = 12) by lia.
    destruct Henc as [-> | ->];
      destruct Hs as [-> | [-> | [-> | ->]]]; endianness_case.
  - assert (Hs : sdt = 13 \/ sdt = 14 \/ sdt = 15 \/ sdt = 16) by lia.
    destruct Henc as [-> | ->];
      destruct Hs as [-> | [-> | [-> | ->]]]; endianness_case.
  - assert (Hs : sdt = 0 \/ sdt = 1 \/ sdt = 2 \/ sdt = 3) by lia.
    destruct Henc as [-> | ->];
      destruct Hs as [-> | [-> | [-> | ->]]]; endianness_case.
Qed.

(** C8. For the integer signal types, both type encoders widen the bit
    count to the next of 8, 16, 32 and 64 and return the code of that width
    behind the byte-order mark, and they reject (raise on) more than 64
    bits; every descriptor they return is big-endian for signal types 9 to
    12, little-endian for 13 to 16 whatever the file flag is, and follows
    the file byte-order flag for 0 to 3. *)
Theorem type_encoder_widening_endianness (sdt n bo : Z) :
  (integer_group sdt ->
     (n <= 64 ->
        exists w, next_width n w /\
          (exists mark, value_of (_arrayformat3 sdt n bo)
                          = Return (mark +:+ spec_numpy_int (signed_type sdt) w)) /\
          (exists mark, value_of (_datatypeformat3 sdt n bo)
                          = Return (mark +:+ spec_struct_int (signed_type sdt) w))) /\
     (64 < n ->
        ~ accepted (_arrayformat3 sdt n bo) /\
        ~ accepted (_datatypeformat3 sdt n bo))) /\
  (forall s,
     value_of (_arrayformat3 sdt n bo) = Return s \/
     value_of (_datatypeformat3 sdt n bo) = Return s ->
     (9 <= sdt <= 12 -> big_endian s) /\
     (13 <= sdt <= 16 -> little_endian s) /\
     (0 <= sdt <= 3 -> if truthy bo then big_endian s else little_endian s)).
Proof.
  split.
  - intros Hg. split.
    + intros Hn. destruct (integer_group_widened sdt n bo Hg Hn) as (w & Hw & Ha & Hd).
      exists w. split; [exact Hw|]. split; eexists; eassumption.
    + intros Hn. destruct (integer_group_rejected sdt n bo Hg Hn) as [Ha Hd].
      unfold accepted. split; intros [s Hs]; congruence.
  - intros s [H | H].
    + apply (encoder_endianness _arrayformat3 sdt n bo s); auto.
    + apply (encoder_endianness _datatypeformat3 sdt n bo s); auto.
Qed.

End TypeEncoderFacts.

(** ** The outcome monad *)

Section MonadFacts.

Lemma bind_ret_l {A B} (a : A) (k : A -> Py B) : bind (ret a) k = k a.
Proof. reflexivity. Qed.

Lemma bind_raise {A B} (e : exn) (k : A -> Py B) : bind (raise e) k = raise e.
Proof. reflexivity. Qed.

Lemma bind_unfold {A B} (m : Py A) (k : A -> Py B) :
  bind m k = match m with
             | (Return a, out) => (fst (k a), out ++ snd (k a))
             | (Raise e, out) => (Raise e, out)
             end.
Proof.
  destruct m as [[a | e] [| l out]]; simpl; try reflexivity;
    destruct (k a); reflexivity.
Qed.

Lemma bind_ret_r {A} (m : Py A) : bind m ret = m.
Proof.
  rewrite bind_unfold. destruct m as [[a | e] out]; simpl; [| reflexivity].
  now rewrite app_nil_r.
Qed.

Lemma bind_assoc {A B C} (m : Py A) (k : A -> Py B) (h : B -> Py C) :
  bind (bind m k) h = bind m (fun a => bind (k a) h).
Proof.
  rewrite !bind_unfold. destruct m as [[a | e] out]; simpl; [| reflexivity].
  rewrite bind_unfold.
  destruct (k a) as [[b | e] out']; simpl; [| reflexivity].
  now rewrite app_assoc.
Qed.

Lemma bind_ext {A B} (m : Py A) (k k' : A -> Py B) :
  (forall a, k a = k' a) -> bind m k = bind m k'.
Proof.
  intros H. destruct m as [[a | e] [| l out]]; simpl; try reflexivity;
    now rewrite H.
Qed.

Lemma mapM_ret {A B} (f : A -> Py B) (g : A -> B) (l : list A) :
  (forall a, In a l -> f a = ret (g a)) -> mapM f l = ret (map g l).
Proof.
  induction l as [| a l IH]; intros H; simpl; [reflexivity |].
  rewrite (H a) by (left; reflexivity).
  rewrite bind_ret_l, IH by (intros; apply H; right; assumption).
  now rewrite bind_ret_l.
Qed.

End MonadFacts.

(** ** Linear conversion *)

Section LinearFacts.
Import Numpy Conversion.
Local Open Scope float_scope.

Lemma eqb_zero_inv (x : float) : (x =? 0) = true -> x = 0 \/ x = -0.
Proof.
  rewrite FloatAxioms.eqb_spec. change (Prim2SF 0) with (S754_zero false).
  intros H. rewrite <- (SF2Prim_Prim2SF x).
  destruct (Prim2SF x) as [[] | | |]; simpl in H; try discriminate; auto.
  all: try (destruct s; discriminate).
Qed.

Lemma eqb_negzero_inv (x : float) : (x =? -0) = true -> x = 0 \/ x = -0.
Proof.
  rewrite FloatAxioms.eqb_spec. change (Prim2SF (-0)) with (S754_zero true).
  intros H. rewrite <- (SF2Prim_Prim2SF x).
  destruct (Prim2SF x) as [[] | | |]; simpl in H; try discriminate; auto.
  all: try (destruct s; discriminate).
Qed.

(** [x in (0.0, -0.0)] holds exactly for the two zeros. *)
Lemma in_zeros_spec (x : float) : in_zeros x = true <-> x = 0 \/ x = -0.
Proof.
  unfold in_zeros. split.
  - intros H. apply orb_prop in H as [H | H];
      [now apply eqb_zero_inv | now apply eqb_negzero_inv].
  - intros [-> | ->]; reflexivity.
Qed.

(** S5: raw [10, 20, 30] with P1 = -5 and P2 = 0.5. *)
Example linearConv_S5 :
  linearConv (PyArray (IntArray "<u1" [10; 20; 30]%Z))
    (Coefficients (list_to_map [("P1", -5); ("P2", 0.5)]%string))
  = ret (PyArray (FloatArray [0; 5; 10])).
Proof. vm_compute. reflexivity. Qed.

Example linearConv_identity_keeps_dtype :
  linearConv (PyArray (IntArray "<u1" [10; 20; 30]%Z))
    (Coefficients (list_to_map [("P1", -0); ("P2", 1)]%string))
  = ret (PyArray (IntArray "<u1" [10; 20; 30]%Z)).
Proof. vm_compute. reflexivity. Qed.

(** C2. With the parameters P1 and P2 of a linear conversion: when
    P2 == 1.0 and P1 is +0.0 or -0.0 the conversion returns its argument
    itself (an integer column keeps its dtype); otherwise it returns, for a
    numeric column, the float64 column of raw*P2 + P1 taken elementwise. *)
Theorem linearConv_identity_or_affine
    (data : pyobj) (P : gmap string float) (P1 P2 : float) :
  P !! "P1"%string = Some P1 ->
  P !! "P2"%string = Some P2 ->
  ((P2 =? 1) = true /\ (P1 = 0 \/ P1 = -0) ->
     linearConv data (Coefficients P) = ret data) /\
  (~ ((P2 =? 1) = true /\ (P1 = 0 \/ P1 = -0)) ->
     forall raw xs, data = PyArray raw -> as_float64 raw = ret xs ->
     linearConv data (Coefficients P)
     = ret (PyArray (FloatArray (map (fun x => x * P2 + P1) xs)))).
Proof.
  intros H1 H2. unfold linearConv, coefficient. rewrite H1, H2.
  cbn [bind ret]. split.
  - intros [Hp2 Hp1]. rewrite Hp2. cbn [bind ret].
    apply in_zeros_spec in Hp1. now rewrite Hp1.
  - intros Hn raw xs -> Hxs.
    assert (Hid : (if P2 =? 1 then ret (in_zeros P1) else ret false)
                  = ret false).
    { destruct (P2 =? 1) eqn:Hp2; [| reflexivity].
      destruct (in_zeros P1) eqn:Hz; [| reflexivity].
      exfalso. apply Hn. split; [reflexivity |]. now apply in_zeros_spec. }
    rewrite Hid. cbn [bind ret binop]. rewrite Hxs. cbn [bind ret binop as_float64].
    rewrite map_map. reflexivity.
Qed.

Lemma linearConv_identity_or_affine_witness :
  (list_to_map [("P1", -0); ("P2", 1)]%string : gmap string float) !! "P1"%string
    = Some (-0) /\
  (list_to_map [("P1", -0); ("P2", 1)]%string : gmap string float) !! "P2"%string
    = Some 1 /\
  (((1 =? 1) = true /\ (-0 = 0 \/ -0 = -0) ->
     linearConv (PyArray (IntArray "<u2" [7; 8]%Z))
       (Coefficients (list_to_map [("P1", -0); ("P2", 1)]%string))
     = ret (PyArray (IntArray "<u2" [7; 8]%Z))) /\
   (~ ((1 =? 1) = true /\ (-0 = 0 \/ -0 = -0)) ->
     forall raw xs, PyArray (IntArray "<u2" [7; 8]%Z) = PyArray raw ->
     as_float64 raw = ret xs ->
     linearConv (PyArray (IntArray "<u2" [7; 8]%Z))
       (Coefficients (list_to_map [("P1", -0); ("P2", 1)]%string))
     = ret (PyArray (FloatArray (map (fun x => x * 1 + -0) xs))))).
Proof.
  split; [reflexivity |]. split; [reflexivity |].
  apply (linearConv_identity_or_affine
           (PyArray (IntArray "<u2" [7; 8]%Z))
           (list_to_map [("P1", -0); ("P2", 1)]%string) (-0) 1);
    reflexivity.
Defined.

End LinearFacts.

(** ** Text range table *)

Section TextRangeFacts.
Import Numpy Conversion.
Local Open Scope float_scope.

Lemma dict_get_imap {V} (table : list V) (k i : nat) (v : V) :
  table !! i = Some v ->
  dict_get (imap (fun j w => (Z.of_nat (k + j), w)) table) (Z.of_nat (k + i))
  = ret v.
Proof.
  revert k i. induction table as [| w table IH]; intros k i Hi; [easy |].
  destruct i as [| i]; simpl in *.
  - rewrite Z.eqb_refl. congruence.
  - destruct (Z.eqb_spec (Z.of_nat (k + 0)) (Z.of_nat (k + S i))) as [E | _];
      [exfalso; lia |].
    rewrite (imap_ext _ (fun j w => (Z.of_nat (S k + j), w)))
      by (intros; simpl; f_equal; lia).
    replace (k + S i)%nat with (S k + i)%nat by lia. now apply IH.
Qed.

Lemma dict_get_enumerate {V} (table : list V) (i : nat) (v : V) :
  table !! i = Some v -> dict_get (enumerate table) (Z.of_nat i) = ret v.
Proof. intros H. apply (dict_get_imap table 0 i v H). Qed.

Lemma length_enumerate {V} (table : list V) :
  length (enumerate table) = length table.
Proof. unfold enumerate. apply length_imap. Qed.

(** Reading one field of every pair through the dict gives the field of
    every pair of the table, in order. *)
Lemma mapM_fields {V B} (f : V -> B) (table : list V) :
  mapM (fun pair => do e <- dict_get (enumerate table) pair; ret (f e))
       (range (length table))
  = ret (map f table).
Proof.
  destruct table as [| d table']; [reflexivity |].
  set (table := d :: table').
  rewrite (mapM_ret _ (fun pair => f (default d (table !! Z.to_nat pair)))).
  - f_equal. f_equal. unfold range. rewrite map_map.
    apply list_eq. intros i. rewrite !list_lookup_fmap.
    destruct (table !! i) as [v |] eqn:Hi.
    + rewrite lookup_seq_lt by (apply lookup_lt_Some in Hi; exact Hi).
      simpl. rewrite Nat2Z.id, Hi. reflexivity.
    + rewrite lookup_seq_ge by (apply lookup_ge_None in Hi; exact Hi).
      reflexivity.
  - intros pair Hin. unfold range in Hin. apply in_map_iff in Hin as (i & <- & Hi).
    apply in_seq in Hi. rewrite Nat2Z.id.
    destruct (lookup_lt_is_Some_2 table i) as [v Hv]; [lia |].
    rewrite (dict_get_enumerate table i v Hv), Hv. reflexivity.
Qed.

Lemma scan_pairs_find (value : string) (x : float) (pairs : list text_range) :
  scan_pairs value (SFloat x)
    (map (fun r => (lowerRange r, upperRange r, Textrange r)) pairs)
  = ret (match find (fun r => contains r x) pairs with
         | Some r => Textrange r
         | None => value
         end).
Proof.
  induction pairs as [| r pairs IH]; [reflexivity |].
  simpl. unfold contains at 1.
  destruct ((lowerRange r <=? x) && (x <=? upperRange r)); [reflexivity | exact IH].
Qed.

Lemma zip_fields (table : list text_range) :
  zip (zip (map lowerRange table) (map upperRange table)) (map Textrange table)
  = map (fun r => (lowerRange r, upperRange r, Textrange r)) table.
Proof. induction table as [| r table IH]; simpl; [| rewrite IH]; reflexivity. Qed.

Lemma samples_as_float64 (raw : ndarray) (xs : list float) :
  as_float64 raw = ret xs -> samples raw = map SFloat xs /\ size raw = length xs.
Proof.
  destruct raw as [dt l | l | l]; simpl; intros H; inversion H; subst.
  - now rewrite map_map, length_map.
  - easy.
Qed.

Lemma map_nth_seq {A B} (h : A -> B) (d : A) (xs : list A) :
  map (fun i => h (nth i xs d)) (seq 0 (length xs)) = map h xs.
Proof.
  apply list_eq. intros i. rewrite !list_lookup_fmap.
  destruct (xs !! i) as [x |] eqn:Hi; simpl.
  - rewrite lookup_seq_lt by (apply lookup_lt_Some in Hi; exact Hi).
    simpl. f_equal. f_equal. now apply nth_lookup_Some.
  - rewrite lookup_seq_ge by (apply lookup_ge_None in Hi; exact Hi).
    reflexivity.
Qed.

Lemma find_first {A} (p : A -> bool) (l : list A) :
  match find p l with
  | Some r => exists j, l !! j = Some r /\ p r = true /\
                forall k r', (k < j)%nat -> l !! k = Some r' -> p r' = false
  | None => forall k r', l !! k = Some r' -> p r' = false
  end.
Proof.
  induction l as [| a l IH]; simpl.
  - intros k r' H. destruct k; discriminate H.
  - destruct (p a) eqn:Ha.
    + exists 0%nat. repeat split; [exact Ha |]. intros k r' Hk. lia.
    + destruct (find p l) as [r |].
      * destruct IH as (j & Hj & Hp & Hbefore). exists (S j).
        repeat split; [exact Hj | exact Hp |].
        intros [| k] r' Hk Hr'; simpl in Hr'; [congruence |].
        apply (Hbefore k r'); [lia | exact Hr'].
      * intros [| k] r' Hr'; simpl in Hr'; [congruence | eauto].
Qed.

(** The output of the conversion on a numeric column, as a function of the
    table and the samples. *)
Lemma textRangeTableConv_spec (raw : ndarray) (xs : list float)
    (table : list text_range) :
  table <> [] ->
  as_float64 raw = ret xs ->
  textRangeTableConv (PyArray raw) (TextRanges (enumerate table))
  = ret (PyArray (asarray (map (spec_range_text table) xs))).
Proof.
  intros Hne Hxs. destruct table as [| d pairs]; [congruence |].
  destruct (samples_as_float64 raw xs Hxs) as [Hsamples Hsize].
  unfold textRangeTableConv, range_items. cbn [bind ret].
  rewrite length_enumerate, !mapM_fields. cbn [bind ret len].
  rewrite (mapM_ret _ (fun i => spec_range_text (d :: pairs) (nth i xs 0))).
  - rewrite Hsize, map_nth_seq. reflexivity.
  - intros i Hi. apply in_seq in Hi. rewrite zip_fields.
    cbn [map drop lookup list_lookup bind ret].
    unfold getitem. rewrite Hsamples, list_lookup_fmap.
    destruct (lookup_lt_is_Some_2 xs i) as [x Hx]; [lia |].
    rewrite Hx. cbn [fmap option_fmap option_map bind ret].
    rewrite drop_0, scan_pairs_find, (nth_lookup_Some _ _ _ _ Hx). reflexivity.
Qed.

(** C4. For a numeric input column and a non-empty text range table, the
    conversion returns one text per sample: the text of the first pair,
    scanning the indices from 1 upward in table order, whose closed interval
    [lower, upper] contains the sample, and the text stored at index 0 when
    no pair from index 1 on contains it. *)
Theorem textRangeTableConv_first_match (raw : ndarray) (xs : list float)
    (table : list text_range) :
  table <> [] ->
  as_float64 raw = ret xs ->
  exists output : list string,
    textRangeTableConv (PyArray raw) (TextRanges (enumerate table))
      = ret (PyArray (asarray output)) /\
    length output = length xs /\
    forall i x, xs !! i = Some x ->
      (exists j r, (1 <= j)%nat /\ table !! j = Some r /\
         contains r x = true /\
         (forall k r', (1 <= k < j)%nat -> table !! k = Some r' ->
                       contains r' x = false) /\
         output !! i = Some (Textrange r))
      \/
      (exists d, table !! 0%nat = Some d /\
         (forall k r', (1 <= k)%nat -> table !! k = Some r' ->
                       contains r' x = false) /\
         output !! i = Some (Textrange d)).
Proof.
  intros Hne Hxs. exists (map (spec_range_text table) xs).
  split; [now apply textRangeTableConv_spec |].
  split; [apply length_map |].
  intros i x Hx. rewrite list_lookup_fmap, Hx. simpl.
  destruct table as [| d pairs]; [congruence |]. simpl.
  pose proof (find_first (fun r => contains r x) pairs) as Hfind.
  destruct (find (fun r => contains r x) pairs) as [r |].
  - left. destruct Hfind as (j & Hj & Hp & Hbefore).
    exists (S j), r. repeat split; [lia | exact Hj | exact Hp |].
    intros [| k] r' Hk Hr'; [lia |]. simpl in Hr'.
    apply (Hbefore k r'); [lia | exact Hr'].
  - right. exists d. repeat split.
    intros [| k] r' Hk Hr'; [lia |]. simpl in Hr'. eauto.
Qed.

Example textRangeTableConv_overlap :
  textRangeTableConv (PyArray (FloatArray [7; 15; 30; 0]))
    (TextRanges (enumerate Scenarios.range_table))
  = ret (PyArray (StrArray ["low"; "mid"; "unknown"; "low"]%string)).
Proof. vm_compute. reflexivity. Qed.

Example textRangeTableConv_empty_table :
  textRangeTableConv (PyArray (FloatArray [7])) (TextRanges [])
  = (Return PyNone, ["Failed to convert text to range table"%string]).
Proof. vm_compute. reflexivity. Qed.

Lemma textRangeTableConv_first_match_witness :
  Scenarios.range_table <> [] /\
  as_float64 (IntArray "<u1" [7; 15; 30]%Z) = ret [7; 15; 30] /\
  exists output : list string,
    textRangeTableConv (PyArray (IntArray "<u1" [7; 15; 30]%Z))
      (TextRanges (enumerate Scenarios.range_table))
      = ret (PyArray (asarray output)) /\
    length output = length [7; 15; 30] /\
    forall i x, [7; 15; 30] !! i = Some x ->
      (exists j r, (1 <= j)%nat /\ Scenarios.range_table !! j = Some r /\
         contains r x = true /\
         (forall k r', (1 <= k < j)%nat -> Scenarios.range_table !! k = Some r' ->
                       contains r' x = false) /\
         output !! i = Some (Textrange r))
      \/
      (exists d, Scenarios.range_table !! 0%nat = Some d /\
         (forall k r', (1 <= k)%nat -> Scenarios.range_table !! k = Some r' ->
                       contains r' x = false) /\
         output !! i = Some (Textrange d)).
Proof.
  split; [discriminate |]. split; [reflexivity |].
  apply (textRangeTableConv_first_match (IntArray "<u1" [7; 15; 30]%Z)
           [7; 15; 30] Scenarios.range_table);
    [discriminate | reflexivity].
Defined.

End TextRangeFacts.

(** ** Exponential and logarithmic conversions *)

Section ExpLogFacts.
Import Numpy Conversion.
Local Open Scope float_scope.

Lemma coefficient7 (P1 P2 P3 P4 P5 P6 P7 : float) :
  let conv := coefficients7 P1 P2 P3 P4 P5 P6 P7 in
  coefficient conv "P1" = ret P1 /\ coefficient conv "P2" = ret P2 /\
  coefficient conv "P3" = ret P3 /\ coefficient conv "P4" = ret P4 /\
  coefficient conv "P5" = ret P5 /\ coefficient conv "P6" = ret P6 /\
  coefficient conv "P7" = ret P7.
Proof. repeat split; reflexivity. Qed.

Lemma branch_condition_eval (conv : parameters) (a b c : string) (Pa Pb Pc : float) :
  coefficient conv a = ret Pa -> coefficient conv b = ret Pb ->
  coefficient conv c = ret Pc ->
  branch_condition conv a b c
  = ret ((Pa =? 0) && negb (Pb =? 0) && negb (Pc =? 0)).
Proof.
  intros Ha Hb Hc. unfold branch_condition. rewrite Ha. cbn [bind ret].
  destruct (Pa =? 0); [| reflexivity]. rewrite Hb. cbn [bind ret].
  destruct (Pb =? 0); [reflexivity |]. rewrite Hc. reflexivity.
Qed.

(** The first formula on a Python float. *)
Lemma first_branch_scalar (f : float -> Py float) (conv : parameters)
    (x P1 P2 P3 P6 P7 : float) :
  coefficient conv "P1" = ret P1 -> coefficient conv "P2" = ret P2 ->
  coefficient conv "P3" = ret P3 -> coefficient conv "P6" = ret P6 ->
  coefficient conv "P7" = ret P7 ->
  (P1 =? 0) = false -> (P2 =? 0) = false ->
  first_branch f (PyFloat x) conv
  = do e <- f (((x - P7) * P6 - P3) / P1); ret (PyFloat (e / P2)).
Proof.
  intros H1 H2 H3 H6 H7 Hnz1 Hnz2. unfold first_branch.
  rewrite H7, H6, H3, H1, H2. cbn [bind ret binop arith_op]. rewrite Hnz1.
  cbn [bind ret to_float]. apply bind_ext. intros e. now rewrite Hnz2.
Qed.

(** The second formula on a Python float: the division by [x - P7] is one
    of Python floats and raises where the divisor is zero. *)
Lemma second_branch_scalar (f : float -> Py float) (conv : parameters)
    (x P3 P4 P5 P6 P7 : float) :
  coefficient conv "P3" = ret P3 -> coefficient conv "P4" = ret P4 ->
  coefficient conv "P5" = ret P5 -> coefficient conv "P6" = ret P6 ->
  coefficient conv "P7" = ret P7 ->
  (x - P7 =? 0) = false -> (P4 =? 0) = false -> (P5 =? 0) = false ->
  second_branch f (PyFloat x) conv
  = do e <- f ((P3 / (x - P7) - P6) / P4); ret (PyFloat (e / P5)).
Proof.
  intros H3 H4 H5 H6 H7 Hx Hnz4 Hnz5. unfold second_branch.
  rewrite H3, H7, H6, H4, H5. cbn [bind ret binop arith_op]. rewrite Hx.
  cbn [bind ret binop arith_op]. rewrite Hnz4.
  cbn [bind ret to_float]. apply bind_ext. intros e. now rewrite Hnz5.
Qed.

(** On a column, both formulas stop at the call of [f] ([math.exp] or
    [math.log]), which takes a float: the arithmetic before it is done on
    the column, and the conversion of the column to a float raises. *)
Lemma first_branch_column (f : float -> Py float) (raw : ndarray)
    (conv : parameters) (xs : list float) (P1 P3 P6 P7 : float) :
  as_float64 raw = ret xs ->
  coefficient conv "P1" = ret P1 -> coefficient conv "P3" = ret P3 ->
  coefficient conv "P6" = ret P6 -> coefficient conv "P7" = ret P7 ->
  exists msg, first_branch f (PyArray raw) conv = raise (TypeError msg).
Proof.
  intros Hx H1 H3 H6 H7. unfold first_branch.
  rewrite H7, H6, H3, H1. cbn [bind ret binop]. rewrite Hx.
  cbn [bind ret binop as_float64 to_float raise]. eexists. reflexivity.
Qed.

Lemma second_branch_column (f : float -> Py float) (raw : ndarray)
    (conv : parameters) (xs : list float) (P3 P4 P6 P7 : float) :
  as_float64 raw = ret xs ->
  coefficient conv "P3" = ret P3 -> coefficient conv "P4" = ret P4 ->
  coefficient conv "P6" = ret P6 -> coefficient conv "P7" = ret P7 ->
  exists msg, second_branch f (PyArray raw) conv = raise (TypeError msg).
Proof.
  intros Hx H3 H4 H6 H7. unfold second_branch.
  rewrite H3, H7, H6, H4. cbn [bind ret binop]. rewrite Hx.
  cbn [bind ret binop as_float64 to_float raise]. eexists. reflexivity.
Qed.

(** The shared body on a column whose parameters select one of the two
    formulas: a TypeError, whatever the samples are. *)
Lemma exp_log_conv_column (f : float -> Py float) (raw : ndarray)
    (xs : list float) (P1 P2 P3 P4 P5 P6 P7 : float) :
  as_float64 raw = ret xs ->
  (P4 =? 0) && negb (P1 =? 0) && negb (P2 =? 0) = true \/
  (P1 =? 0) && negb (P4 =? 0) && negb (P5 =? 0) = true ->
  exists msg,
    exp_log_conv f (PyArray raw) (coefficients7 P1 P2 P3 P4 P5 P6 P7)
    = raise (TypeError msg).
Proof.
  intros Hx Hc.
  destruct (coefficient7 P1 P2 P3 P4 P5 P6 P7) as (H1 & H2 & H3 & H4 & H5 & H6 & H7).
  cbv zeta in *.
  pose proof (branch_condition_eval _ "P4" "P1" "P2" P4 P1 P2 H4 H1 H2) as Hc1.
  pose proof (branch_condition_eval _ "P1" "P4" "P5" P1 P4 P5 H1 H4 H5) as Hc2.
  unfold exp_log_conv. rewrite Hc1.
  destruct ((P4 =? 0) && negb (P1 =? 0) && negb (P2 =? 0)) eqn:E1; cbn [bind ret].
  - apply (first_branch_column f raw _ xs P1 P3 P6 P7); assumption.
  - destruct Hc as [Hc | Hc]; [discriminate Hc |].
    rewrite Hc2, Hc. cbn [bind ret].
    apply (second_branch_column f raw _ xs P3 P4 P6 P7); assumption.
Qed.

(** With neither branch condition, the shared body prints its diagnostic
    and returns [None]; it raises nothing. *)
Lemma exp_log_conv_neither (f : float -> Py float) (data : pyobj)
    (conv : parameters) :
  branch_condition conv "P4" "P1" "P2" = ret false ->
  branch_condition conv "P1" "P4" "P5" = ret false ->
  exp_log_conv f data conv
  = (Return PyNone, ["Non possible conversion parameters for channel "%string]).
Proof. intros H1 H2. unfold exp_log_conv. rewrite H1, H2. reflexivity. Qed.




(** [math.exp] takes one float: a column is refused before any exponential
    is computed, also a column of one sample. *)
Example expConv_two_samples :
  value_of (expConv Scenarios.libm_at_origin (PyArray (FloatArray [0; 0]))
              (coefficients7 1 1 0 0 0 1 0))
  = Raise (TypeError "only 0-dimensional arrays can be converted to Python scalars").
Proof. vm_compute. reflexivity. Qed.

Example expConv_one_sample :
  value_of (expConv Scenarios.libm_at_origin (PyArray (FloatArray [0]))
              (coefficients7 1 2 0 0 0 1 0))
  = Raise (TypeError "only 0-dimensional arrays can be converted to Python scalars").
Proof. vm_compute. reflexivity. Qed.

Example expConv_scalar :
  expConv Scenarios.libm_at_origin (PyFloat 0) (coefficients7 1 2 0 0 0 1 0)
  = ret (PyFloat 0.5).
Proof. vm_compute. reflexivity. Qed.

End ExpLogFacts.

(** ** Tabular conversion *)

Section TabFacts.
Import Numpy Conversion.
Local Open Scope float_scope.

Lemma searchsorted_le (xs : list float) (v : float) :
  (searchsorted xs v <= length xs)%nat.
Proof.
  induction xs as [| x xs IH]; simpl; [lia |].
  destruct (np_less x v); simpl; lia.
Qed.

Lemma searchsorted_before (xs : list float) (v : float) (k : nat) (x : float) :
  (k < searchsorted xs v)%nat -> xs !! k = Some x -> np_less x v = true.
Proof.
  revert k. induction xs as [| a xs IH]; simpl; intros k Hk Hx; [lia |].
  destruct (np_less a v) eqn:Ha; [| lia].
  destruct k as [| k]; simpl in Hx; [congruence |].
  apply (IH k); [lia | exact Hx].
Qed.

Lemma searchsorted_at (xs : list float) (v x : float) :
  xs !! searchsorted xs v = Some x -> np_less x v = false.
Proof.
  induction xs as [| a xs IH]; simpl; [discriminate |].
  destruct (np_less a v) eqn:Ha; simpl; [exact IH | congruence].
Qed.

Lemma searchsorted_all (xs : list float) (v : float) :
  (forall x, In x xs -> np_less x v = true) -> searchsorted xs v = length xs.
Proof.
  induction xs as [| a xs IH]; simpl; intros H; [reflexivity |].
  rewrite (H a) by (left; reflexivity). f_equal. apply IH.
  intros x Hx. apply H. right. exact Hx.
Qed.

Lemma searchsorted_lt (xs : list float) (v : float) :
  (exists x, In x xs /\ np_less x v = false) ->
  (searchsorted xs v < length xs)%nat.
Proof.
  induction xs as [| a xs IH]; simpl; intros (x & Hx & Hless); [contradiction |].
  destruct (np_less a v) eqn:Ha; [| lia].
  destruct Hx as [-> | Hx]; [congruence |].
  apply Nat.succ_lt_mono in IH; [exact IH | eauto]. 
Qed.

(** On a number (not nan) numpy's order is the float order. *)
Lemma np_less_number (x v : float) : (v =? v) = true -> np_less x v = (x <? v).
Proof. intros Hv. unfold np_less. rewrite Hv. simpl. apply orb_false_r. Qed.

Lemma ltb_np_less (x v : float) : (x <? v) = true -> np_less x v = true.
Proof. intros H. unfold np_less. now rewrite H. Qed.

Lemma table_xs_lookup (items : list (Z * value_pair)) (i : nat) (kv : Z * value_pair) :
  items !! i = Some kv -> table_xs items !! i = Some (v_int (snd kv)).
Proof.
  intros H. unfold table_xs.
  change (map (fun kv => v_int (snd kv)) items)
    with ((fun kv => v_int (snd kv)) <$> items).
  now rewrite list_lookup_fmap, H.
Qed.

Lemma row_phys_Some (items : list (Z * value_pair)) (i : nat) (kv : Z * value_pair) :
  items !! i = Some kv -> row_phys (rows_of items) i = ret (v_phys (snd kv)).
Proof.
  intros H. unfold row_phys, rows_of. rewrite list_lookup_fmap, H. reflexivity.
Qed.

Lemma row_phys_None (items : list (Z * value_pair)) (i : nat) :
  items !! i = None ->
  exists msg, row_phys (rows_of items) i = raise (IndexError msg).
Proof.
  intros H. unfold row_phys, rows_of. rewrite list_lookup_fmap, H.
  eexists. reflexivity.
Qed.

(** [tabConv] on a numeric column and a table with at least one pair: the
    sorted search of every sample, then the lookup of every index. *)
Lemma tabConv_eval (items : list (Z * value_pair)) (raw : ndarray) (vs : list float) :
  items <> [] ->
  as_float64 raw = ret vs ->
  tabConv (PyArray raw) (ValuePairs items)
  = do ys <- mapM (row_phys (rows_of items))
                  (map (searchsorted (table_xs items)) vs);
    ret (PyArray (FloatArray ys)).
Proof.
  intros Hne Hvs. unfold tabConv, table_rows. cbn [bind ret].
  assert (Hcol : column_1 (rows_of items) = ret (table_xs items)).
  { destruct items as [| kv items]; [congruence |].
    unfold column_1, rows_of, table_xs. cbn [map]. rewrite map_map. reflexivity. }
  rewrite Hcol. cbn [bind ret]. rewrite Hvs. reflexivity.
Qed.

Lemma tabConv_empty_table (data : pyobj) :
  tabConv data (ValuePairs []) = raise (IndexError "too many indices for array").
Proof. reflexivity. Qed.

(** A lookup list with an index past the table raises an indexing error,
    whatever the other indexes are. *)
Lemma mapM_row_phys_out_of_bounds (items : list (Z * value_pair))
    (indexes : list nat) (i : nat) :
  In i indexes -> (length items <= i)%nat ->
  exists msg, mapM (row_phys (rows_of items)) indexes = raise (IndexError msg).
Proof.
  induction indexes as [| a indexes IH]; intros Hin Hi; [contradiction |].
  cbn [mapM]. destruct (items !! a) as [kv |] eqn:Ha.
  - rewrite (row_phys_Some items a kv Ha). cbn [bind ret].
    destruct Hin as [-> | Hin].
    + apply lookup_lt_Some in Ha. lia.
    + destruct (IH Hin Hi) as [msg ->]. exists msg. reflexivity.
  - destruct (row_phys_None items a Ha) as [msg ->]. exists msg. reflexivity.
Qed.

(** C10. In a tabular conversion with a table of n pairs, for an input
    column holding a value strictly greater than every table x, the sorted
    search of that value is n, the lookup of y at that index is out of
    bounds and [tabConv] raises an indexing error instead of returning a
    clamped value; the dispatcher and the channel update do not guard the
    call, so the error leaves the conversion engine. *)
Theorem tabConv_above_table_raises (items : list (Z * value_pair))
    (raw : ndarray) (vs : list float) (v : float) :
  as_float64 raw = ret vs ->
  In v vs ->
  (forall kv, In kv items -> (v_int (snd kv) <? v) = true) ->
  searchsorted (table_xs items) v = length items /\
  (exists msg, row_phys (rows_of items) (searchsorted (table_xs items) v)
               = raise (IndexError msg)) /\
  (exists msg, tabConv (PyArray raw) (ValuePairs items) = raise (IndexError msg)) /\
  (forall env (self : gmap string channel_entry) channelName,
     self !! channelName
       = Some {| data := PyArray raw;
                 conversion := Some {| conv_type := 2;
                                       conv_parameters := ValuePairs items |} |} ->
     exists msg,
       _convert3 env self channelName = raise (IndexError msg) /\
       _convertChannel3 env self channelName = raise (IndexError msg)).
Proof.
  intros Hvs Hv Habove.
  assert (Hidx : searchsorted (table_xs items) v = length items).
  { rewrite searchsorted_all; [apply length_map |].
    intros x Hx. unfold table_xs in Hx. apply in_map_iff in Hx as (kv & <- & Hkv).
    apply ltb_np_less, Habove, Hkv. }
  assert (Htab : exists msg,
             tabConv (PyArray raw) (ValuePairs items) = raise (IndexError msg)).
  { destruct items as [| kv0 items'] eqn:Hitems.
    - eexists. apply tabConv_empty_table.
    - rewrite <- Hitems in *. rewrite (tabConv_eval items raw vs) by
        (congruence || exact Hvs).
      destruct (mapM_row_phys_out_of_bounds items
                  (map (searchsorted (table_xs items)) vs) (length items))
        as [msg ->].
      + apply in_map_iff. exists v. split; [exact Hidx | exact Hv].
      + lia.
      + exists msg. reflexivity. }
  split; [exact Hidx |]. split; [| split; [exact Htab |]].
  - rewrite Hidx. apply row_phys_None. apply lookup_ge_None. lia.
  - intros env self channelName Hself. destruct Htab as [msg Htab]. exists msg.
    assert (Hc : _convert3 env self channelName = raise (IndexError msg)).
    { unfold _convert3, self_getitem. rewrite Hself.
      cbn [bind ret conversion data conv_type conv_parameters Z.eqb Pos.eqb].
      exact Htab. }
    split; [exact Hc |]. unfold _convertChannel3. rewrite Hc. reflexivity.
Qed.

Lemma tabConv_above_table_raises_witness :
  as_float64 (FloatArray [5; 11]) = ret [5; 11] /\
  In 11 [5; 11] /\
  (forall kv, In kv Scenarios.step_table -> (v_int (snd kv) <? 11) = true) /\
  searchsorted (table_xs Scenarios.step_table) 11 = length Scenarios.step_table /\
  (exists msg, row_phys (rows_of Scenarios.step_table)
                 (searchsorted (table_xs Scenarios.step_table) 11)
               = raise (IndexError msg)) /\
  (exists msg, tabConv (PyArray (FloatArray [5; 11])) (ValuePairs Scenarios.step_table)
               = raise (IndexError msg)) /\
  (forall env (self : gmap string channel_entry) channelName,
     self !! channelName
       = Some {| data := PyArray (FloatArray [5; 11]);
                 conversion := Some {| conv_type := 2;
                                       conv_parameters := ValuePairs Scenarios.step_table |} |} ->
     exists msg,
       _convert3 env self channelName = raise (IndexError msg) /\
       _convertChannel3 env self channelName = raise (IndexError msg)).
Proof.
  assert (Habove : forall kv, In kv Scenarios.step_table ->
                              (v_int (snd kv) <? 11) = true).
  { intros kv [<- | [<- | []]]; reflexivity. }
  split; [reflexivity |]. split; [right; left; reflexivity |].
  split; [exact Habove |].
  apply (tabConv_above_table_raises Scenarios.step_table (FloatArray [5; 11])
           [5; 11] 11);
    [reflexivity | right; left; reflexivity | exact Habove].
Defined.

(** The claim as the spec states it fails between two table entries: for
    the input 5 and the table x = 0, 10 the conversion returns the y of
    x = 10, while the entry with the largest x not exceeding 5 is x = 0. *)
Lemma tabConv_not_nearest_not_greater :
  tabConv (PyArray (FloatArray [5])) (ValuePairs Scenarios.step_table)
    = ret (PyArray (FloatArray [20])) /\
  spec_nearest_not_greater Scenarios.step_table 5 10 /\
  ~ spec_nearest_not_greater Scenarios.step_table 5 20.
Proof.
  split; [vm_compute; reflexivity |]. split.
  - exists (0%Z, {| v_int := 0; v_phys := 10 |}).
    split; [left; reflexivity |]. split; [reflexivity |]. split; [| reflexivity].
    intros kv' [<- | [<- | []]]; [reflexivity | discriminate].
  - intros (kv & [<- | [<- | []]] & Hle & _ & Hy); simpl in *.
    + vm_compute in Hy. discriminate Hy.
    + vm_compute in Hle. discriminate Hle.
Qed.

(** C7, as the code has it. For a numeric input column and a table of
    (int_x, phys_y) pairs sorted by x, where every input is a number that
    some table x is not less than: the conversion returns, for each input
    value, y[index] with index the sorted search (side left) of the value in
    the x column, and this is the y of the entry whose x is the smallest one
    not less than the input. *)
Theorem tabConv_nearest_not_less (items : list (Z * value_pair))
    (raw : ndarray) (vs : list float) :
  items <> [] ->
  non_decreasing (table_xs items) ->
  as_float64 raw = ret vs ->
  (forall v, In v vs ->
     (v =? v) = true /\ exists kv, In kv items /\ (v_int (snd kv) <? v) = false) ->
  exists ys : list float,
    tabConv (PyArray raw) (ValuePairs items) = ret (PyArray (FloatArray ys)) /\
    length ys = length vs /\
    forall i v, vs !! i = Some v ->
      exists kv,
        items !! searchsorted (table_xs items) v = Some kv /\
        ys !! i = Some (v_phys (snd kv)) /\
        spec_nearest_not_less items v (v_phys (snd kv)).
Proof.
  intros Hne Hsorted Hvs Hin.
  assert (Hlt : forall v, In v vs ->
                  (searchsorted (table_xs items) v < length items)%nat).
  { intros v Hv. destruct (Hin v Hv) as (Hnum & kv & Hkv & Hnl).
    rewrite <- (length_map (fun kv => v_int (snd kv)) items).
    apply searchsorted_lt. exists (v_int (snd kv)). split.
    - unfold table_xs. apply in_map_iff. eauto.
    - now rewrite np_less_number. }
  set (phys_at := fun idx => match items !! idx with
                             | Some kv => v_phys (snd kv)
                             | None => 0
                             end).
  exists (map phys_at (map (searchsorted (table_xs items)) vs)).
  split; [| split].
  - rewrite (tabConv_eval items raw vs Hne Hvs).
    rewrite (mapM_ret _ phys_at); [reflexivity |].
    intros idx Hidx. apply in_map_iff in Hidx as (v & <- & Hv).
    destruct (lookup_lt_is_Some_2 items _ (Hlt v Hv)) as [kv Hkv].
    rewrite (row_phys_Some items _ kv Hkv). unfold phys_at. now rewrite Hkv.
  - now rewrite !length_map.
  - intros i v Hv.
    assert (Hv' : In v vs) by (apply list_elem_of_In, list_elem_of_lookup; eauto).
    destruct (lookup_lt_is_Some_2 items _ (Hlt v Hv')) as [kv Hkv].
    exists kv. split; [exact Hkv |]. split.
    + change (map phys_at (map (searchsorted (table_xs items)) vs))
        with (phys_at <$> (searchsorted (table_xs items) <$> vs)).
      rewrite !list_lookup_fmap, Hv. simpl. unfold phys_at. now rewrite Hkv.
    + destruct (Hin v Hv') as (Hnum & _).
      exists kv. split; [apply list_elem_of_In, list_elem_of_lookup; eauto |].
      pose proof (table_xs_lookup _ _ _ Hkv) as Hx.
      split; [| split; [| reflexivity]].
      * rewrite <- (np_less_number _ v Hnum).
        exact (searchsorted_at (table_xs items) v _ Hx).
      * intros kv' Hkv' Hnl.
        apply list_elem_of_In, list_elem_of_lookup in Hkv' as [j Hj].
        pose proof (table_xs_lookup _ _ _ Hj) as Hxj.
        destruct (Nat.le_gt_cases (searchsorted (table_xs items) v) j) as [Hle | Hgt].
        -- exact (Hsorted _ _ _ _ Hle Hx Hxj).
        -- pose proof (searchsorted_before _ _ _ _ Hgt Hxj) as Hb.
           rewrite (np_less_number _ v Hnum) in Hb. congruence.
Qed.

Lemma step_table_sorted : non_decreasing (table_xs Scenarios.step_table).
Proof.
  intros i j xi xj Hij Hi Hj.
  destruct i as [| [| i]]; destruct j as [| [| j]]; simpl in Hi, Hj;
    try discriminate; try lia;
    injection Hi as <-; injection Hj as <-; reflexivity.
Defined.

Lemma step_table_covers :
  forall v, In v [5; 10; -1] ->
    (v =? v) = true /\
    exists kv, In kv Scenarios.step_table /\ (v_int (snd kv) <? v) = false.
Proof.
  intros v [<- | [<- | [<- | []]]]; (split; [reflexivity |]);
    exists (1%Z, {| v_int := 10; v_phys := 20 |});
    (split; [right; left; reflexivity | reflexivity]).
Defined.

Lemma tabConv_nearest_not_less_witness :
  Scenarios.step_table <> [] /\
  non_decreasing (table_xs Scenarios.step_table) /\
  as_float64 (FloatArray [5; 10; -1]) = ret [5; 10; -1] /\
  (forall v, In v [5; 10; -1] ->
     (v =? v) = true /\
     exists kv, In kv Scenarios.step_table /\ (v_int (snd kv) <? v) = false) /\
  exists ys : list float,
    tabConv (PyArray (FloatArray [5; 10; -1])) (ValuePairs Scenarios.step_table)
      = ret (PyArray (FloatArray ys)) /\
    length ys = length [5; 10; -1] /\
    forall i v, [5; 10; -1] !! i = Some v ->
      exists kv,
        Scenarios.step_table !! searchsorted (table_xs Scenarios.step_table) v
          = Some kv /\
        ys !! i = Some (v_phys (snd kv)) /\
        spec_nearest_not_less Scenarios.step_table v (v_phys (snd kv)).
Proof.
  split; [discriminate |]. split; [exact step_table_sorted |].
  split; [reflexivity |]. split; [exact step_table_covers |].
  apply (tabConv_nearest_not_less Scenarios.step_table
           (FloatArray [5; 10; -1]) [5; 10; -1]);
    [discriminate | exact step_table_sorted | reflexivity | exact step_table_covers].
Defined.

Example tabConv_step_table :
  tabConv (PyArray (FloatArray [5; 10; -1])) (ValuePairs Scenarios.step_table)
  = ret (PyArray (FloatArray [20; 20; 10])).
Proof. vm_compute. reflexivity. Qed.

Example tabConv_above_table :
  tabConv (PyArray (FloatArray [5; 11])) (ValuePairs Scenarios.step_table)
  = raise (IndexError "index 2 is out of bounds for axis 0 with size 2").
Proof. vm_compute. reflexivity. Qed.

End TabFacts.

(** ** The dispatcher and the container update *)

Section DispatchFacts.
Import Numpy Conversion.
Local Open Scope float_scope.

(** C6, at the code. For a channel holding a raw column whose exponential
    (type 7) or logarithmic (type 8) conversion parameters satisfy neither
    branch condition, [_convertChannel3] prints the diagnostic once and
    completes, and the channel's stored data is then [None], not the raw
    column. *)
Theorem convertChannel3_invalid_exp_log (env : Env)
    (self : gmap string channel_entry) (channelName : string)
    (raw : ndarray) (type : Z) (parameters : parameters) :
  self !! channelName
    = Some {| data := PyArray raw;
              conversion := Some {| conv_type := type;
                                    conv_parameters := parameters |} |} ->
  type = 7%Z \/ type = 8%Z ->
  branch_condition parameters "P4" "P1" "P2" = ret false ->
  branch_condition parameters "P1" "P4" "P5" = ret false ->
  exists self' : gmap string channel_entry,
    _convertChannel3 env self channelName
      = (Return self', ["Non possible conversion parameters for channel "%string]) /\
    self' !! channelName = Some {| data := PyNone; conversion := None |} /\
    data <$> (self' !! channelName) <> Some (PyArray raw).
Proof.
  intros Hself Htype Hc1 Hc2.
  exists (<[channelName := {| data := PyNone; conversion := None |}]>
            (<[channelName :=
                 {| data := PyNone;
                    conversion := Some {| conv_type := type;
                                          conv_parameters := parameters |} |}]> self)).
  assert (Hconv : _convert3 env self channelName
                  = (Return PyNone,
                     ["Non possible conversion parameters for channel "%string])).
  { unfold _convert3, self_getitem. rewrite Hself. cbn [bind ret conversion data
      conv_type conv_parameters].
    destruct Htype as [-> | ->]; cbn [Z.eqb Pos.eqb];
      unfold expConv, logConv; now apply exp_log_conv_neither. }
  split; [| split].
  - unfold _convertChannel3. rewrite Hconv.
    unfold setChannelData, remove_channel_conversion, self_getitem.
    rewrite Hself. cbn [bind ret conversion data].
    rewrite lookup_insert_eq. reflexivity.
  - apply lookup_insert_eq.
  - rewrite lookup_insert_eq. discriminate.
Qed.

Lemma convertChannel3_invalid_exp_log_witness :
  Scenarios.invalid_exp_container !! "rpm"%string
    = Some {| data := PyArray (IntArray "<u2" [10; 20; 30]%Z);
              conversion := Some {| conv_type := 7;
                                    conv_parameters := coefficients7 0 0 0 0 0 0 0 |} |} /\
  (7 = 7 \/ 7 = 8)%Z /\
  branch_condition (coefficients7 0 0 0 0 0 0 0) "P4" "P1" "P2" = ret false /\
  branch_condition (coefficients7 0 0 0 0 0 0 0) "P1" "P4" "P5" = ret false /\
  exists self' : gmap string channel_entry,
    _convertChannel3 Scenarios.no_libm Scenarios.invalid_exp_container "rpm"
      = (Return self', ["Non possible conversion parameters for channel "%string]) /\
    self' !! "rpm"%string = Some {| data := PyNone; conversion := None |} /\
    data <$> (self' !! "rpm"%string)
      <> Some (PyArray (IntArray "<u2" [10; 20; 30]%Z)).
Proof.
  split; [reflexivity |]. split; [left; reflexivity |].
  split; [reflexivity |]. split; [reflexivity |].
  apply (convertChannel3_invalid_exp_log Scenarios.no_libm
           Scenarios.invalid_exp_container "rpm"
           (IntArray "<u2" [10; 20; 30]%Z) 7 (coefficients7 0 0 0 0 0 0 0));
    [reflexivity | left; reflexivity | reflexivity | reflexivity].
Defined.

End DispatchFacts.

(** ** Bit repack *)

Section RepackFacts.
Import Numpy Schema Reader.
Local Open Scope Z_scope.

Lemma whole_bytes_positive (n : Z) :
  0 < n -> (whole_bytes n = true <-> positive_multiple_of_8 n).
Proof.
  intros Hn. unfold whole_bytes, positive_multiple_of_8. rewrite Z.eqb_eq. split.
  - intros Hm. exists (n / 8). pose proof (Z.div_mod n 8). lia.
  - intros (k & _ & ->). rewrite Z.mul_comm. apply Z.mod_mul. lia.
Qed.

Lemma mask_of_shift (n : Z) : 0 <= n -> mask_of n = Z.shiftl 1 n - 1.
Proof.
  intros Hn. unfold mask_of.
  destruct (Z.ltb_spec n 0); [lia |]. rewrite Z.shiftl_1_l. reflexivity.
Qed.

Lemma shift_mask_range (v off n : Z) :
  0 <= n -> 0 <= Z.land (Z.shiftr v off) (Z.shiftl 1 n - 1) < 2 ^ n.
Proof.
  intros Hn. rewrite Z.shiftl_1_l.
  replace (2 ^ n - 1) with (Z.ones n) by (rewrite Z.ones_equiv; lia).
  rewrite Z.land_ones by exact Hn. apply Z.mod_pos_bound. lia.
Qed.

Example S2_channels_built :
  map (fun c => (name c, bitCount c, bitOffset c, byteOffset c)) Scenarios.S2_channels
  = [("a"%string, 3, 0, 0); ("b"%string, 2, 3, 0); ("c"%string, 3, 5, 0)].
Proof. reflexivity. Qed.

(** S2: the byte 0b10110101 read through the three channels. *)
Example S2_repack :
  map (fun c => value_of (read3_channel c (IntArray "<u1" [181]))) Scenarios.S2_channels
  = [Return (Some (IntArray "<u1" [5])); Return (Some (IntArray "<u1" [2]));
     Return (Some (IntArray "<u1" [5]))].
Proof. vm_compute. reflexivity. Qed.

(** C3. For a channel (its bit count positive, as in the data model) whose
    bit count is not a positive multiple of 8 and whose signal type is one
    of 0, 1, 9, 10, 13, 14, the repack step turns every decoded value v of
    the column into (v >> bit_offset) & ((1 << bit_count) - 1); hence, with
    a bit count below 8 and an unsigned signal type 0, 9 or 13, every value
    of the output column lies in [0, 2^bit_count). *)
Theorem bit_repack_shift_mask (chan : Channel) (dtype : string) (values : list Z) :
  0 < bitCount chan ->
  ~ positive_multiple_of_8 (bitCount chan) ->
  In (signalDataType chan) [0; 1; 9; 10; 13; 14] ->
  read3_channel chan (IntArray dtype values)
    = ret (match values with
           | [] => None
           | _ => Some (IntArray dtype
                          (map (fun v => Z.land (Z.shiftr v (bitOffset chan))
                                           (Z.shiftl 1 (bitCount chan) - 1))
                               values))
           end) /\
  (bitCount chan < 8 -> In (signalDataType chan) [0; 9; 13] ->
   forall dtype' output,
     read3_channel chan (IntArray dtype values) = ret (Some (IntArray dtype' output)) ->
     forall v, In v output -> 0 <= v < 2 ^ bitCount chan).
Proof.
  intros Hpos Hnot Hsdt.
  assert (Hrun : read3_channel chan (IntArray dtype values)
                 = ret (match values with
                        | [] => None
                        | _ => Some (IntArray dtype
                                       (map (fun v => Z.land (Z.shiftr v (bitOffset chan))
                                                        (Z.shiftl 1 (bitCount chan) - 1))
                                            values))
                        end)).
  { unfold read3_channel. destruct values as [| v0 values']; [reflexivity |].
    cbn [size length Nat.eqb negb].
    assert (Hw : whole_bytes (bitCount chan) = false).
    { destruct (whole_bytes (bitCount chan)) eqn:Hw; [| reflexivity].
      exfalso. apply Hnot. now apply whole_bytes_positive. }
    assert (Hin : in_tuple (signalDataType chan) [0; 1; 9; 10; 13; 14] = true).
    { unfold in_tuple. apply existsb_exists. exists (signalDataType chan).
      split; [exact Hsdt | apply Z.eqb_refl]. }
    rewrite Hw, Hin. cbn [negb right_shift bitwise_and bind ret].
    rewrite mask_of_shift by lia. rewrite map_map. reflexivity. }
  split; [exact Hrun |].
  intros Hlt Hsdt' dtype' output Hout v Hv.
  rewrite Hrun in Hout. destruct values as [| v0 values']; [discriminate Hout |].
  injection Hout as _ <-.
  destruct Hv as [<- | Hv]; [apply shift_mask_range; lia |].
  apply in_map_iff in Hv as (v1 & <- & _). apply shift_mask_range. lia.
Qed.

Lemma bit_repack_shift_mask_witness :
  0 < bitCount Scenarios.S2_channel_b /\
  ~ positive_multiple_of_8 (bitCount Scenarios.S2_channel_b) /\
  In (signalDataType Scenarios.S2_channel_b) [0; 1; 9; 10; 13; 14] /\
  read3_channel Scenarios.S2_channel_b (IntArray "<u1" [181; 255])
    = ret (match [181; 255] with
           | [] => None
           | _ => Some (IntArray "<u1"
                          (map (fun v => Z.land (Z.shiftr v (bitOffset Scenarios.S2_channel_b))
                                           (Z.shiftl 1 (bitCount Scenarios.S2_channel_b) - 1))
                               [181; 255]))
           end) /\
  (bitCount Scenarios.S2_channel_b < 8 ->
   In (signalDataType Scenarios.S2_channel_b) [0; 9; 13] ->
   forall dtype' output,
     read3_channel Scenarios.S2_channel_b (IntArray "<u1" [181; 255])
       = ret (Some (IntArray dtype' output)) ->
     forall v, In v output -> 0 <= v < 2 ^ bitCount Scenarios.S2_channel_b).
Proof.
  assert (Hnot : ~ positive_multiple_of_8 (bitCount Scenarios.S2_channel_b)).
  { intros (k & Hk & E). simpl in E. lia. }
  split; [reflexivity |]. split; [exact Hnot |].
  split; [left; reflexivity |].
  apply (bit_repack_shift_mask Scenarios.S2_channel_b "<u1" [181; 255]);
    [reflexivity | exact Hnot | left; reflexivity].
Defined.

End RepackFacts.

(** ** Unsorted reader *)

Section UnsortedFacts.
Import PyStruct Schema DataBlock.
Local Open Scope Z_scope.

(** With the name [record] denoting the class, the reader stops at its
    first loop, whatever the block is. *)
Lemma loadUnSorted_always_raises (fuel : nat) (host_big : bool) (self : DATA)
    (nameList : option (gset string)) :
  loadUnSorted fuel host_big self nameList
  = Some (raise (TypeError "'type' object is not iterable")).
Proof. reflexivity. Qed.

Example S4_records :
  exists data,
    read3_DATA (fun n => n) Scenarios.S4_info Scenarios.S4_file 0 = ret data /\
    BlockLength data = 7 /\
    schema_summary <$> (entries data !! 1)
      = Some (1, 1, 4, [("a"%string, "<B"%string, 1, 2)]) /\
    schema_summary <$> (entries data !! 2)
      = Some (2, 2, 3, [("b"%string, "<H"%string, 1, 3)]).
Proof.
  eexists. split; [vm_compute; reflexivity |].
  repeat split; vm_compute; reflexivity.
Qed.

(** One turn of the loop, with [record] read as the DATA dict: the byte at
    the cursor is the record ID, its schema unpacks one record from the
    slice of CGrecordLength + 1 bytes, and the cursor moves on by
    CGrecordLength. *)
Lemma read_loop_turn (fuel : nat) (host_big : bool) (self : DATA)
    (stream : list Z) (nameList : option (gset string)) (position id : Z)
    (r : record) (buf buf' : gmap string (list value)) (temp : gmap string value) :
  position < Z.of_nat (length stream) ->
  unpack host_big "B" (slice stream position (position + 1)) = ret (VInt id) ->
  entries self !! id = Some r ->
  readRecordBuf host_big r
    (slice stream position (position + CGrecordLength r + 1)) nameList = ret temp ->
  append_all buf temp = ret buf' ->
  read_loop (S fuel) host_big TheDataDict self stream nameList position buf
  = read_loop fuel host_big TheDataDict self stream nameList
      (position + CGrecordLength r) buf'.
Proof.
  intros Hpos Hid Hr Htemp Happend. cbn [read_loop].
  destruct (Z.leb_spec (Z.of_nat (length stream)) position) as [Hge | _]; [lia |].
  rewrite Hid. cbn [bind ret subscript]. unfold lookup_or_KeyError.
  rewrite Hr. cbn [bind ret]. rewrite Htemp. cbn [bind ret].
  rewrite Happend. reflexivity.
Qed.

(** C1, at the code. On the S4 block 01 AA 02 34 12 01 BB with the two
    registered schemas, [loadUnSorted] as written raises a TypeError at its
    first loop (the name [record] is the class); read with [record] as the
    DATA dict, it decodes the first record, advances the cursor by
    CGrecordLength = 1 only, takes the byte AA as the next record ID and
    raises KeyError: neither reading yields the vectors [0xAA, 0xBB] and
    [0x1234]. *)
Theorem loadUnSorted_S4 :
  exists data,
    read3_DATA (fun n => n) Scenarios.S4_info Scenarios.S4_file 0 = ret data /\
    loadUnSorted 8 false data None
      = Some (raise (TypeError "'type' object is not iterable")) /\
    loadUnSorted_with TheDataDict 8 false data None
      = Some (raise (KeyError "170")) /\
    loadUnSorted 8 false data None <> Some (ret Scenarios.S4_expected) /\
    loadUnSorted_with TheDataDict 8 false data None
      <> Some (ret Scenarios.S4_expected).
Proof.
  eexists. split; [vm_compute; reflexivity |].
  split; [reflexivity |]. split; [vm_compute; reflexivity |].
  split; [discriminate |]. vm_compute. discriminate.
Qed.

End UnsortedFacts.

(** ** The IDBlock written by [write3] *)

Section WriterFacts.
Import PyStruct Writer.
Local Open Scope Z_scope.

Lemma write_keeps_prefix (n : nat) (f : stream) (b : list Z) :
  (n <= position f)%nat -> (n <= length (content f))%nat ->
  take n (content (write f b)) = take n (content f) /\
  (n <= position (write f b))%nat /\
  (n <= length (content (write f b)))%nat.
Proof.
  intros Hpos Hlen. unfold write. cbn [content position].
  assert (Hl : (n <= length (take (position f) (content f)))%nat)
    by (rewrite length_take; lia).
  split; [| split].
  - rewrite take_app_le by exact Hl. rewrite take_take. f_equal. lia.
  - lia.
  - rewrite length_app. lia.
Qed.

Lemma patch_keeps_prefix (host_big : bool) (n : nat) (f f' : stream)
    (fmt : string) (pointer : nat) (value : Z) :
  (n <= pointer)%nat -> (n <= position f)%nat -> (n <= length (content f))%nat ->
  value_of (do f1 <- write_pack host_big (seek f pointer) fmt value;
            ret (seek f1 (tell f))) = Return f' ->
  take n (content f') = take n (content f) /\
  (n <= position f')%nat /\ (n <= length (content f'))%nat.
Proof.
  intros Hptr Hpos Hlen Hrun. unfold write_pack in Hrun.
  destruct (pack_unsigned host_big fmt value) as [[b | e] out] eqn:Hpack;
    [| rewrite !bind_unfold in Hrun; discriminate Hrun].
  rewrite !bind_unfold in Hrun. simpl in Hrun. injection Hrun as <-.
  cbn [content position seek].
  destruct (write_keeps_prefix n (seek f pointer) b) as (Ht & _ & Hl);
    [exact Hptr | exact Hlen |].
  split; [exact Ht |]. split; [exact Hpos | exact Hl].
Qed.

Lemma run_operation_keeps_prefix (host_big : bool) (n : nat) (f f' : stream)
    (o : operation) :
  (forall pointer, patched o = Some pointer -> (n <= pointer)%nat) ->
  (n <= position f)%nat -> (n <= length (content f))%nat ->
  value_of (run_operation host_big f o) = Return f' ->
  take n (content f') = take n (content f) /\
  (n <= position f')%nat /\ (n <= length (content f'))%nat.
Proof.
  intros Hptr Hpos Hlen Hrun. destruct o as [b | pointer value | pointer value].
  - simpl in Hrun. injection Hrun as <-. now apply write_keeps_prefix.
  - apply (patch_keeps_prefix host_big n f f' "I" pointer value); auto.
  - apply (patch_keeps_prefix host_big n f f' UINT16 pointer value); auto.
Qed.

Lemma run_keeps_prefix (host_big : bool) (n : nat) (ops : list operation) :
  patches_from n ops ->
  forall f f', (n <= position f)%nat -> (n <= length (content f))%nat ->
    value_of (run host_big f ops) = Return f' ->
    take n (content f') = take n (content f).
Proof.
  induction ops as [| o ops IH]; intros Hptr f f' Hpos Hlen Hrun.
  - simpl in Hrun. now injection Hrun as <-.
  - cbn [run] in Hrun. rewrite bind_unfold in Hrun.
    destruct (run_operation host_big f o) as [[f1 | e] out] eqn:Ho;
      [| discriminate Hrun].
    destruct (run_operation_keeps_prefix host_big n f f1 o) as (Ht & Hp & Hl).
    + intros pointer Hp. apply (Hptr o pointer); [left; reflexivity | exact Hp].
    + exact Hpos.
    + exact Hlen.
    + now rewrite Ho.
    + rewrite <- Ht.
      apply (IH (fun o' p H => Hptr o' p (or_intror H)) f1 f' Hp Hl).
      simpl in Hrun. unfold value_of. destruct (run host_big f1 ops); simpl in *.
      exact Hrun.
Qed.

(** The pointer slots of the header block lie behind the IDBlock. *)
Example HDBlock_pointers :
  exists fid,
    write3_HDBlock_pointers false {| content := IDBlock_bytes; position := 64 |}
    = ret (fid, (68, 72, 76)%nat).
Proof. eexists. vm_compute. reflexivity. Qed.

Example IDBlock_little_endian_host :
  write3_IDBlock false open_wb
  = ret {| content := IDBlock_bytes; position := 64 |}.
Proof. vm_compute. reflexivity. Qed.

(** [pack('H', 330)] follows the machine: on a big-endian host the two
    bytes come out swapped. *)
Example IDBlock_big_endian_host :
  exists fid, write3_IDBlock true open_wb = ret fid /\
    take 2 (drop 28 (content fid)) = [1; 74].
Proof. eexists. split; vm_compute; reflexivity. Qed.

(** On a little-endian machine the ID block is the one of an MDF 3.30
    file: bytes 0-7 are 'MDF     ', then '3.30    ' and 'MDFreadr', byte
    order 0, float format 0, the version number 330 in bytes 28-29
    (little-endian), the code page 28591 and 32 reserved zero bytes; writes
    at the end and patches at offsets from 64 on leave these 64 bytes as
    they are. *)
Theorem write3_IDBlock_prefix (ops : list operation) :
  patches_from 64 ops ->
  exists fid,
    write3_IDBlock false open_wb = ret fid /\
    tell fid = 64%nat /\
    content fid = IDBlock_bytes /\
    length IDBlock_bytes = 64%nat /\
    take 8 IDBlock_bytes = encode_latin1 "MDF     " /\
    take 8 (drop 8 IDBlock_bytes) = encode_latin1 "3.30    " /\
    take 8 (drop 16 IDBlock_bytes) = encode_latin1 "MDFreadr" /\
    unsigned_of false (take 2 (drop 24 IDBlock_bytes)) = 0 /\
    unsigned_of false (take 2 (drop 26 IDBlock_bytes)) = 0 /\
    take 2 (drop 28 IDBlock_bytes) = [74; 1] /\
    unsigned_of false (take 2 (drop 28 IDBlock_bytes)) = 330 /\
    unsigned_of false (take 2 (drop 30 IDBlock_bytes)) = 28591 /\
    drop 32 IDBlock_bytes = replicate 32 0 /\
    forall fid', value_of (run false fid ops) = Return fid' ->
                 take 64 (content fid') = IDBlock_bytes.
Proof.
  intros Hops. exists {| content := IDBlock_bytes; position := 64 |}.
  split; [exact IDBlock_little_endian_host |].
  repeat (split; [reflexivity |]).
  intros fid' Hrun.
  rewrite (run_keeps_prefix false 64 ops Hops
             {| content := IDBlock_bytes; position := 64 |} fid');
    [reflexivity | | | exact Hrun].
  - cbn [position]. lia.
  - cbn [content]. change (length IDBlock_bytes) with 64%nat. lia.
Qed.

Lemma write3_IDBlock_prefix_witness :
  patches_from 64 [Write (encode_latin1 "HD"); Write [208; 0];
                   Write [0; 0; 0; 0]; WritePointer 68 272; PatchSize 90 16] /\
  exists fid,
    write3_IDBlock false open_wb = ret fid /\
    tell fid = 64%nat /\
    content fid = IDBlock_bytes /\
    length IDBlock_bytes = 64%nat /\
    take 8 IDBlock_bytes = encode_latin1 "MDF     " /\
    take 8 (drop 8 IDBlock_bytes) = encode_latin1 "3.30    " /\
    take 8 (drop 16 IDBlock_bytes) = encode_latin1 "MDFreadr" /\
    unsigned_of false (take 2 (drop 24 IDBlock_bytes)) = 0 /\
    unsigned_of false (take 2 (drop 26 IDBlock_bytes)) = 0 /\
    take 2 (drop 28 IDBlock_bytes) = [74; 1] /\
    unsigned_of false (take 2 (drop 28 IDBlock_bytes)) = 330 /\
    unsigned_of false (take 2 (drop 30 IDBlock_bytes)) = 28591 /\
    drop 32 IDBlock_bytes = replicate 32 0 /\
    forall fid',
      value_of (run false fid [Write (encode_latin1 "HD"); Write [208; 0];
                               Write [0; 0; 0; 0]; WritePointer 68 272;
                               PatchSize 90 16])
        = Return fid' ->
      take 64 (content fid') = IDBlock_bytes.
Proof.
  assert (Hops : patches_from 64 [Write (encode_latin1 "HD"); Write [208; 0];
                                  Write [0; 0; 0; 0]; WritePointer 68 272;
                                  PatchSize 90 16]).
  { intros o pointer [<- | [<- | [<- | [<- | [<- | []]]]]] Hp;
      simpl in Hp; try discriminate Hp; injection Hp as <-; lia. }
  split; [exact Hops |].
  apply (write3_IDBlock_prefix
           [Write (encode_latin1 "HD"); Write [208; 0];
            Write [0; 0; 0; 0]; WritePointer 68 272; PatchSize 90 16] Hops).
Defined.

(** The same patches on a big-endian machine leave the 64 bytes written
    there as they are, too. *)
Lemma IDBlock_big_endian_host_kept (fid : stream) (ops : list operation) :
  write3_IDBlock true open_wb = ret fid ->
  patches_from 64 ops ->
  forall fid', value_of (run true fid ops) = Return fid' ->
               take 64 (content fid') = content fid.
Proof.
  intros Hid Hops fid' Hrun.
  assert (Hfid : position fid = 64%nat /\ length (content fid) = 64%nat).
  { clear Hrun. vm_compute in Hid. injection Hid as <-. split; reflexivity. }
  destruct Hfid as [Hpos Hlen].
  rewrite (run_keeps_prefix true 64 ops Hops fid fid'); [| lia | lia | exact Hrun].
  apply take_ge. lia.
Qed.

(** C9, at the code. [write3] packs the four numbers of the ID block with
    [pack(UINT16, ...)], that is in the byte order of the machine, while
    the block declares byte order 0 (little-endian) and the text fields and
    the data are packed with '<'. On a little-endian machine the 64 bytes
    are those the claim lists. On a big-endian machine the block still
    declares byte order 0, but the version number comes out as 01 4A at
    bytes 28-29 (18945 when read little-endian, not 330) and the code page
    as 6F AF: the file does not begin with the ID block of the claim. *)
Theorem write3_IDBlock_native_byte_order :
  write3_IDBlock false open_wb = ret {| content := IDBlock_bytes; position := 64 |} /\
  take 2 (drop 28 IDBlock_bytes) = [74; 1] /\
  unsigned_of false (take 2 (drop 28 IDBlock_bytes)) = 330 /\
  exists fid,
    write3_IDBlock true open_wb = ret fid /\
    tell fid = 64%nat /\
    length (content fid) = 64%nat /\
    take 24 (content fid) = take 24 IDBlock_bytes /\
    take 2 (drop 24 (content fid)) = [0; 0] /\
    take 2 (drop 28 (content fid)) = [1; 74] /\
    unsigned_of false (take 2 (drop 28 (content fid))) = 18945 /\
    take 2 (drop 30 (content fid)) = [111; 175] /\
    drop 32 (content fid) = replicate 32 0 /\
    content fid <> IDBlock_bytes.
Proof.
  split; [exact IDBlock_little_endian_host |].
  split; [reflexivity |]. split; [reflexivity |].
  eexists. split; [vm_compute; reflexivity |].
  repeat (split; [vm_compute; reflexivity |]).
  vm_compute. discriminate.
Qed.

End WriterFacts.

(** ** Rational conversions (kinds 6 and 9) *)

Section RationalFacts.
Import Numpy Conversion Tables.
Local Open Scope float_scope.

Lemma zip_with_map_same {A B C D} (f : B -> C -> D) (g : A -> B) (h : A -> C)
    (l : list A) :
  zip_with f (map g l) (map h l) = map (fun x => f (g x) (h x)) l.
Proof. induction l as [| a l IH]; simpl; [| rewrite IH]; reflexivity. Qed.

(** Two float columns computed from the same samples combine sample by
    sample. *)
Lemma binop_columns (o : arith) (g h : float -> float) (xs : list float) :
  binop o (PyArray (FloatArray (map g xs))) (PyArray (FloatArray (map h xs)))
  = ret (PyArray (FloatArray (map (fun x => arith_op o (g x) (h x)) xs))).
Proof.
  unfold binop. cbn [as_float64 bind ret]. unfold broadcast.
  rewrite !length_map, Nat.eqb_refl. cbn [bind ret].
  now rewrite zip_with_map_same.
Qed.

Lemma int_or_float64_samples (raw : ndarray) (xs : list float) :
  int_or_float64 raw xs -> as_float64 raw = ret xs.
Proof. now intros [(dtype & values & -> & ->) | ->]. Qed.

(** X1. On an integer column or a float64 column, [polyConv] returns the
    float64 column of (P2 - P4*(x - P5 - P6)) / (P3*(x - P5 - P6) - P1)
    taken sample by sample, x being the sample as float64; it has no guard
    and raises nothing, also where the denominator is zero. *)
Theorem polyConv_formula (raw : ndarray) (xs : list float)
    (P : gmap string float) (P1 P2 P3 P4 P5 P6 : float) :
  int_or_float64 raw xs ->
  P !! "P1"%string = Some P1 -> P !! "P2"%string = Some P2 ->
  P !! "P3"%string = Some P3 -> P !! "P4"%string = Some P4 ->
  P !! "P5"%string = Some P5 -> P !! "P6"%string = Some P6 ->
  polyConv (PyArray raw) (Coefficients P)
  = ret (PyArray (FloatArray
           (map (fun x => (P2 - P4 * (x - P5 - P6)) / (P3 * (x - P5 - P6) - P1))
                xs))).
Proof.
  intros Hxs H1 H2 H3 H4 H5 H6. apply int_or_float64_samples in Hxs.
  unfold polyConv, coefficient.
  rewrite H1, H2, H3, H4, H5, H6. cbn [bind ret binop]. rewrite Hxs.
  cbn [bind ret binop as_float64]. rewrite !map_map.
  apply (binop_columns Div (fun x => P2 - P4 * (x - P5 - P6))
           (fun x => P3 * (x - P5 - P6) - P1) xs).
Qed.

Lemma polyConv_formula_witness :
  int_or_float64 (IntArray "<u1" [1; 2; 3]%Z) [1; 2; 3] /\
  polyConv (PyArray (IntArray "<u1" [1; 2; 3]%Z))
    (Coefficients (list_to_map [("P1", 2); ("P2", 1); ("P3", 1); ("P4", 0);
                                ("P5", 0); ("P6", 0)]%string))
  = ret (PyArray (FloatArray
           (map (fun x => (1 - 0 * (x - 0 - 0)) / (1 * (x - 0 - 0) - 2))
                [1; 2; 3]))).
Proof.
  assert (Hcolumn : int_or_float64 (IntArray "<u1" [1; 2; 3]%Z) [1; 2; 3]).
  { left. exists "<u1"%string, [1; 2; 3]%Z. split; reflexivity. }
  split; [exact Hcolumn |].
  apply (polyConv_formula (IntArray "<u1" [1; 2; 3]%Z) [1; 2; 3]
           (list_to_map [("P1", 2); ("P2", 1); ("P3", 1); ("P4", 0);
                         ("P5", 0); ("P6", 0)]%string) 2 1 1 0 0 0);
    [exact Hcolumn | reflexivity ..].
Defined.

(** The middle sample of the witness hits the zero denominator. *)
Example polyConv_zero_denominator :
  polyConv (PyArray (IntArray "<u1" [1; 2; 3]%Z))
    (Coefficients (list_to_map [("P1", 2); ("P2", 1); ("P3", 1); ("P4", 0);
                                ("P5", 0); ("P6", 0)]%string))
  = ret (PyArray (FloatArray [-1; infinity; 1])).
Proof. vm_compute. reflexivity. Qed.

Lemma broadcast_maps (f : float -> float -> float) (g h : float -> float)
    (xs : list float) :
  broadcast f (map g xs) (map h xs) = ret (map (fun x => f (g x) (h x)) xs).
Proof.
  unfold broadcast. rewrite !length_map, Nat.eqb_refl.
  now rewrite zip_with_map_same.
Qed.

Lemma broadcast_map_l (f : float -> float -> float) (g : float -> float)
    (xs : list float) :
  broadcast f (map g xs) xs = ret (map (fun x => f (g x) x) xs).
Proof.
  rewrite <- (map_id xs) at 2. rewrite broadcast_maps. reflexivity.
Qed.

(** X2. On an integer column or a float64 column, [rationalConv] returns
    the float64 column of (P1*x*x + P2*x + P3) / (P4*x*x + P5*x + P6) taken
    sample by sample, x being the sample as float64 and the products and
    sums associated to the left as written; it raises nothing. *)
Theorem rationalConv_formula (raw : ndarray) (xs : list float)
    (P : gmap string float) (P1 P2 P3 P4 P5 P6 : float) :
  int_or_float64 raw xs ->
  P !! "P1"%string = Some P1 -> P !! "P2"%string = Some P2 ->
  P !! "P3"%string = Some P3 -> P !! "P4"%string = Some P4 ->
  P !! "P5"%string = Some P5 -> P !! "P6"%string = Some P6 ->
  rationalConv (PyArray raw) (Coefficients P)
  = ret (PyArray (FloatArray
           (map (fun x => (P1 * x * x + P2 * x + P3) / (P4 * x * x + P5 * x + P6))
                xs))).
Proof.
  intros Hxs H1 H2 H3 H4 H5 H6. apply int_or_float64_samples in Hxs.
  unfold rationalConv, coefficient.
  rewrite H1, H2, H3, H4, H5, H6. cbn [bind ret binop]. rewrite Hxs.
  repeat (progress (cbn [bind ret binop as_float64 arith_op];
                    rewrite ?Hxs, ?broadcast_map_l, ?broadcast_maps, ?map_map)).
  reflexivity.
Qed.

Lemma rationalConv_formula_witness :
  int_or_float64 (FloatArray [0; 2]) [0; 2] /\
  rationalConv (PyArray (FloatArray [0; 2]))
    (Coefficients (list_to_map [("P1", 1); ("P2", 0); ("P3", 1); ("P4", 0);
                                ("P5", 1); ("P6", 0)]%string))
  = ret (PyArray (FloatArray
           (map (fun x => (1 * x * x + 0 * x + 1) / (0 * x * x + 1 * x + 0))
                [0; 2]))).
Proof.
  split; [right; reflexivity |].
  apply (rationalConv_formula (FloatArray [0; 2]) [0; 2]
           (list_to_map [("P1", 1); ("P2", 0); ("P3", 1); ("P4", 0);
                         ("P5", 1); ("P6", 0)]%string) 1 0 1 0 1 0);
    [right; reflexivity | reflexivity ..].
Defined.

Example rationalConv_zero_denominator :
  rationalConv (PyArray (FloatArray [0; 2]))
    (Coefficients (list_to_map [("P1", 1); ("P2", 0); ("P3", 1); ("P4", 0);
                                ("P5", 1); ("P6", 0)]%string))
  = ret (PyArray (FloatArray [infinity; 2.5])).
Proof. vm_compute. reflexivity. Qed.

End RationalFacts.

(** ** Logarithmic conversion, the dispatcher's fall-through, and the
    conversions that swallow their errors *)

Section MoreConversionFacts.
Import Numpy Conversion.
Local Open Scope float_scope.

(** X3. [logConv] has the branches of [expConv] around [math.log]. For a
    scalar input x (a Python float): log(((x - P7)*P6 - P3)/P1) / P2 when
    P4 == 0, P1 != 0 and P2 != 0; else log((P3/(x - P7) - P6)/P4) / P5
    when P1 == 0, P4 != 0, P5 != 0 and x - P7 is not zero (an error of
    [math.log] propagates). On an integer or float64 column with
    parameters of either branch it raises TypeError, since [math.log]
    takes no array. With parameters of neither branch, on any input, it
    raises nothing: it prints one diagnostic and returns [None]. *)
Theorem logConv_branches (env : Env) (x P1 P2 P3 P4 P5 P6 P7 : float) :
  ((P4 =? 0) && negb (P1 =? 0) && negb (P2 =? 0) = true ->
     logConv env (PyFloat x) (coefficients7 P1 P2 P3 P4 P5 P6 P7)
     = do e <- math_log env (((x - P7) * P6 - P3) / P1); ret (PyFloat (e / P2))) /\
  ((P4 =? 0) && negb (P1 =? 0) && negb (P2 =? 0) = false ->
   (P1 =? 0) && negb (P4 =? 0) && negb (P5 =? 0) = true ->
   (x - P7 =? 0) = false ->
     logConv env (PyFloat x) (coefficients7 P1 P2 P3 P4 P5 P6 P7)
     = do e <- math_log env ((P3 / (x - P7) - P6) / P4); ret (PyFloat (e / P5))) /\
  ((P4 =? 0) && negb (P1 =? 0) && negb (P2 =? 0) = true \/
   (P1 =? 0) && negb (P4 =? 0) && negb (P5 =? 0) = true ->
   forall raw xs, as_float64 raw = ret xs ->
     exists msg,
       logConv env (PyArray raw) (coefficients7 P1 P2 P3 P4 P5 P6 P7)
       = raise (TypeError msg)) /\
  ((P4 =? 0) && negb (P1 =? 0) && negb (P2 =? 0) = false ->
   (P1 =? 0) && negb (P4 =? 0) && negb (P5 =? 0) = false ->
   forall data,
     logConv env data (coefficients7 P1 P2 P3 P4 P5 P6 P7)
     = (Return PyNone, ["Non possible conversion parameters for channel "%string])).
Proof.
  destruct (coefficient7 P1 P2 P3 P4 P5 P6 P7) as (H1 & H2 & H3 & H4 & H5 & H6 & H7).
  cbv zeta in *.
  pose proof (branch_condition_eval _ "P4" "P1" "P2" P4 P1 P2 H4 H1 H2) as Hc1.
  pose proof (branch_condition_eval _ "P1" "P4" "P5" P1 P4 P5 H1 H4 H5) as Hc2.
  split; [| split; [| split]].
  - intros Hc. unfold logConv, exp_log_conv. rewrite Hc1, Hc. cbn [bind ret].
    apply andb_prop in Hc as [Hc Hn2]. apply andb_prop in Hc as [_ Hn1].
    apply (first_branch_scalar _ _ x P1 P2 P3 P6 P7); auto;
      now apply negb_true_iff.
  - intros Hc Hc' Hx. unfold logConv, exp_log_conv. rewrite Hc1, Hc. cbn [bind ret].
    rewrite Hc2, Hc'. cbn [bind ret].
    apply andb_prop in Hc' as [Hc' Hn5]. apply andb_prop in Hc' as [_ Hn4].
    apply (second_branch_scalar _ _ x P3 P4 P5 P6 P7); auto;
      now apply negb_true_iff.
  - intros Hc raw xs Hxs. unfold logConv.
    apply (exp_log_conv_column _ raw xs P1 P2 P3 P4 P5 P6 P7 Hxs Hc).
  - intros Hc Hc' data. rewrite Hc in Hc1. rewrite Hc' in Hc2.
    unfold logConv. apply (exp_log_conv_neither _ data _ Hc1 Hc2).
Qed.

Lemma logConv_branches_witness :
  logConv Scenarios.libm_at_origin (PyFloat 2) (coefficients7 1 4 0 0 0 1 1)
  = ret (PyFloat 0) /\
  logConv Scenarios.libm_at_origin (PyFloat 2) (coefficients7 0 0 1 1 4 0 1)
  = ret (PyFloat 0) /\
  (exists msg,
     logConv Scenarios.libm_at_origin (PyArray (IntArray "<u2" [2; 3]%Z))
       (coefficients7 1 4 0 0 0 1 1)
     = raise (TypeError msg)) /\
  logConv Scenarios.libm_at_origin (PyArray (FloatArray [2])) (coefficients7 1 0 0 0 0 0 0)
  = (Return PyNone, ["Non possible conversion parameters for channel "%string]).
Proof.
  destruct (logConv_branches Scenarios.libm_at_origin 2 1 4 0 0 0 1 1)
    as (Hfirst & _ & Hcolumn & _).
  destruct (logConv_branches Scenarios.libm_at_origin 2 0 0 1 1 4 0 1)
    as (_ & Hsecond & _ & _).
  destruct (logConv_branches Scenarios.libm_at_origin 2 1 0 0 0 0 0 0)
    as (_ & _ & _ & Hneither).
  split; [| split; [| split]].
  - rewrite Hfirst by reflexivity. reflexivity.
  - rewrite Hsecond by reflexivity. reflexivity.
  - apply (Hcolumn (or_introl eq_refl) (IntArray "<u2" [2; 3]%Z)
             (map float_of_Z [2; 3]%Z) eq_refl).
  - apply (Hneither eq_refl eq_refl).
Defined.

Example logConv_one_sample :
  value_of (logConv Scenarios.libm_at_origin (PyArray (FloatArray [2]))
              (coefficients7 1 4 0 0 0 1 1))
  = Raise (TypeError "only 0-dimensional arrays can be converted to Python scalars").
Proof. vm_compute. reflexivity. Qed.

Example logConv_scalar :
  logConv Scenarios.libm_at_origin (PyFloat 2) (coefficients7 1 4 0 0 0 1 1)
  = ret (PyFloat 0).
Proof. vm_compute. reflexivity. Qed.

(** X4. [_convert3] returns the stored data as they are, printing nothing,
    for a channel without a conversion and for a conversion whose type is
    none of 0, 1, 2, 6, 7, 8, 9, 10, 12 (its parameters are not read); a
    channel missing from the container raises KeyError. *)
Theorem convert3_pass_through (env : Env)
    (self : gmap string channel_entry) (channelName : string) :
  (forall chan, self !! channelName = Some chan ->
     (conversion chan = None \/
      exists c, conversion chan = Some c /\
                ~ In (conv_type c) [0; 1; 2; 6; 7; 8; 9; 10; 12]%Z) ->
     _convert3 env self channelName = ret (data chan)) /\
  (self !! channelName = None ->
     _convert3 env self channelName = raise (KeyError channelName)).
Proof.
  split.
  - intros chan Hself Hconv. unfold _convert3, self_getitem. rewrite Hself.
    cbn [bind ret]. destruct Hconv as [-> | (c & -> & Htype)]; [reflexivity |].
    cbn zeta. simpl in Htype.
    repeat match goal with
           | |- context [(conv_type c =? ?n)%Z] =>
               destruct (Z.eqb_spec (conv_type c) n) as [E | _];
               [exfalso; apply Htype; rewrite E; tauto |]
           end.
    reflexivity.
  - intros Hself. unfold _convert3, self_getitem. now rewrite Hself.
Qed.

Example convert3_unknown_type :
  _convert3 Scenarios.no_libm
    {[ "t"%string := {| data := PyArray (IntArray "<u4" [0; 1; 2]%Z);
                        conversion := Some {| conv_type := 65535;
                                              conv_parameters := Coefficients ∅ |} |} ]}
    "t"
  = ret (PyArray (IntArray "<u4" [0; 1; 2]%Z)).
Proof. vm_compute. reflexivity. Qed.

Lemma stderr_bind {A B} (m : Py A) (k : A -> Py B) :
  stderr_of m = [] -> (forall a, stderr_of (k a) = []) ->
  stderr_of (bind m k) = [].
Proof.
  intros Hm Hk. rewrite bind_unfold. destruct m as [[a | e] out]; simpl in *.
  - subst out. apply Hk.
  - exact Hm.
Qed.

Lemma stderr_mapM {A B} (f : A -> Py B) (l : list A) :
  (forall a, stderr_of (f a) = []) -> stderr_of (mapM f l) = [].
Proof.
  intros Hf. induction l as [| a l IH]; [reflexivity |].
  cbn [mapM]. apply stderr_bind; [apply Hf |]. intros b.
  apply stderr_bind; [exact IH |]. reflexivity.
Qed.

Lemma stderr_dict_get {V} (items : list (Z * V)) (k : Z) :
  stderr_of (dict_get items k) = [].
Proof.
  induction items as [| [k' v] items IH]; [reflexivity |].
  simpl. destruct (k' =? k)%Z; [reflexivity | exact IH].
Qed.

Lemma stderr_scan_pairs (value : string) (x : sample)
    (pairs : list (float * float * string)) :
  stderr_of (scan_pairs value x pairs) = [].
Proof.
  induction pairs as [| [[lo up] t] pairs IH]; [reflexivity |].
  cbn [scan_pairs]. apply stderr_bind; [destruct x; reflexivity |].
  intros [|]; [reflexivity | exact IH].
Qed.

Lemma bind_Return_inv {A B} (m : Py A) (k : A -> Py B) (b : B) :
  value_of (bind m k) = Return b ->
  exists a, value_of m = Return a /\ value_of (k a) = Return b.
Proof.
  rewrite bind_unfold. destruct m as [[a | e] out]; simpl; [| discriminate].
  intros H. exists a. split; [reflexivity | exact H].
Qed.

(** X5. [textRangeTableConv] never raises, whatever the data and the
    parameters are: either it returns the array of the texts it chose and
    prints nothing, or (empty table with a non-empty column, a dict of
    another shape, text samples, data without a length) it prints
    'Failed to convert text to range table' once and returns [None]. *)
Theorem textRangeTableConv_never_raises (data : pyobj) (conv : parameters) :
  (exists temp, textRangeTableConv data conv = ret (PyArray (asarray temp))) \/
  textRangeTableConv data conv
  = (Return PyNone, ["Failed to convert text to range table"%string]).
Proof.
  unfold textRangeTableConv.
  match goal with
  | |- context [try_except ?b _] => set (body := b)
  end.
  assert (Hsilent : stderr_of body = []).
  { subst body. apply stderr_bind.
    - destruct conv as [P | [| kv items] | items | f]; simpl;
        try reflexivity. destruct (decide (P = ∅)); reflexivity.
    - intros items. cbv zeta.
      apply stderr_bind;
        [apply stderr_mapM; intros pair; apply stderr_bind;
         [apply stderr_dict_get | reflexivity] |]. intros lower.
      apply stderr_bind;
        [apply stderr_mapM; intros pair; apply stderr_bind;
         [apply stderr_dict_get | reflexivity] |]. intros upper.
      apply stderr_bind;
        [apply stderr_mapM; intros pair; apply stderr_bind;
         [apply stderr_dict_get | reflexivity] |]. intros text.
      apply stderr_bind; [destruct data; reflexivity |]. intros n.
      apply stderr_bind; [| reflexivity].
      apply stderr_mapM. intros Lindex.
      apply stderr_bind; [destruct (text !! 0%nat); reflexivity |]. intros value.
      apply stderr_bind; [| intros x; apply stderr_scan_pairs].
      unfold getitem. destruct data as [| x | a]; try reflexivity.
      destruct (samples a !! Lindex); reflexivity. }
  destruct body as [[v | e] out] eqn:Hbody; simpl in Hsilent; subst out.
  - left.
    assert (Hv : value_of body = Return v) by (rewrite Hbody; reflexivity).
    subst body.
    apply bind_Return_inv in Hv as (items & _ & Hv). cbv zeta in Hv.
    apply bind_Return_inv in Hv as (lower & _ & Hv).
    apply bind_Return_inv in Hv as (upper & _ & Hv).
    apply bind_Return_inv in Hv as (text & _ & Hv).
    apply bind_Return_inv in Hv as (n & _ & Hv).
    apply bind_Return_inv in Hv as (temp & _ & Hv).
    simpl in Hv. injection Hv as <-. exists temp. reflexivity.
  - right. reflexivity.
Qed.

Example textRangeTableConv_text_samples :
  textRangeTableConv (PyArray (StrArray ["a"%string]))
    (TextRanges (enumerate Scenarios.range_table))
  = (Return PyNone, ["Failed to convert text to range table"%string]).
Proof. vm_compute. reflexivity. Qed.

Example textRangeTableConv_empty_column :
  textRangeTableConv (PyArray (FloatArray [])) (TextRanges [])
  = ret (PyArray (FloatArray [])).
Proof. vm_compute. reflexivity. Qed.

End MoreConversionFacts.

(** ** Tabular conversion: table entries and the low end *)

Section TabLookupFacts.
Import Numpy Conversion Tables.
Local Open Scope float_scope.

Lemma ltb_irrefl (x : float) : (x <? x) = false.
Proof.
  rewrite ltb_spec. unfold SFltb.
  destruct (Prim2SF x) as [s | s | | s m e]; simpl.
  - reflexivity.
  - destruct s; reflexivity.
  - reflexivity.
  - destruct s; rewrite Z.compare_refl;
      fold (Pos.compare m m); rewrite Pos.compare_refl; reflexivity.
Qed.

(** No float sorts before itself, nan included. *)
Lemma np_less_irrefl (x : float) : np_less x x = false.
Proof.
  unfold np_less. rewrite ltb_irrefl. destruct (x =? x); reflexivity.
Qed.

Lemma searchsorted_exact (xs : list float) (v : float) (j : nat) (xj : float) :
  (forall i xi, (i < j)%nat -> xs !! i = Some xi -> np_less xi v = true) ->
  xs !! j = Some xj -> np_less xj v = false ->
  searchsorted xs v = j.
Proof.
  revert j. induction xs as [| a xs IH]; intros j Hbefore Hj Hat; [discriminate Hj |].
  destruct j as [| j]; simpl in *.
  - injection Hj as ->. now rewrite Hat.
  - rewrite (Hbefore 0%nat a) by (lia || reflexivity). f_equal.
    apply IH; [| exact Hj | exact Hat].
    intros i xi Hi Hxi. apply (Hbefore (S i) xi); [lia | exact Hxi].
Qed.

(** X6. For a non-empty table whose x values are strictly increasing,
    converting the x column itself gives the y column: an input equal to
    a table x returns the y of that entry. *)
Theorem tabConv_table_entries (items : list (Z * value_pair)) :
  items <> [] ->
  strictly_increasing (table_xs items) ->
  tabConv (PyArray (FloatArray (table_xs items))) (ValuePairs items)
  = ret (PyArray (FloatArray (table_ys items))).
Proof.
  intros Hne Hinc.
  rewrite (tabConv_eval items (FloatArray (table_xs items)) (table_xs items) Hne)
    by reflexivity.
  set (phys_at := fun idx => match items !! idx with
                             | Some kv => v_phys (snd kv)
                             | None => 0
                             end).
  assert (Hidx : forall j kv, items !! j = Some kv ->
                   searchsorted (table_xs items) (v_int (snd kv)) = j).
  { intros j kv Hj.
    apply (searchsorted_exact _ _ j (v_int (snd kv)));
      [| now apply table_xs_lookup | apply np_less_irrefl].
    intros i xi Hi Hxi. apply ltb_np_less.
    apply (Hinc i j xi (v_int (snd kv)) Hi Hxi). now apply table_xs_lookup. }
  rewrite (mapM_ret _ phys_at).
  - cbn [bind ret]. do 3 f_equal. unfold table_xs, table_ys. rewrite !map_map.
    apply list_eq. intros j.
    change (map ?f items) with (f <$> items). rewrite !list_lookup_fmap.
    destruct (items !! j) as [kv |] eqn:Hj; [| reflexivity].
    cbn [fmap option_fmap option_map]. f_equal.
    fold (table_xs items). rewrite (Hidx j kv Hj). unfold phys_at. now rewrite Hj.
  - intros idx Hin. apply in_map_iff in Hin as (v & <- & Hv).
    unfold table_xs in Hv. apply in_map_iff in Hv as (kv & <- & Hkv).
    apply list_elem_of_In, list_elem_of_lookup in Hkv as [j Hj].
    rewrite (Hidx j kv Hj), (row_phys_Some items j kv Hj).
    unfold phys_at. now rewrite Hj.
Qed.

Lemma step_table_increasing : strictly_increasing (table_xs Scenarios.step_table).
Proof.
  intros i j xi xj Hij Hi Hj.
  destruct i as [| [| i]]; destruct j as [| [| j]]; simpl in Hi, Hj;
    try discriminate; try lia.
  injection Hi as <-. injection Hj as <-. reflexivity.
Defined.

Lemma tabConv_table_entries_witness :
  Scenarios.step_table <> [] /\
  strictly_increasing (table_xs Scenarios.step_table) /\
  tabConv (PyArray (FloatArray (table_xs Scenarios.step_table)))
    (ValuePairs Scenarios.step_table)
  = ret (PyArray (FloatArray (table_ys Scenarios.step_table))).
Proof.
  split; [discriminate |]. split; [exact step_table_increasing |].
  apply (tabConv_table_entries Scenarios.step_table);
    [discriminate | exact step_table_increasing].
Defined.

(** X7. At the low end the tabular conversion clamps: for a table sorted
    by x, every input that is a number not above the first table x returns
    the first y (while an input above every x raises, see C10). *)
Theorem tabConv_below_table (kv0 : Z * value_pair) (items : list (Z * value_pair))
    (raw : ndarray) (vs : list float) :
  non_decreasing (table_xs (kv0 :: items)) ->
  as_float64 raw = ret vs ->
  (forall v, In v vs -> (v =? v) = true /\ (v_int (snd kv0) <? v) = false) ->
  tabConv (PyArray raw) (ValuePairs (kv0 :: items))
  = ret (PyArray (FloatArray (map (fun _ => v_phys (snd kv0)) vs))).
Proof.
  intros _ Hvs Hlow.
  rewrite (tabConv_eval (kv0 :: items) raw vs) by (discriminate || exact Hvs).
  rewrite (mapM_ret _ (fun _ => v_phys (snd kv0))).
  - cbn [bind ret]. now rewrite map_map.
  - intros idx Hin. apply in_map_iff in Hin as (v & <- & Hv).
    destruct (Hlow v Hv) as [Hnum Hnl].
    cbn [table_xs map searchsorted]. rewrite (np_less_number _ v Hnum), Hnl.
    reflexivity.
Qed.

Lemma tabConv_below_table_witness :
  non_decreasing (table_xs ((0%Z, {| v_int := 0; v_phys := 10 |})
                            :: [(1%Z, {| v_int := 10; v_phys := 20 |})])) /\
  as_float64 (IntArray "<i1" [-3; 0]%Z) = ret [-3; 0] /\
  (forall v, In v [-3; 0] -> (v =? v) = true /\ (0 <? v) = false) /\
  tabConv (PyArray (IntArray "<i1" [-3; 0]%Z))
    (ValuePairs ((0%Z, {| v_int := 0; v_phys := 10 |})
                 :: [(1%Z, {| v_int := 10; v_phys := 20 |})]))
  = ret (PyArray (FloatArray (map (fun _ => 10) [-3; 0]))).
Proof.
  assert (Hlow : forall v, In v [-3; 0] -> (v =? v) = true /\ (0 <? v) = false).
  { intros v [<- | [<- | []]]; split; reflexivity. }
  split; [exact step_table_sorted |]. split; [reflexivity |].
  split; [exact Hlow |].
  apply (tabConv_below_table (0%Z, {| v_int := 0; v_phys := 10 |})
           [(1%Z, {| v_int := 10; v_phys := 20 |})]
           (IntArray "<i1" [-3; 0]%Z) [-3; 0]);
    [exact step_table_sorted | reflexivity | exact Hlow].
Defined.

End TabLookupFacts.

(** ** Channel descriptors *)

Section ChannelFacts.
Import PyStruct Schema.
Local Open Scope Z_scope.
Context (_convertName : string -> string).

Lemma lookup_or_KeyError_inv {K V} `{Countable K} (m : gmap K V) (k : K)
    (shown : string) (v : V) :
  value_of (lookup_or_KeyError m k shown) = Return v -> m !! k = Some v.
Proof.
  unfold lookup_or_KeyError. destruct (m !! k); simpl; [congruence | discriminate].
Qed.

(** What a successful [Channel.__init__] went through: the CN block it read
    and the byte-order flag, with the fields it computed from them. *)
Lemma Channel_init_inv (info : info3) (dataGroup channelGroup channelNumber
    recordIDnumber : Z) (chan : Channel) :
  value_of (Channel_init _convertName info dataGroup channelGroup channelNumber
              recordIDnumber) = Return chan ->
  exists cns cn bo,
    CNBlock info !! (dataGroup, channelGroup) = Some cns /\
    value_of (Conversion.dict_get cns channelNumber) = Return cn /\
    head (ByteOrder info) = Some bo /\
    value_of (TypeEncoder._arrayformat3 (cn_signalDataType cn) (numberOfBits cn) bo)
      = Return (dataFormat chan) /\
    value_of (TypeEncoder._datatypeformat3 (cn_signalDataType cn) (numberOfBits cn) bo)
      = Return (CFormat chan) /\
    name chan = signalName cn /\
    Schema.channelNumber chan = channelNumber /\
    recAttributeName chan = _convertName (signalName cn) /\
    signalDataType chan = cn_signalDataType cn /\
    channelType chan = cn_channelType cn /\
    bitCount chan = numberOfBits cn /\
    byteOffset chan = numberOfTheFirstBits cn / 8 /\
    bitOffset chan = numberOfTheFirstBits cn mod 8 /\
    posByteBeg chan = recordIDnumber + byteOffset chan /\
    posByteEnd chan = posByteBeg chan + nBytes chan /\
    posBitBeg chan = posByteBeg chan * 8 + bitOffset chan /\
    posBitEnd chan = posBitBeg chan + bitCount chan.
Proof.
  intros H. unfold Channel_init in H.
  apply bind_Return_inv in H as (cns & Hcns & H).
  apply lookup_or_KeyError_inv in Hcns.
  apply bind_Return_inv in H as (cn & Hcn & H).
  apply bind_Return_inv in H as (bo & Hbo & H).
  apply bind_Return_inv in H as (dataFormat & Hdf & H).
  apply bind_Return_inv in H as (CFormat & Hcf & H).
  apply bind_Return_inv in H as (_ & _ & H).
  cbv zeta in H.
  apply bind_Return_inv in H as (cc & _ & H).
  simpl in H. injection H as <-. cbn.
  exists cns, cn, bo. repeat split; try assumption; try lia.
  destruct (ByteOrder info) as [| b l]; simpl in *; [discriminate | congruence].
Qed.

(** X8. A channel that [Channel.__init__] builds splits the bit position
    of the CN block without loss: 8*byteOffset + bitOffset is
    numberOfTheFirstBits with bitOffset in 0..7; its byte range starts
    recordIDnumber bytes into the record and spans nBytes; its bit range
    starts at 8*recordIDnumber + numberOfTheFirstBits and spans bitCount. *)
Theorem Channel_init_layout (info : info3) (dataGroup channelGroup channelNumber
    recordIDnumber : Z) (chan : Channel) :
  value_of (Channel_init _convertName info dataGroup channelGroup channelNumber
              recordIDnumber) = Return chan ->
  exists cns cn,
    CNBlock info !! (dataGroup, channelGroup) = Some cns /\
    value_of (Conversion.dict_get cns channelNumber) = Return cn /\
    8 * byteOffset chan + bitOffset chan = numberOfTheFirstBits cn /\
    0 <= bitOffset chan < 8 /\
    posByteBeg chan = recordIDnumber + byteOffset chan /\
    posByteEnd chan - posByteBeg chan = nBytes chan /\
    posBitBeg chan = 8 * recordIDnumber + numberOfTheFirstBits cn /\
    posBitEnd chan - posBitBeg chan = numberOfBits cn.
Proof.
  intros H. apply Channel_init_inv in H
    as (cns & cn & bo & Hcns & Hcn & _ & _ & _ & _ & _ & _ & _ & _ & Hbits
        & Hbyte & Hbit & Hbeg & Hend & Hbbeg & Hbend).
  exists cns, cn. split; [exact Hcns |]. split; [exact Hcn |].
  pose proof (Z.div_mod (numberOfTheFirstBits cn) 8 ltac:(lia)) as Hdm.
  pose proof (Z.mod_pos_bound (numberOfTheFirstBits cn) 8 ltac:(lia)) as Hm.
  repeat split; lia.
Qed.

End ChannelFacts.

Lemma Channel_init_layout_witness :
  value_of (Schema.Channel_init (fun n => n) Scenarios.S2_info 0 0 1 0)
  = Return Scenarios.S2_channel_b /\
  exists cns cn,
    Schema.CNBlock Scenarios.S2_info !! (0%Z, 0%Z) = Some cns /\
    value_of (Conversion.dict_get cns 1%Z) = Return cn /\
    (8 * Schema.byteOffset Scenarios.S2_channel_b
     + Schema.bitOffset Scenarios.S2_channel_b = Schema.numberOfTheFirstBits cn)%Z /\
    (0 <= Schema.bitOffset Scenarios.S2_channel_b < 8)%Z /\
    Schema.posByteBeg Scenarios.S2_channel_b
    = (0 + Schema.byteOffset Scenarios.S2_channel_b)%Z /\
    (Schema.posByteEnd Scenarios.S2_channel_b
     - Schema.posByteBeg Scenarios.S2_channel_b)%Z
    = Schema.nBytes Scenarios.S2_channel_b /\
    Schema.posBitBeg Scenarios.S2_channel_b
    = (8 * 0 + Schema.numberOfTheFirstBits cn)%Z /\
    (Schema.posBitEnd Scenarios.S2_channel_b
     - Schema.posBitBeg Scenarios.S2_channel_b)%Z = Schema.numberOfBits cn.
Proof.
  split; [vm_compute; reflexivity |].
  apply (Channel_init_layout (fun n => n) Scenarios.S2_info 0 0 1 0
           Scenarios.S2_channel_b).
  vm_compute; reflexivity.
Defined.

(** ** Which inputs the type encoders accept *)

Section EncoderAcceptance.
Import TypeEncoder Layout.
Local Open Scope Z_scope.

Lemma in_tuple_In (x : Z) (t : list Z) : in_tuple x t = true <-> In x t.
Proof.
  unfold in_tuple. rewrite existsb_exists. split.
  - intros (y & Hy & Heq). apply Z.eqb_eq in Heq. now subst.
  - intros Hx. exists x. split; [exact Hx | apply Z.eqb_refl].
Qed.

Lemma in_tuple_not_In (x : Z) (t : list Z) : in_tuple x t = false <-> ~ In x t.
Proof.
  rewrite <- in_tuple_In. destruct (in_tuple x t); split; congruence.
Qed.

(** Byte-order handling returns a descriptor exactly when [dataType] is
    bound. *)
Lemma deal_with_byte_order_accepted (sdt bo : Z) (dataType : option string) :
  accepted (deal_with_byte_order sdt bo dataType) <-> is_Some dataType.
Proof.
  unfold accepted, deal_with_byte_order.
  destruct (in_tuple sdt [0; 1; 2; 3]), (truthy bo),
    (in_tuple sdt [13; 14; 15; 16]), (in_tuple sdt [9; 10; 11; 12]),
    dataType as [d |]; simpl;
    (split; [intros [s Hs]; first [discriminate Hs | eexists; reflexivity]
            | intros [s Hs]; first [discriminate Hs | eexists; reflexivity]]).
Qed.

Lemma encoder_accepted (chain : Py (option string)) (sdt bo : Z) :
  accepted (do dataType <- chain; deal_with_byte_order sdt bo dataType)
  <-> exists d, value_of chain = Return (Some d).
Proof.
  split.
  - intros [s Hs]. apply bind_Return_inv in Hs as ([d |] & Hd & Hs).
    + now exists d.
    + exfalso. assert (Ha : accepted (deal_with_byte_order sdt bo None))
        by (now exists s).
      apply deal_with_byte_order_accepted in Ha. destruct Ha; discriminate.
  - intros [d Hd]. destruct chain as [[v | e] out]; simpl in Hd; [| discriminate].
    injection Hd as ->.
    destruct (proj2 (deal_with_byte_order_accepted sdt bo (Some d))) as [s Hs];
      [now exists d |].
    exists s. rewrite bind_unfold. exact Hs.
Qed.

Ltac decide_tuples :=
  repeat match goal with
         | |- context [in_tuple ?x ?t] =>
             let H := fresh "Ht" in
             destruct (in_tuple x t) eqn:H;
             [apply in_tuple_In in H | apply in_tuple_not_In in H]
         | |- context [?a <=? ?b] => destruct (Z.leb_spec a b)
         | |- context [?a =? ?b] => destruct (Z.eqb_spec a b)
         end.

Ltac settle_supported :=
  unfold supported; simpl in *;
  split;
  [ intros [d Hd]; first [discriminate Hd | intuition lia]
  | intros Hs; first [eexists; reflexivity | exfalso; intuition lia] ].

Lemma arrayformat3_dataType_supported (sdt n : Z) :
  (exists d, value_of (_arrayformat3_dataType sdt n) = Return (Some d))
  <-> supported sdt n.
Proof.
  unfold _arrayformat3_dataType. decide_tuples; settle_supported.
Qed.

Lemma datatypeformat3_dataType_supported (sdt n : Z) :
  (exists d, value_of (_datatypeformat3_dataType sdt n) = Return (Some d))
  <-> supported sdt n.
Proof.
  unfold _datatypeformat3_dataType. decide_tuples; settle_supported.
Qed.

Lemma TypeEncoder_supported (sdt n bo : Z) :
  accepted (_arrayformat3 sdt n bo) -> supported sdt n.
Proof.
  unfold _arrayformat3. rewrite encoder_accepted.
  apply arrayformat3_dataType_supported.
Qed.

(** X9. The two type encoders accept exactly the same inputs, whatever the
    byte-order flag: an integer type of at most 64 bits, a floating-point
    type of 32 or 64 bits, or the text and byte-array types 7 and 8; on
    every other input both raise. *)
Theorem encoders_accept_supported (sdt n bo : Z) :
  (accepted (_arrayformat3 sdt n bo) <-> supported sdt n) /\
  (accepted (_datatypeformat3 sdt n bo) <-> supported sdt n).
Proof.
  unfold _arrayformat3, _datatypeformat3. rewrite !encoder_accepted.
  split; [apply arrayformat3_dataType_supported
         | apply datatypeformat3_dataType_supported].
Qed.

End EncoderAcceptance.

(** ** The record a channel group is loaded into *)

Section RecordFacts.
Import PyStruct Schema Layout.
Local Open Scope Z_scope.
Context (_convertName : string -> string).

(** What one turn of the channel loop of [loadInfo] leaves behind. *)
Lemma loadInfo_step_inv (st st' : loop_state) (c : Channel) :
  value_of (loadInfo_step st c) = Return st' ->
  l_channels st' = l_channels st ++ [c] /\
  l_channelNames st' = l_channelNames st ++ [recAttributeName c] /\
  (l_master_number st', l_master_name st')
  = (if match l_master_number st with
        | None => true
        | Some _ => channelType c =? 1
        end
     then (Some (channelNumber c), name c)
     else (l_master_number st, l_master_name st)) /\
  exists owner,
    l_matching st' = <[recAttributeName c := owner]> (l_matching st) /\
    ((owner = recAttributeName c /\ l_format st' = l_format st ++ [RecordFormat c] /\
      (l_names st' = l_names st ++ [recAttributeName c] \/
       l_matching st = ∅ /\ exists prev, last (l_channels st) = Some prev)) \/
     (l_format st' = l_format st /\ l_names st' = l_names st /\
      exists prev, last (l_channels st) = Some prev /\
                   l_matching st !! recAttributeName prev = Some owner)).
Proof.
  unfold loadInfo_step. cbv zeta.
  destruct (last (l_channels st)) as [prev |] eqn:Hlast.
  - destruct ((8 * byteOffset prev <=? posBitBeg c)
              && (posBitEnd c <=? 8 * (byteOffset prev + nBytes prev))).
    + destruct (decide (l_matching st = ∅)).
      * intros H. injection H as <-. cbn.
        repeat split; [now destruct (l_master_number st), (channelType c =? 1) |].
        exists (recAttributeName c). split; [reflexivity |]. left.
        split; [reflexivity |]. split; [reflexivity |]. right.
        split; [assumption | now exists prev].
      * intros H. apply bind_Return_inv in H as (owner & Howner & H).
        apply lookup_or_KeyError_inv in Howner.
        injection H as <-. cbn.
        repeat split; [now destruct (l_master_number st), (channelType c =? 1) |].
        exists owner. split; [reflexivity |]. right. split; [reflexivity |].
        split; [reflexivity |]. now exists prev.
    + intros H. injection H as <-. cbn.
      repeat split; [now destruct (l_master_number st), (channelType c =? 1) |].
      exists (recAttributeName c). split; [reflexivity |]. left.
      split; [reflexivity |]. split; [reflexivity |]. now left.
  - intros H. injection H as <-. cbn.
    repeat split; [now destruct (l_master_number st), (channelType c =? 1) |].
    exists (recAttributeName c). split; [reflexivity |]. left.
    split; [reflexivity |]. split; [reflexivity |]. now left.
Qed.

(** A property every turn keeps holds when the loop ends. *)
Lemma loadInfo_loop_inv (P : loop_state -> Prop) (info : info3)
    (dg cg rid : Z) :
  (forall st n c st',
     P st ->
     value_of (Channel_init _convertName info dg cg n rid) = Return c ->
     value_of (loadInfo_step st c) = Return st' -> P st') ->
  forall nums st st',
    value_of (loadInfo_loop _convertName info dg cg rid nums st) = Return st' ->
    P st -> P st'.
Proof.
  intros Hstep nums. induction nums as [| n nums IH]; intros st st' H HP.
  - simpl in H. now injection H as <-.
  - simpl in H. apply bind_Return_inv in H as (c & Hc & H).
    apply bind_Return_inv in H as (st1 & Hst1 & H).
    apply (IH st1 st' H). exact (Hstep st n c st1 HP Hc Hst1).
Qed.

(** The loop appends one channel per channel number, in order. *)
Lemma loadInfo_loop_channels (info : info3) (dg cg rid : Z) (nums : list Z)
    (st st' : loop_state) :
  value_of (loadInfo_loop _convertName info dg cg rid nums st) = Return st' ->
  exists cs, l_channels st' = l_channels st ++ cs /\
             map channelNumber cs = nums.
Proof.
  revert st. induction nums as [| n nums IH]; intros st H.
  - simpl in H. injection H as <-. exists []. now rewrite app_nil_r.
  - simpl in H. apply bind_Return_inv in H as (c & Hc & H).
    apply bind_Return_inv in H as (st1 & Hst1 & H).
    apply IH in H as (cs & Hcs & Hnums).
    apply loadInfo_step_inv in Hst1 as (Hch & _).
    apply Channel_init_inv in Hc
      as (_ & _ & _ & _ & _ & _ & _ & _ & _ & Hn & _).
    exists (c :: cs). split.
    + rewrite Hcs, Hch, <- app_assoc. reflexivity.
    + simpl. now rewrite Hn, Hnums.
Qed.

Lemma last_In {A} (l : list A) (x : A) : last l = Some x -> In x l.
Proof.
  intros H. apply last_Some in H as [l' ->]. apply in_or_app. right. now left.
Qed.

Lemma slots_ok_step (info : info3) (dg cg rid n : Z) (st st' : loop_state)
    (c : Channel) :
  slots_ok st ->
  value_of (Channel_init _convertName info dg cg n rid) = Return c ->
  value_of (loadInfo_step st c) = Return st' ->
  slots_ok st'.
Proof.
  intros [Hnames Hslots] Hc Hstep.
  apply loadInfo_step_inv in Hstep
    as (Hch & Hnm & _ & owner & Hmatch & Hfmt).
  assert (Hsup : supported (signalDataType c) (bitCount c)).
  { apply Channel_init_inv in Hc
      as (_ & cn & bo & _ & _ & _ & Harr & _ & _ & _ & _ & Hsdt & _ & Hbits & _).
    rewrite Hsdt, Hbits.
    apply TypeEncoder_supported with (bo := bo). now exists (dataFormat c). }
  assert (Hown : exists fmt, In ((owner +:+ "_title", owner), fmt) (l_format st')
                             /\ In owner (l_names st')).
  { destruct Hfmt as [(-> & -> & Hnames') | (-> & -> & prev & Hlast & Hprev)].
    - exists (dataFormat c). split; [apply in_or_app; right; now left |].
      destruct Hnames' as [-> | (Hempty & prev & Hlast)];
        [apply in_or_app; right; now left |].
      destruct (Hslots prev (last_In _ _ Hlast)) as (_ & owner' & _ & Ho & _).
      rewrite Hempty, lookup_empty in Ho. discriminate Ho.
    - destruct (Hslots prev (last_In _ _ Hlast))
        as (_ & owner' & fmt & Ho & Hin & Hinn).
      rewrite Hprev in Ho. injection Ho as <-. now exists fmt. }
  assert (Hgrow : (forall f, In f (l_format st) -> In f (l_format st')) /\
                  (forall n, In n (l_names st) -> In n (l_names st'))).
  { destruct Hfmt as [(_ & -> & Hnames') | (-> & -> & _)]; [| now split].
    split; [intros f Hf; apply in_or_app; now left |].
    destruct Hnames' as [-> | (Hempty & prev & Hlast)];
      [intros n0 Hn0; apply in_or_app; now left |].
    destruct (Hslots prev (last_In _ _ Hlast)) as (_ & owner' & _ & Ho & _).
    rewrite Hempty, lookup_empty in Ho. discriminate Ho. }
  split.
  - rewrite Hnm, Hch, Hnames, map_app. reflexivity.
  - intros c' Hin. rewrite Hch in Hin. apply in_app_or in Hin.
    destruct (decide (recAttributeName c' = recAttributeName c)) as [Heq | Hne].
    + split.
      * destruct Hin as [Hin | [<- | []]]; [apply (Hslots c' Hin) | exact Hsup].
      * destruct Hown as [fmt Hfmt']. exists owner, fmt. split; [| exact Hfmt'].
        rewrite Hmatch, Heq. apply lookup_insert_eq.
    + destruct Hin as [Hin | [<- | []]]; [| congruence].
      destruct (Hslots c' Hin) as (Hs & owner' & fmt & Ho & Hinf & Hinn).
      split; [exact Hs |]. exists owner', fmt. split.
      * rewrite Hmatch, lookup_insert_ne by congruence. exact Ho.
      * split; [now apply Hgrow | now apply Hgrow].
Qed.

Lemma expected_master_snoc (cs : list Channel) (c : Channel) :
  expected_master (cs ++ [c])
  = if decide (channelType c = 1) then Some c
    else match expected_master cs with
         | Some m => Some m
         | None => Some c
         end.
Proof.
  unfold expected_master, declared_masters. rewrite filter_app.
  rewrite filter_cons, filter_nil.
  destruct (decide (channelType c = 1)) as [Hc | Hc].
  - now rewrite last_snoc.
  - rewrite app_nil_r.
    destruct (last (filter (fun c0 => channelType c0 = 1) cs)); [reflexivity |].
    now destruct cs.
Qed.

Lemma expected_master_None (cs : list Channel) :
  expected_master cs = None -> cs = [].
Proof.
  unfold expected_master.
  destruct (last (declared_masters cs)); [discriminate |].
  now destruct cs.
Qed.

Lemma master_ok_step (initial : string) (st st' : loop_state) (c : Channel)
    (n : Z) :
  channelNumber c = n ->
  master_ok initial st ->
  value_of (loadInfo_step st c) = Return st' ->
  master_ok initial st'.
Proof.
  intros Hn Hok Hstep.
  apply loadInfo_step_inv in Hstep as (Hch & _ & Hmaster & _).
  unfold master_ok in *. rewrite Hch, expected_master_snoc.
  destruct (expected_master (l_channels st)) as [m |] eqn:Hm.
  - destruct Hok as [Hnum Hname]. rewrite Hnum in Hmaster.
    destruct (decide (channelType c = 1)) as [Hc | Hc].
    + rewrite (proj2 (Z.eqb_eq _ _) Hc) in Hmaster.
      injection Hmaster as -> ->. now split.
    + rewrite (proj2 (Z.eqb_neq _ _) Hc) in Hmaster.
      injection Hmaster as -> ->. now split.
  - destruct Hok as (_ & Hnum & _). rewrite Hnum in Hmaster.
    injection Hmaster as -> ->.
    destruct (decide (channelType c = 1)); now split.
Qed.

(** What [loadInfo] returns, seen from the state its channel loop ends in. *)
Lemma loadInfo_inv (info : info3) (dg cg : Z) (r : record) :
  value_of (loadInfo _convertName info dg cg) = Return r ->
  exists dgb cgb cns st0 st,
    DGBlock info !! dg = Some dgb /\
    CGBlock info !! (dg, cg) = Some cgb /\
    CNBlock info !! (dg, cg) = Some cns /\
    l_channels st0 = [] /\ l_channelNames st0 = [] /\
    l_master_number st0 = None /\ l_master_name st0 = "master_" +:+ str dg /\
    l_matching st0 = ∅ /\
    value_of (loadInfo_loop _convertName info dg cg (numberOfRecordIDs dgb)
                (map fst cns) st0) = Return st /\
    channels r = l_channels st /\
    channelNames r = l_channelNames st /\
    master_number r = l_master_number st /\
    master_name r = l_master_name st /\
    recordToChannelMatching r = l_matching st /\
    (forall f, In f (l_format st) -> In f (numpyDataRecordFormat r)) /\
    (forall n, In n (l_names st) -> In n (dataRecordName r)) /\
    recordIDnumber r = numberOfRecordIDs dgb /\
    CGrecordLength r = dataRecordSize cgb /\
    numberOfRecords r = cg_numberOfRecords cgb /\
    recordID r = cg_recordID cgb /\
    dataGroup r = dg /\ channelGroup r = cg.
Proof.
  intros H. unfold loadInfo in H.
  apply bind_Return_inv in H as (dgb & Hdg & H).
  apply lookup_or_KeyError_inv in Hdg.
  apply bind_Return_inv in H as (cgb & Hcg & H).
  apply lookup_or_KeyError_inv in Hcg.
  cbv zeta in H.
  apply bind_Return_inv in H as (cns & Hcns & H).
  apply lookup_or_KeyError_inv in Hcns.
  apply bind_Return_inv in H as (st & Hloop & H).
  injection H as <-.
  eexists dgb, cgb, cns, _, st. cbn.
  repeat split; try eassumption; try reflexivity.
  - intros f Hf. destruct (numberOfRecordIDs dgb =? 2);
      [apply in_or_app; now left | exact Hf].
  - intros n Hn. destruct (numberOfRecordIDs dgb =? 2);
      [apply in_or_app; now left | exact Hn].
Qed.

(** X10. In a record that [loadInfo] built, the channels are those of the
    CN block in its order, [channelNames] lists their attribute names,
    every channel has a type the encoders support, and every channel has
    an entry in [recordToChannelMatching] that names a field of
    [numpyDataRecordFormat], listed in [dataRecordName]. *)
Theorem loadInfo_storage_slots (info : info3) (dg cg : Z) (r : record) :
  value_of (loadInfo _convertName info dg cg) = Return r ->
  (exists cns, CNBlock info !! (dg, cg) = Some cns /\
               map channelNumber (channels r) = map fst cns) /\
  channelNames r = map recAttributeName (channels r) /\
  forall c, In c (channels r) ->
    supported (signalDataType c) (bitCount c) /\
    exists owner fmt,
      recordToChannelMatching r !! recAttributeName c = Some owner /\
      In ((owner +:+ "_title", owner), fmt) (numpyDataRecordFormat r) /\
      In owner (dataRecordName r).
Proof.
  intros H. apply loadInfo_inv in H
    as (dgb & cgb & cns & st0 & st & _ & _ & Hcns & Hch0 & Hnm0 & _ & _ & Hmt0
        & Hloop & Hch & Hnm & _ & _ & Hmt & Hfmt & Hnames' & _).
  assert (Hok : slots_ok st).
  { apply (loadInfo_loop_inv slots_ok info dg cg (numberOfRecordIDs dgb)
             (fun st n c st' HP Hc Hs => slots_ok_step info dg cg _ n st st' c HP Hc Hs)
             (map fst cns) st0 st Hloop).
    split; [now rewrite Hnm0, Hch0 |]. rewrite Hch0. intros c []. }
  destruct Hok as [Hnames Hslots]. split; [| split].
  - exists cns. split; [exact Hcns |].
    apply loadInfo_loop_channels in Hloop as (cs & Hcs & Hnums).
    rewrite Hch, Hcs, Hch0. exact Hnums.
  - now rewrite Hnm, Hch.
  - intros c Hc. rewrite Hch in Hc.
    destruct (Hslots c Hc) as (Hs & owner & fmt & Ho & Hin & Hinn).
    split; [exact Hs |]. exists owner, fmt. rewrite Hmt. split; [exact Ho |].
    split; [now apply Hfmt | now apply Hnames'].
Qed.

(** X11. The master of a record that [loadInfo] built is the last channel
    declared as master (channel type 1); when no channel is declared as
    master it is the first channel; a record without channels keeps the
    name master_<dataGroup> and no master number. *)
Theorem loadInfo_master (info : info3) (dg cg : Z) (r : record) :
  value_of (loadInfo _convertName info dg cg) = Return r ->
  match expected_master (channels r) with
  | Some m => master_number r = Some (channelNumber m) /\ master_name r = name m
  | None => channels r = [] /\ master_number r = None
            /\ master_name r = "master_" +:+ str dg
  end.
Proof.
  intros H. apply loadInfo_inv in H
    as (dgb & cgb & cns & st0 & st & _ & _ & _ & Hch0 & _ & Hnum0 & Hname0 & _
        & Hloop & Hch & _ & Hnum & Hname & _).
  assert (Hok : master_ok ("master_" +:+ str dg) st).
  { apply (loadInfo_loop_inv (master_ok ("master_" +:+ str dg)) info dg cg
             (numberOfRecordIDs dgb)) with (nums := map fst cns) (st := st0);
      [| exact Hloop |].
    - intros s n c s' HP Hc Hs.
      apply (master_ok_step _ s s' c (channelNumber c) eq_refl HP Hs).
    - unfold master_ok. rewrite Hch0. cbn. now repeat split. }
  unfold master_ok in Hok. rewrite Hch, Hnum, Hname. exact Hok.
Qed.

End RecordFacts.

Lemma loadInfo_storage_slots_witness :
  exists r,
    value_of (Schema.loadInfo (fun n => n) Scenarios.S2_info 0 0) = Return r /\
    (exists cns, Schema.CNBlock Scenarios.S2_info !! (0%Z, 0%Z) = Some cns /\
                 map Schema.channelNumber (Schema.channels r) = map fst cns) /\
    Schema.channelNames r = map Schema.recAttributeName (Schema.channels r) /\
    forall c, In c (Schema.channels r) ->
      Layout.supported (Schema.signalDataType c) (Schema.bitCount c) /\
      exists owner fmt,
        Schema.recordToChannelMatching r !! Schema.recAttributeName c = Some owner /\
        In ((owner +:+ "_title", owner), fmt) (Schema.numpyDataRecordFormat r) /\
        In owner (Schema.dataRecordName r).
Proof.
  eexists. split; [vm_compute; reflexivity |].
  apply (loadInfo_storage_slots (fun n => n) Scenarios.S2_info 0 0).
  vm_compute; reflexivity.
Defined.

Lemma loadInfo_master_witness :
  exists r,
    value_of (Schema.loadInfo (fun n => n) Scenarios.S2_info 0 0) = Return r /\
    match Layout.expected_master (Schema.channels r) with
    | Some m => Schema.master_number r = Some (Schema.channelNumber m)
                /\ Schema.master_name r = Schema.name m
    | None => Schema.channels r = [] /\ Schema.master_number r = None
              /\ Schema.master_name r = "master_" +:+ str 0
    end.
Proof.
  eexists. split; [vm_compute; reflexivity |].
  apply (loadInfo_master (fun n => n) Scenarios.S2_info 0 0).
  vm_compute; reflexivity.
Defined.

(** ** Decoding one record into a dict *)

Section RecordBufFacts.
Import PyStruct Schema Layout.
Local Open Scope Z_scope.

(** One turn of [for Channel in self] in [readRecordBuf]. *)
Lemma readRecordBuf_unfold (host_big : bool) (self : record) (buf : list Z)
    (channelSet : option (gset string)) :
  readRecordBuf host_big self buf channelSet
  = foldl (fun acc Channel =>
             do temp <- acc;
             if decide (recAttributeName Channel ∈ selected self channelSet) then
               do v <- unpack host_big (CFormat Channel)
                         (slice buf (posByteBeg Channel) (posByteEnd Channel));
               ret (<[recAttributeName Channel := v]> temp)
             else ret temp)
          (ret ∅) (channels self).
Proof. reflexivity. Qed.

Lemma foldl_ext_in {A B} (f g : A -> B -> A) (l : list B) (a : A) :
  (forall a b, In b l -> f a b = g a b) -> foldl f a l = foldl g a l.
Proof.
  revert a. induction l as [| b l IH]; intros a H; [reflexivity |].
  simpl. rewrite (H a b) by now left.
  apply IH. intros a' b' Hb. apply H. now right.
Qed.

(** X12. [readRecordBuf] reads a record only inside the byte ranges
    [posByteBeg, posByteEnd) of the channels it selects: two buffers that
    agree on these ranges give the same result, whatever the record-ID
    bytes, the hidden bytes and the bytes of the other channels are. *)
Theorem readRecordBuf_reads_selected_ranges (host_big : bool) (self : record)
    (buf buf' : list Z) (channelSet : option (gset string)) :
  (forall c, In c (channels self) ->
             recAttributeName c ∈ selected self channelSet ->
             slice buf (posByteBeg c) (posByteEnd c)
             = slice buf' (posByteBeg c) (posByteEnd c)) ->
  readRecordBuf host_big self buf channelSet
  = readRecordBuf host_big self buf' channelSet.
Proof.
  intros Hsame. rewrite !readRecordBuf_unfold.
  apply foldl_ext_in. intros acc c Hc.
  destruct (decide (recAttributeName c ∈ selected self channelSet)) as [Hsel | Hsel];
    [| reflexivity].
  now rewrite (Hsame c Hc Hsel).
Qed.

Lemma foldl_raise {A B} (f : A -> B -> Py A) (l : list B) (e : exn)
    (out : list string) :
  foldl (fun acc b => do a <- acc; f a b) (Raise e, out) l = (Raise e, out).
Proof. induction l as [| b l IH]; [reflexivity | exact IH]. Qed.

(** The keys of the dict the loop of [readRecordBuf] ends with, from the
    dict it starts with. *)
Lemma readRecordBuf_loop_keys (host_big : bool) (sel : gset string)
    (buf : list Z) (cs : list Channel) (acc : Py (gmap string value))
    (temp : gmap string value) :
  value_of
    (foldl (fun acc Channel =>
              do temp <- acc;
              if decide (recAttributeName Channel ∈ sel) then
                do v <- unpack host_big (CFormat Channel)
                          (slice buf (posByteBeg Channel) (posByteEnd Channel));
                ret (<[recAttributeName Channel := v]> temp)
              else ret temp)
           acc cs) = Return temp ->
  exists temp0, value_of acc = Return temp0 /\
    forall k, is_Some (temp !! k) <->
              is_Some (temp0 !! k)
              \/ (k ∈ sel /\ In k (map recAttributeName cs)).
Proof.
  revert acc. induction cs as [| c cs IH]; intros acc H.
  - simpl in H. exists temp. split; [exact H |]. simpl. tauto.
  - simpl in H. apply IH in H as (temp1 & Hstep & Hkeys).
    apply bind_Return_inv in Hstep as (temp0 & Hacc & Hstep).
    exists temp0. split; [exact Hacc |]. intros k. rewrite Hkeys. simpl.
    destruct (decide (recAttributeName c ∈ sel)) as [Hsel | Hsel].
    + apply bind_Return_inv in Hstep as (v & _ & Hstep).
      injection Hstep as <-.
      destruct (decide (recAttributeName c = k)) as [<- | Hne].
      * rewrite lookup_insert_eq. split; [| now eauto].
        intros _. right. split; [exact Hsel | now left].
      * rewrite lookup_insert_ne by exact Hne. tauto.
    + injection Hstep as <-. split; [tauto |].
      intros [H0 | [Hk [<- | Hin]]]; tauto.
Qed.

(** X13. The dict [readRecordBuf] returns has exactly the selected names
    that belong to a channel of the record as keys: a name that is asked
    for and is no channel of this record is left out silently. *)
Theorem readRecordBuf_keys (host_big : bool) (self : record) (buf : list Z)
    (channelSet : option (gset string)) (temp : gmap string value) :
  value_of (readRecordBuf host_big self buf channelSet) = Return temp ->
  forall k, is_Some (temp !! k) <->
            k ∈ selected self channelSet
            /\ In k (map recAttributeName (channels self)).
Proof.
  intros H k. rewrite readRecordBuf_unfold in H.
  apply readRecordBuf_loop_keys in H as (temp0 & H0 & Hkeys).
  injection H0 as <-. rewrite Hkeys, lookup_empty.
  split; [intros [[x Hx] | Hk]; [discriminate | exact Hk] | now right].
Qed.

End RecordBufFacts.

Lemma readRecordBuf_reads_selected_ranges_witness :
  exists r,
    value_of (Schema.loadInfo (fun n => n) Scenarios.S4_info 0 0) = Return r /\
    (forall c, In c (Schema.channels r) ->
               Schema.recAttributeName c ∈ Layout.selected r None ->
               PyStruct.slice [1; 170]%Z (Schema.posByteBeg c) (Schema.posByteEnd c)
               = PyStruct.slice [2; 170]%Z (Schema.posByteBeg c) (Schema.posByteEnd c)) /\
    Schema.readRecordBuf false r [1; 170]%Z None
    = Schema.readRecordBuf false r [2; 170]%Z None.
Proof.
  eexists. split; [vm_compute; reflexivity |].
  match goal with
  | |- ?H /\ _ => assert (Hsame : H)
  end.
  { intros c [<- | []] _. vm_compute. reflexivity. }
  split; [exact Hsame |].
  apply (readRecordBuf_reads_selected_ranges false _ [1; 170]%Z [2; 170]%Z None Hsame).
Defined.

Lemma readRecordBuf_keys_witness :
  exists r,
    value_of (Schema.loadInfo (fun n => n) Scenarios.S4_info 0 0) = Return r /\
    value_of (Schema.readRecordBuf false r [1; 170]%Z None)
    = Return {[ "a"%string := PyStruct.VInt 170 ]} /\
    forall k, is_Some (({[ "a"%string := PyStruct.VInt 170 ]}
                          : gmap string PyStruct.value) !! k) <->
              k ∈ Layout.selected r None
              /\ In k (map Schema.recAttributeName (Schema.channels r)).
Proof.
  eexists. split; [vm_compute; reflexivity |].
  split; [vm_compute; reflexivity |].
  apply (readRecordBuf_keys false _ [1; 170]%Z None).
  vm_compute; reflexivity.
Defined.

(** ** The DATA object of a data group *)

Section DataFacts.
Import Schema DataBlock.
Local Open Scope Z_scope.

Lemma addRecord_fold (d : DATA) (rs : list record) :
  BlockLength (foldl addRecord d rs)
  = BlockLength d + foldr Z.add 0 (map dataBlockLength rs) /\
  (forall id, entries (foldl addRecord d rs) !! id
              = match last (filter (fun r => recordID r = id) rs) with
                | Some r => Some r
                | None => entries d !! id
                end) /\
  fid (foldl addRecord d rs) = fid d /\
  pointerToData (foldl addRecord d rs) = pointerToData d.
Proof.
  revert d. induction rs as [| r rs IH]; intros d.
  - simpl. repeat split. lia.
  - simpl foldl. destruct (IH (addRecord d r)) as (Hlen & Hent & Hfid & Hptr).
    repeat split.
    + rewrite Hlen. simpl. lia.
    + intros id. rewrite Hent, filter_cons. simpl.
      destruct (decide (recordID r = id)) as [<- | Hne].
      * rewrite last_cons, lookup_insert_eq.
        now destruct (last (filter (fun r0 => recordID r0 = recordID r) rs)).
      * now rewrite lookup_insert_ne by exact Hne.
    + now rewrite Hfid.
    + now rewrite Hptr.
Qed.

(** X14. After any sequence of [addRecord] calls on a fresh DATA object,
    [BlockLength] is the sum of the data block lengths of all the records
    added, while the dict holds for each record ID only the record added
    last with it: a record whose ID repeats replaces the earlier one and
    both are counted in the length. *)
Theorem addRecord_accumulates (file : list Z) (pointer : Z) (rs : list record) :
  BlockLength (foldl addRecord (DATA_init file pointer) rs)
  = foldr Z.add 0 (map dataBlockLength rs) /\
  (forall id, entries (foldl addRecord (DATA_init file pointer) rs) !! id
              = last (filter (fun r => recordID r = id) rs)) /\
  fid (foldl addRecord (DATA_init file pointer) rs) = file /\
  pointerToData (foldl addRecord (DATA_init file pointer) rs) = pointer.
Proof.
  destruct (addRecord_fold (DATA_init file pointer) rs) as (Hlen & Hent & Hfid & Hptr).
  split; [rewrite Hlen; simpl; lia |].
  split; [| split; assumption].
  intros id. rewrite Hent. simpl. rewrite lookup_empty.
  now destruct (last (filter (fun r => recordID r = id) rs)).
Qed.

(** The channel-group loop of [read3], from the DATA object it starts
    with: the records loaded, and those with records added in order. *)
Lemma read3_DATA_loop (_convertName : string -> string) (info : info3)
    (dataGroup : Z) (groups : list Z) (acc : Py DATA) (data : DATA) :
  value_of
    (foldl (fun acc channelGroup =>
              do buf <- acc;
              do temp <- loadInfo _convertName info dataGroup channelGroup;
              if negb (numberOfRecords temp =? 0) then ret (addRecord buf temp)
              else ret buf)
           acc groups) = Return data ->
  exists d0 rs,
    value_of acc = Return d0 /\
    Forall2 (fun channelGroup r =>
               value_of (loadInfo _convertName info dataGroup channelGroup)
               = Return r) groups rs /\
    data = foldl addRecord d0 (filter (fun r => numberOfRecords r <> 0) rs).
Proof.
  revert acc. induction groups as [| g groups IH]; intros acc H.
  - simpl in H. exists data, []. repeat split; [exact H | constructor].
  - simpl in H. apply IH in H as (d1 & rs & Hstep & Hall & ->).
    apply bind_Return_inv in Hstep as (d0 & Hacc & Hstep).
    apply bind_Return_inv in Hstep as (r & Hr & Hstep).
    exists d0, (r :: rs). split; [exact Hacc |]. split; [now constructor |].
    rewrite filter_cons.
    destruct (Z.eqb_spec (numberOfRecords r) 0) as [Hz | Hnz];
      simpl in Hstep; injection Hstep as <-.
    + now rewrite decide_False by (intros Hc; now apply Hc).
    + now rewrite decide_True by exact Hnz.
Qed.

(** X15. The DATA object [read3] builds for a data group registers only
    channel groups that have records, each under its own record ID, all
    loaded from this data group, and reads from the data pointer of the
    DG block; its [BlockLength] is the sum of the data block lengths of
    the registered groups. *)
Theorem read3_DATA_registers_groups_with_records
    (_convertName : string -> string) (info : info3) (file : list Z)
    (dataGroup : Z) (data : DATA) :
  value_of (read3_DATA _convertName info file dataGroup) = Return data ->
  exists dgb rs,
    DGBlock info !! dataGroup = Some dgb /\
    Forall2 (fun channelGroup r =>
               value_of (loadInfo _convertName info dataGroup channelGroup)
               = Return r)
            (Conversion.range (Z.to_nat (numberOfChannelGroups dgb))) rs /\
    pointerToData data = pointerToDataRecords dgb /\
    BlockLength data
    = foldr Z.add 0
        (map dataBlockLength (filter (fun r => numberOfRecords r <> 0) rs)) /\
    forall id r, entries data !! id = Some r ->
                 In r rs /\ numberOfRecords r <> 0 /\ recordID r = id
                 /\ Schema.dataGroup r = dataGroup.
Proof.
  intros H. unfold read3_DATA in H.
  apply bind_Return_inv in H as (dgb & Hdg & H).
  apply lookup_or_KeyError_inv in Hdg.
  apply read3_DATA_loop in H as (d0 & rs & Hd0 & Hall & ->).
  injection Hd0 as <-.
  destruct (addRecord_fold (DATA_init file (pointerToDataRecords dgb))
              (filter (fun r => numberOfRecords r <> 0) rs))
    as (Hlen & Hent & _ & Hptr).
  exists dgb, rs. split; [exact Hdg |]. split; [exact Hall |].
  split; [exact Hptr |]. split; [rewrite Hlen; simpl; lia |].
  intros id r Hr. rewrite Hent in Hr. simpl in Hr. rewrite lookup_empty in Hr.
  destruct (last _) as [r' |] eqn:Hlast in Hr; [| discriminate].
  injection Hr as ->.
  apply last_Some in Hlast as [l Hl].
  assert (Hin : r ∈ filter (fun r0 => recordID r0 = id)
                      (filter (fun r0 => numberOfRecords r0 <> 0) rs)).
  { rewrite Hl. apply elem_of_app. right. apply elem_of_cons. now left. }
  apply list_elem_of_filter in Hin as [Hid Hin].
  apply list_elem_of_filter in Hin as [Hnz Hin].
  split; [now apply list_elem_of_In |]. split; [exact Hnz |].
  split; [exact Hid |].
  apply list_elem_of_lookup in Hin as [i Hi].
  destruct (Forall2_lookup_r _ _ _ _ _ Hall Hi) as (g & _ & Hg).
  apply loadInfo_inv in Hg
    as (? & ? & ? & ? & ? & _ & _ & _ & _ & _ & _ & _ & _ & _ & _ & _ & _ & _
        & _ & _ & _ & _ & _ & _ & _ & Hdgr & _).
  exact Hdgr.
Qed.

End DataFacts.

Lemma read3_DATA_registers_groups_with_records_witness :
  exists data,
    value_of (DataBlock.read3_DATA (fun n => n) Scenarios.S4_info
                Scenarios.S4_file 0) = Return data /\
    exists dgb rs,
      Schema.DGBlock Scenarios.S4_info !! 0%Z = Some dgb /\
      Forall2 (fun channelGroup r =>
                 value_of (Schema.loadInfo (fun n => n) Scenarios.S4_info 0
                             channelGroup) = Return r)
              (Conversion.range (Z.to_nat (Schema.numberOfChannelGroups dgb))) rs /\
      DataBlock.pointerToData data = Schema.pointerToDataRecords dgb /\
      DataBlock.BlockLength data
      = foldr Z.add 0%Z
          (map Schema.dataBlockLength
             (filter (fun r => Schema.numberOfRecords r <> 0%Z) rs)) /\
      forall id r, DataBlock.entries data !! id = Some r ->
                   In r rs /\ Schema.numberOfRecords r <> 0%Z
                   /\ Schema.recordID r = id /\ Schema.dataGroup r = 0%Z.
Proof.
  eexists. split; [vm_compute; reflexivity |].
  apply (read3_DATA_registers_groups_with_records (fun n => n) Scenarios.S4_info
           Scenarios.S4_file 0).
  vm_compute; reflexivity.
Defined.

(** ** Fields and pointers of the writer *)

Section FieldFacts.
Import PyStruct Writer BlockWriter.
Local Open Scope Z_scope.

Lemma encode_latin1_length (s : string) :
  length (encode_latin1 s) = String.length s.
Proof.
  unfold encode_latin1. rewrite length_map.
  induction s as [| c s IH]; simpl; [reflexivity | now rewrite IH].
Qed.

Lemma encode_latin1_app (s t : string) :
  encode_latin1 (s +:+ t) = encode_latin1 s ++ encode_latin1 t.
Proof.
  unfold encode_latin1. induction s as [| c s IH]; simpl; [reflexivity |].
  now rewrite IH.
Qed.

Lemma encode_latin1_nul (n : nat) : encode_latin1 (nul n) = replicate n 0.
Proof.
  unfold encode_latin1. induction n as [| n IH]; simpl; [reflexivity |].
  now rewrite IH.
Qed.

Lemma encode_latin1_substring (n : nat) (s : string) :
  encode_latin1 (String.substring 0 n s) = take n (encode_latin1 s).
Proof.
  unfold encode_latin1. revert n. induction s as [| c s IH]; intros [| n]; simpl;
    try reflexivity.
  now rewrite IH.
Qed.

Lemma writeChar_sized_bytes (f : stream) (value : string) (size : nat) :
  writeChar f value (Some size)
  = write f (take size (encode_latin1 value ++ replicate size 0) ++ [0]) /\
  length (take size (encode_latin1 value ++ replicate size 0) ++ [0]) = S size.
Proof.
  split.
  - unfold writeChar. f_equal. rewrite encode_latin1_app. f_equal.
    destruct (Nat.ltb_spec size (String.length value)) as [Hlt | Hge].
    + rewrite encode_latin1_substring, take_app_le
        by (rewrite encode_latin1_length; lia).
      reflexivity.
    + rewrite encode_latin1_app, encode_latin1_nul.
      rewrite take_app_ge by (rewrite encode_latin1_length; lia).
      rewrite encode_latin1_length, take_replicate.
      do 2 f_equal. lia.
  - rewrite length_app, length_take, length_app, length_replicate. simpl. lia.
Qed.

(** X16. A sized field always takes [size + 1] bytes: [writeChar] writes
    the first [size] characters of the value, or the value padded with NUL
    bytes up to [size], and then one more NUL, so that the position moves
    by [size + 1] whatever the length of the value is. *)
Theorem writeChar_fixed_width (f : stream) (value : string) (size : nat) :
  writeChar f value (Some size)
  = write f (take size (encode_latin1 value ++ replicate size 0) ++ [0]) /\
  length (take size (encode_latin1 value ++ replicate size 0) ++ [0]) = S size /\
  position (writeChar f value (Some size)) = (position f + size + 1)%nat.
Proof.
  destruct (writeChar_sized_bytes f value size) as [Hbytes Hlen].
  split; [exact Hbytes |]. split; [exact Hlen |].
  rewrite Hbytes. unfold write. cbn [position]. rewrite Hlen. lia.
Qed.

Lemma to_little_endian_length (n : nat) (v : Z) :
  length (to_little_endian n v) = n.
Proof. revert v. induction n as [| n IH]; intros v; simpl; [| rewrite IH]; reflexivity. Qed.

Lemma of_to_little_endian (n : nat) (v : Z) :
  0 <= v < 2 ^ (8 * Z.of_nat n) ->
  of_little_endian (to_little_endian n v) = v.
Proof.
  revert v. induction n as [| n IH]; intros v Hv.
  - simpl in *. lia.
  - cbn [to_little_endian of_little_endian].
    replace (8 * Z.of_nat (S n)) with (8 + 8 * Z.of_nat n) in Hv by lia.
    rewrite Z.pow_add_r in Hv by lia. change (2 ^ 8) with 256 in Hv.
    rewrite IH.
    + pose proof (Z.div_mod v 256 ltac:(lia)). lia.
    + split; [apply Z.div_pos; lia |].
      apply Z.div_lt_upper_bound; lia.
Qed.

(** [unpack] reads back what [pack] wrote, for the unsigned codes. *)
Lemma pack_unsigned_unpack (host_big big : bool) (fmt : string) (n : nat) (v : Z) :
  parse_format host_big fmt = Some (big, CInt false n) ->
  0 <= v < 2 ^ (8 * Z.of_nat n) ->
  exists b, pack_unsigned host_big fmt v = ret b /\ length b = n /\
            unpack host_big fmt b = ret (VInt v).
Proof.
  intros Hfmt Hv. unfold pack_unsigned, unpack. rewrite Hfmt.
  rewrite (proj2 (Z.leb_le 0 v)) by lia.
  rewrite (proj2 (Z.ltb_lt v _)) by lia. cbn [andb].
  eexists. split; [reflexivity |].
  assert (Hlen : length (if big then rev (to_little_endian n v)
                         else to_little_endian n v) = n).
  { destruct big; rewrite ?length_rev; apply to_little_endian_length. }
  split; [exact Hlen |]. rewrite Hlen. cbn [nbytes_of].
  rewrite Nat.eqb_refl. cbn [negb]. unfold unsigned_of.
  destruct big; rewrite ?rev_involutive, of_to_little_endian by exact Hv;
    reflexivity.
Qed.

Lemma write_end (f : stream) (b : list Z) :
  at_end f ->
  content (write f b) = content f ++ b /\ at_end (write f b) /\
  position (write f b) = (position f + length b)%nat.
Proof.
  unfold at_end, write. intros Hend. cbn [content position].
  rewrite Hend, firstn_all, Nat.sub_diag. cbn [replicate app].
  rewrite drop_ge by lia. rewrite app_nil_r.
  split; [reflexivity |]. split; [rewrite length_app; lia | reflexivity].
Qed.

(** Overwriting [b] inside the file. *)
Lemma write_inside (f : stream) (b : list Z) :
  (position f + length b <= length (content f))%nat ->
  content (write f b)
  = take (position f) (content f) ++ b ++ drop (position f + length b) (content f) /\
  length (content (write f b)) = length (content f).
Proof.
  intros Hin. unfold write. cbn [content].
  replace (position f - length (content f))%nat with 0%nat by lia.
  cbn [replicate app]. split; [reflexivity |].
  rewrite !length_app, length_take, length_drop. lia.
Qed.

Lemma slice_nat {A} (l : list A) (p n : nat) :
  slice l (Z.of_nat p) (Z.of_nat (p + n)) = take n (drop p l).
Proof. unfold slice. rewrite !Nat2Z.id. f_equal. lia. Qed.

(** A field survives what keeps the bytes before its end. *)
Lemma read_at_stable (host_big : bool) (f f' : stream) (fmt : string)
    (size pointer : nat) :
  take (pointer + size) (content f') = take (pointer + size) (content f) ->
  read_at host_big f' fmt size pointer = read_at host_big f fmt size pointer.
Proof.
  intros Hsame. unfold read_at. rewrite !slice_nat.
  rewrite !take_drop_commute. now rewrite Hsame.
Qed.

(** The patch [seek; write(pack(fmt, value)); seek back] of a field that
    lies inside the file. *)
Lemma patch_inside (host_big big : bool) (f : stream) (fmt : string) (n : nat)
    (pointer : nat) (value : Z) :
  parse_format host_big fmt = Some (big, CInt false n) ->
  0 <= value < 2 ^ (8 * Z.of_nat n) ->
  (pointer + n <= length (content f))%nat ->
  exists f',
    (do f1 <- write_pack host_big (seek f pointer) fmt value;
     ret (seek f1 (tell f))) = ret f' /\
    position f' = position f /\
    length (content f') = length (content f) /\
    take pointer (content f') = take pointer (content f) /\
    drop (pointer + n) (content f') = drop (pointer + n) (content f) /\
    read_at host_big f' fmt n pointer = ret (VInt value).
Proof.
  intros Hfmt Hv Hin.
  destruct (pack_unsigned_unpack host_big big fmt n value Hfmt Hv)
    as (b & Hpack & Hlen & Hunpack).
  unfold write_pack. rewrite Hpack. cbn [bind ret].
  eexists. split; [reflexivity |]. cbn [position seek tell content].
  destruct (write_inside (seek f pointer) b) as [Hc Hl];
    [cbn [position seek content]; lia |].
  cbn [position seek content] in Hc, Hl. rewrite Hlen in Hc.
  assert (Htl : length (take pointer (content f)) = pointer)
    by (rewrite length_take; lia).
  split; [reflexivity |]. split; [exact Hl |]. rewrite Hc.
  split; [| split].
  - rewrite take_app_le by lia. rewrite take_take. f_equal. lia.
  - rewrite drop_app_ge by lia. rewrite Htl.
    rewrite drop_app_ge by lia. rewrite Hlen.
    replace (pointer + n - pointer - n)%nat with 0%nat by lia.
    now rewrite drop_0.
  - unfold read_at. cbn [content seek]. rewrite Hc, slice_nat.
    rewrite drop_app_ge by lia. rewrite Htl, Nat.sub_diag, drop_0.
    rewrite take_app_le by lia. rewrite take_ge by lia. exact Hunpack.
Qed.

(** X17. [writePointer] of a value below 2^32 into a slot that lies inside
    the file changes the four bytes of the slot and nothing else: the
    position and the length of the file are as before, the bytes before
    and after the slot are as before, and the slot reads back, as a LINK in
    the byte order of the machine, as the value written. *)
Theorem writePointer_patches_slot (host_big : bool) (f : stream) (pointer : nat)
    (value : Z) :
  0 <= value < 2 ^ 32 ->
  (pointer + 4 <= length (content f))%nat ->
  exists f',
    writePointer host_big f pointer value = ret f' /\
    position f' = position f /\
    length (content f') = length (content f) /\
    take pointer (content f') = take pointer (content f) /\
    drop (pointer + 4) (content f') = drop (pointer + 4) (content f) /\
    read_at host_big f' LINK 4 pointer = ret (VInt value).
Proof.
  intros Hv Hin.
  apply (patch_inside host_big host_big f "I" 4 pointer value eq_refl Hv Hin).
Qed.

Lemma writePointer_patches_slot_witness :
  (0 <= 272 < 2 ^ 32) /\
  (68 + 4 <= length (content {| content := IDBlock_bytes ++ replicate 16 0%Z;
                                position := 80 |}))%nat /\
  exists f',
    writePointer false {| content := IDBlock_bytes ++ replicate 16 0%Z;
                          position := 80 |} 68 272 = ret f' /\
    position f' = 80%nat /\
    length (content f') = length (IDBlock_bytes ++ replicate 16 0%Z) /\
    take 68 (content f') = take 68 (IDBlock_bytes ++ replicate 16 0%Z) /\
    drop (68 + 4) (content f') = drop (68 + 4) (IDBlock_bytes ++ replicate 16 0%Z) /\
    read_at false f' LINK 4 68 = ret (VInt 272).
Proof.
  split; [lia |]. split; [vm_compute; lia |].
  apply (writePointer_patches_slot false
           {| content := IDBlock_bytes ++ replicate 16 0%Z; position := 80 |} 68 272);
    [lia | vm_compute; lia].
Defined.

End FieldFacts.

(** ** The blocks at the head of a written file *)

Section BlockFacts.
Import PyStruct Writer BlockWriter.
Local Open Scope Z_scope.

Lemma take_take_le {A} (l l' : list A) (k n : nat) :
  (k <= n)%nat -> take n l' = take n l -> take k l' = take k l.
Proof.
  intros Hk H. rewrite <- (Nat.min_l k n Hk), <- !take_take. now rewrite H.
Qed.

Lemma write_append (f : stream) (b : list Z) :
  at_end f ->
  at_end (write f b) /\
  position (write f b) = (position f + length b)%nat /\
  (forall k, (k <= position f)%nat ->
             take k (content (write f b)) = take k (content f)) /\
  drop (position f) (content (write f b)) = b.
Proof.
  intros Hend. destruct (write_end f b Hend) as (Hc & He & Hp).
  split; [exact He |]. split; [exact Hp |]. rewrite Hc. unfold at_end in Hend.
  split.
  - intros k Hk. apply take_app_le. lia.
  - rewrite drop_app_ge by lia. rewrite Hend, Nat.sub_diag. apply drop_0.
Qed.

(** [fid.write(pack(fmt, v))] at the end of the file. *)
Lemma write_pack_end (host_big big : bool) (f : stream) (fmt : string) (n : nat)
    (v : Z) :
  parse_format host_big fmt = Some (big, CInt false n) ->
  0 <= v < 2 ^ (8 * Z.of_nat n) ->
  at_end f ->
  exists f',
    write_pack host_big f fmt v = ret f' /\
    at_end f' /\
    position f' = (position f + n)%nat /\
    (forall k, (k <= position f)%nat -> take k (content f') = take k (content f)) /\
    read_at host_big f' fmt n (position f) = ret (VInt v).
Proof.
  intros Hfmt Hv Hend.
  destruct (pack_unsigned_unpack host_big big fmt n v Hfmt Hv)
    as (b & Hpack & Hlen & Hunpack).
  unfold write_pack. rewrite Hpack. cbn [bind ret].
  destruct (write_append f b Hend) as (He & Hp & Hk & Hd).
  eexists. split; [reflexivity |]. split; [exact He |].
  split; [now rewrite Hp, Hlen |]. split; [exact Hk |].
  unfold read_at. rewrite slice_nat, Hd, take_ge by lia. exact Hunpack.
Qed.

Lemma write_pack_signed_end (host_big big : bool) (f : stream) (fmt : string)
    (n : nat) (v : Z) :
  parse_format host_big fmt = Some (big, CInt true n) ->
  - 2 ^ (8 * Z.of_nat n - 1) <= v < 2 ^ (8 * Z.of_nat n - 1) ->
  at_end f ->
  exists f',
    write_pack_signed host_big f fmt v = ret f' /\
    at_end f' /\
    position f' = (position f + n)%nat /\
    (forall k, (k <= position f)%nat -> take k (content f') = take k (content f)).
Proof.
  intros Hfmt Hv Hend. unfold write_pack_signed, pack_signed. rewrite Hfmt.
  rewrite (proj2 (Z.leb_le _ v)) by lia.
  rewrite (proj2 (Z.ltb_lt v _)) by lia. cbn [andb bind ret].
  match goal with
  | |- context [write f ?b] =>
      destruct (write_append f b Hend) as (He & Hp & Hk & _);
      assert (Hlen : length b = n)
        by (destruct big; rewrite ?length_rev; apply to_little_endian_length)
  end.
  eexists. split; [reflexivity |]. split; [exact He |].
  split; [now rewrite Hp, Hlen | exact Hk].
Qed.

Lemma writeChar_end (f : stream) (value : string) (size : option nat) :
  at_end f ->
  at_end (writeChar f value size) /\
  position (writeChar f value size)
  = (position f + match size with
                  | None => String.length value
                  | Some n => n + 1
                  end)%nat /\
  (forall k, (k <= position f)%nat ->
             take k (content (writeChar f value size)) = take k (content f)).
Proof.
  intros Hend. destruct size as [n |].
  - destruct (writeChar_sized_bytes f value n) as (-> & Hlen).
    destruct (write_append f (take n (encode_latin1 value ++ replicate n 0) ++ [0])
                Hend) as (He & Hp & Hk & _).
    split; [exact He |]. split; [rewrite Hp, Hlen; lia | exact Hk].
  - unfold writeChar.
    destruct (write_append f (encode_latin1 value) Hend) as (He & Hp & Hk & _).
    split; [exact He |]. split; [now rewrite Hp, encode_latin1_length | exact Hk].
Qed.

(** [writePointer] into a slot that lies inside the file, the position
    being the end of the file. *)
Lemma writePointer_end (host_big : bool) (f : stream) (pointer : nat) (value : Z) :
  0 <= value < 2 ^ 32 ->
  (pointer + 4 <= length (content f))%nat ->
  at_end f ->
  exists f',
    writePointer host_big f pointer value = ret f' /\
    at_end f' /\
    position f' = position f /\
    (forall k, (k <= pointer)%nat -> take k (content f') = take k (content f)) /\
    read_at host_big f' LINK 4 pointer = ret (VInt value).
Proof.
  intros Hv Hin Hend.
  destruct (patch_inside host_big host_big f "I" 4 pointer value eq_refl Hv Hin)
    as (f' & Heq & Hp & Hl & Ht & _ & Hr).
  exists f'. split; [exact Heq |]. unfold at_end in *.
  split; [now rewrite Hp, Hl |]. split; [exact Hp |]. split; [| exact Hr].
  intros k Hk. now apply (take_take_le _ _ k pointer).
Qed.

End BlockFacts.

(** ** The header of a written file *)

Section HeaderFacts.
Import PyStruct Writer BlockWriter.
Local Open Scope Z_scope.

Lemma writeChar_default (f : stream) (value : option string) (size : option nat) :
  match value with
  | Some v => writeChar f v size
  | None => writeChar f " " size
  end = writeChar f (default " "%string value) size.
Proof. now destruct value. Qed.

Ltac carry f f' Hk :=
  repeat match goal with
         | Hr : read_at ?h f ?fmt ?size ?ptr = _ |- _ =>
             rewrite <- (read_at_stable h f f' fmt size ptr
                           (Hk (ptr + size)%nat ltac:(lia))) in Hr
         | Ht : take ?k (content f) = _ |- _ =>
             rewrite <- (Hk k ltac:(lia)) in Ht
         end.

Ltac step_char :=
  match goal with
  | Hend : at_end ?f |- context [writeChar ?f ?s ?size] =>
      let f' := fresh "fid" in
      let He := fresh "Hend" in
      let Hp := fresh "Hpos" in
      let Hk := fresh "Hkeep" in
      destruct (writeChar_end f s size Hend) as (He & Hp & Hk);
      remember (writeChar f s size) as f' eqn:Heqf in *; clear Heqf;
      cbn [String.length nul Nat.add] in Hp;
      carry f f' Hk; clear Hk
  end.

Ltac step_pack :=
  match goal with
  | Hend : at_end ?f |- context [write_pack ?h ?f ?fmt ?v] =>
      let f' := fresh "fid" in
      let Heq := fresh "Heq" in
      let He := fresh "Hend" in
      let Hp := fresh "Hpos" in
      let Hk := fresh "Hkeep" in
      let Hr := fresh "Hread" in
      let r := eval vm_compute in (parse_format h fmt) in
      match r with
      | Some (_, CInt false ?n) =>
          destruct (write_pack_end h h f fmt n v) as (f' & Heq & He & Hp & Hk & Hr);
          [ reflexivity
          | cbn; lia
          | exact Hend
          | rewrite Heq; cbn [bind ret fst snd]; clear Heq;
            carry f f' Hk; clear Hk ]
      end
  | Hend : at_end ?f |- context [write_pack_signed ?h ?f ?fmt ?v] =>
      let f' := fresh "fid" in
      let Heq := fresh "Heq" in
      let He := fresh "Hend" in
      let Hp := fresh "Hpos" in
      let Hk := fresh "Hkeep" in
      let r := eval vm_compute in (parse_format h fmt) in
      match r with
      | Some (_, CInt true ?n) =>
          destruct (write_pack_signed_end h h f fmt n v) as (f' & Heq & He & Hp & Hk);
          [ reflexivity
          | cbn; lia
          | exact Hend
          | rewrite Heq; cbn [bind ret fst snd]; clear Heq;
            carry f f' Hk; clear Hk ]
      end
  end.

Ltac step :=
  rewrite ?writeChar_default; cbn [tell]; first [step_pack | step_char].

Lemma open_wb_at_end : at_end open_wb.
Proof. reflexivity. Qed.

(** The ID block on any machine: 64 bytes. *)
Lemma write3_IDBlock_any_host (host_big : bool) :
  exists fid, write3_IDBlock host_big open_wb = ret fid /\ at_end fid /\
              position fid = 64%nat.
Proof.
  pose proof open_wb_at_end as Hend0.
  unfold write3_IDBlock. remember open_wb as f0 eqn:Hf0.
  assert (Hpos0 : position f0 = 0%nat) by now subst.
  clear Hf0.
  step_char. step_char. step_char.
  step_pack. step_pack. step_pack. step_pack. step_char.
  eexists. split; [reflexivity |]. split; [assumption | lia].
Qed.

(** The header block behind an ID block of 64 bytes. *)
Lemma write3_HDBlock_end (host_big : bool) (f : stream) (ndataGroup : Z)
    (date time : string) (metadata : file_metadata) (timestamp : Z) :
  at_end f -> position f = 64%nat ->
  0 <= ndataGroup < 65536 ->
  String.length date = 10%nat -> String.length time = 8%nat ->
  0 <= timestamp < 2 ^ 64 ->
  exists fid,
    write3_HDBlock host_big f ndataGroup date time metadata timestamp
    = ret (fid, (68, 72, 76)%nat) /\
    at_end fid /\ position fid = 272%nat /\
    read_at host_big fid UINT16 2 66 = ret (VInt 208) /\
    read_at host_big fid LINK 4 68 = ret (VInt 272) /\
    read_at host_big fid UINT16 2 80 = ret (VInt ndataGroup) /\
    take 64 (content fid) = take 64 (content f).
Proof.
  intros Hend0 Hpos0 Hn Hdate Htime Hts.
  assert (Hprefix : take 64 (content f) = take 64 (content f)) by reflexivity.
  revert Hprefix. generalize (take 64 (content f)) at 2 3. intros prefix Hprefix.
  unfold write3_HDBlock, write3_HDBlock_pointers.
  repeat step.
  rewrite Hdate in *. rewrite Htime in *.
  unfold tell. eexists. split; [repeat f_equal; lia |].
  split; [assumption |]. split; [lia |].
  repeat match goal with
           | Hr : read_at _ _ _ _ ?p = _ |- _ =>
               match p with
               | position _ =>
                   let q := fresh "q" in
                   let Hq := fresh "Hq" in
                   remember p as q eqn:Hq in Hr;
                   first [ replace q with 66%nat in Hr by lia
                         | replace q with 68%nat in Hr by lia
                         | replace q with 80%nat in Hr by lia
                         | clear Hr ];
                   clear Hq
               end
           end.
  repeat split; assumption.
Qed.

(** X18. On any machine and for any metadata, the ID block and the header
    block [write3] starts a file with span 272 bytes: the header block
    declares 208 bytes and ends at byte 272, which is the pointer to the
    first data group it stores at byte 68; the number of data groups is
    at byte 80. Author, organisation, project and subject take 32 bytes
    each whatever their lengths are. *)
Theorem write3_header_spans_272_bytes (host_big : bool) (ndataGroup : Z)
    (date time : string) (metadata : file_metadata) (timestamp : Z) :
  0 <= ndataGroup < 65536 ->
  String.length date = 10%nat -> String.length time = 8%nat ->
  0 <= timestamp < 2 ^ 64 ->
  exists fid0 fid,
    write3_IDBlock host_big open_wb = ret fid0 /\
    write3_HDBlock host_big fid0 ndataGroup date time metadata timestamp
    = ret (fid, (68, 72, 76)%nat) /\
    position fid = 272%nat /\
    length (content fid) = 272%nat /\
    read_at host_big fid UINT16 2 66 = ret (VInt 208) /\
    read_at host_big fid LINK 4 68 = ret (VInt 272) /\
    read_at host_big fid UINT16 2 80 = ret (VInt ndataGroup).
Proof.
  intros Hn Hdate Htime Hts.
  destruct (write3_IDBlock_any_host host_big) as (fid0 & Hid & Hend0 & Hpos0).
  destruct (write3_HDBlock_end host_big fid0 ndataGroup date time metadata
              timestamp Hend0 Hpos0 Hn Hdate Htime Hts)
    as (fid & Hhd & Hend & Hpos & Hsize & Hlink & Hgroups & _).
  exists fid0, fid. unfold at_end in Hend.
  repeat split; try assumption. lia.
Qed.

Ltac step_pointer :=
  match goal with
  | Hend : at_end ?f |- context [writePointer ?h ?f ?ptr ?v] =>
      let f' := fresh "fid" in
      let Heq := fresh "Heq" in
      let He := fresh "Hend" in
      let Hp := fresh "Hpos" in
      let Hk := fresh "Hkeep" in
      let Hr := fresh "Hlink" in
      destruct (writePointer_end h f ptr v) as (f' & Heq & He & Hp & Hk & Hr);
      [ unfold tell; lia
      | unfold at_end in *; lia
      | exact Hend
      | rewrite Heq; cbn [bind ret fst snd]; clear Heq;
        carry f f' Hk; clear Hk ]
  end.

Ltac name_field Hr p v :=
  match goal with
  | H : read_at _ _ _ _ ?q = ret (VInt v) |- _ =>
      replace q with p in H by lia; rename H into Hr
  end.

(** The data group block written at the end of the file, [slot] being the
    link that is to point at it. *)
Lemma write3_DGBlock_end (host_big : bool) (f : stream) (HD_DG : nat)
    (DG : list DG_pointers) (dataGroup slot : nat) :
  at_end f ->
  (if (0 <? dataGroup)%nat then DG_nextDG <$> DG !! (dataGroup - 1)%nat
   else Some HD_DG) = Some slot ->
  (slot + 4 <= position f)%nat ->
  Z.of_nat (position f) < 2 ^ 32 ->
  exists f1,
    write3_DGBlock host_big f HD_DG DG dataGroup
    = ret (f1, {| DG_nextDG := position f + 4; DG_CG := position f + 8;
                  DG_data := position f + 16 |}) /\
    at_end f1 /\ position f1 = (position f + 56)%nat /\
    read_at host_big f1 LINK 4 slot = ret (VInt (Z.of_nat (position f))) /\
    read_at host_big f1 UINT16 2 (position f + 2) = ret (VInt 28) /\
    take slot (content f1) = take slot (content f).
Proof.
  intros Hend0 Hslot Hin Hmax.
  assert (Hprefix : take slot (content f) = take slot (content f)) by reflexivity.
  revert Hprefix. generalize (take slot (content f)) at 2 3. intros prefix Hprefix.
  unfold write3_DGBlock.
  assert (Hfirst :
    (if (0 <? dataGroup)%nat
     then match DG !! (dataGroup - 1)%nat with
          | Some previous =>
              writePointer host_big f (DG_nextDG previous) (Z.of_nat (tell f))
          | None => raise (KeyError (str (Z.of_nat dataGroup - 1)))
          end
     else writePointer host_big f HD_DG (Z.of_nat (tell f)))
    = writePointer host_big f slot (Z.of_nat (tell f))).
  { destruct (0 <? dataGroup)%nat; [| now injection Hslot as <-].
    destruct (DG !! (dataGroup - 1)%nat); [| discriminate].
    now injection Hslot as <-. }
  rewrite Hfirst. clear Hfirst.
  step_pointer. repeat step.
  unfold tell. eexists. split; [repeat f_equal; lia |].
  split; [assumption |]. split; [lia |].
  unfold tell in *. name_field Hsize (position f + 2)%nat 28.
  repeat split; assumption.
Qed.

(** The channel group block written at the end of the file. *)
Lemma write3_CGBlock_end (host_big : bool) (f : stream) (DG : DG_pointers)
    (numChannels nRecords : Z) :
  at_end f ->
  (DG_CG DG + 4 <= position f)%nat ->
  Z.of_nat (position f) < 2 ^ 32 ->
  0 <= numChannels < 65536 ->
  0 <= nRecords < 2 ^ 32 ->
  exists f2,
    write3_CGBlock host_big f DG numChannels nRecords
    = ret (f2, {| CG_firstCN := position f + 8; CG_TX := position f + 12;
                  CG_dataRecordSize := position f + 20 |}) /\
    at_end f2 /\ position f2 = (position f + 30)%nat /\
    read_at host_big f2 LINK 4 (DG_CG DG) = ret (VInt (Z.of_nat (position f))) /\
    read_at host_big f2 UINT16 2 (position f + 2) = ret (VInt 30) /\
    read_at host_big f2 UINT16 2 (position f + 18) = ret (VInt numChannels) /\
    read_at host_big f2 UINT32 4 (position f + 22) = ret (VInt nRecords) /\
    take (DG_CG DG) (content f2) = take (DG_CG DG) (content f).
Proof.
  intros Hend0 Hin Hmax Hch Hrec.
  assert (Hprefix : take (DG_CG DG) (content f) = take (DG_CG DG) (content f))
    by reflexivity.
  revert Hprefix. generalize (take (DG_CG DG) (content f)) at 2 3.
  intros prefix Hprefix.
  unfold write3_CGBlock.
  step_pointer. repeat step.
  unfold tell. eexists. split; [repeat f_equal; lia |].
  split; [assumption |]. split; [lia |].
  unfold tell in *.
  name_field Hsize (position f + 2)%nat 30.
  name_field Hnum (position f + 18)%nat numChannels.
  name_field Hrecords (position f + 22)%nat nRecords.
  repeat split; assumption.
Qed.

(** X19. The data group block [write3] appends declares a size of 28
    bytes but takes 56: the channel group block starts 56 bytes after it.
    The links are right all the same: the link that is to point at the
    data group (in the header, or in the data group before) reads back as
    the start of the block, and the channel group link of the block reads
    back as the start of the channel group block, which takes the 30
    bytes it declares and holds the numbers of channels and of records. *)
Theorem write3_DG_CG_blocks (host_big : bool) (f : stream) (HD_DG : nat)
    (DG : list DG_pointers) (dataGroup slot : nat) (numChannels nRecords : Z) :
  at_end f ->
  (if (0 <? dataGroup)%nat then DG_nextDG <$> DG !! (dataGroup - 1)%nat
   else Some HD_DG) = Some slot ->
  (slot + 4 <= position f)%nat ->
  Z.of_nat (position f) + 56 < 2 ^ 32 ->
  0 <= numChannels < 65536 ->
  0 <= nRecords < 2 ^ 32 ->
  exists f1 f2 pDG pCG,
    write3_DGBlock host_big f HD_DG DG dataGroup = ret (f1, pDG) /\
    write3_CGBlock host_big f1 pDG numChannels nRecords = ret (f2, pCG) /\
    position f1 = (position f + 56)%nat /\
    position f2 = (position f + 86)%nat /\
    length (content f2) = (position f + 86)%nat /\
    read_at host_big f2 LINK 4 slot = ret (VInt (Z.of_nat (position f))) /\
    read_at host_big f2 UINT16 2 (position f + 2) = ret (VInt 28) /\
    DG_CG pDG = (position f + 8)%nat /\
    read_at host_big f2 LINK 4 (position f + 8)
    = ret (VInt (Z.of_nat (position f + 56))) /\
    read_at host_big f2 UINT16 2 (position f + 58) = ret (VInt 30) /\
    read_at host_big f2 UINT16 2 (position f + 74) = ret (VInt numChannels) /\
    read_at host_big f2 UINT32 4 (position f + 78) = ret (VInt nRecords) /\
    take slot (content f2) = take slot (content f).
Proof.
  intros Hend Hslot Hin Hmax Hch Hrec.
  destruct (write3_DGBlock_end host_big f HD_DG DG dataGroup slot Hend Hslot Hin)
    as (f1 & Hdg & Hend1 & Hpos1 & Hlink & Hsize & Hkeep1); [lia |].
  destruct (write3_CGBlock_end host_big f1
              {| DG_nextDG := position f + 4; DG_CG := position f + 8;
                 DG_data := position f + 16 |} numChannels nRecords Hend1)
    as (f2 & Hcg & Hend2 & Hpos2 & Hcglink & Hcgsize & Hnum & Hrecords & Hkeep2);
    [cbn [DG_CG]; lia | lia | exact Hch | exact Hrec |].
  cbn [DG_CG] in Hcglink, Hkeep2. rewrite Hpos1 in Hcglink, Hcgsize, Hnum, Hrecords.
  exists f1, f2. eexists. eexists.
  split; [exact Hdg |]. split; [exact Hcg |]. split; [exact Hpos1 |].
  split; [lia |]. split; [unfold at_end in Hend2; lia |].
  split.
  { rewrite <- Hlink. apply read_at_stable.
    apply (take_take_le _ _ (slot + 4) (position f + 8)); [lia | exact Hkeep2]. }
  split.
  { rewrite <- Hsize. apply read_at_stable.
    apply (take_take_le _ _ (position f + 2 + 2) (position f + 8));
      [lia | exact Hkeep2]. }
  split; [reflexivity |]. split; [exact Hcglink |].
  replace (position f + 58)%nat with (position f + 56 + 2)%nat by lia.
  replace (position f + 74)%nat with (position f + 56 + 18)%nat by lia.
  replace (position f + 78)%nat with (position f + 56 + 22)%nat by lia.
  repeat (split; [assumption |]).
  rewrite <- Hkeep1.
  apply (take_take_le _ _ slot (position f + 8)); [lia | exact Hkeep2].
Qed.

End HeaderFacts.

Lemma write3_header_spans_272_bytes_witness :
  (0 <= 2 < 65536)%Z /\
  String.length "04:11:2026" = 10%nat /\
  String.length "12:30:00" = 8%nat /\
  (0 <= 1793795400000000000 < 2 ^ 64)%Z /\
  exists fid0 fid,
    Writer.write3_IDBlock false Writer.open_wb = ret fid0 /\
    BlockWriter.write3_HDBlock false fid0 2 "04:11:2026" "12:30:00"
      {| BlockWriter.author := Some "A. Author"%string;
         BlockWriter.organisation := None;
         BlockWriter.project := Some "a project name of more than thirty-one characters"%string;
         BlockWriter.subject := None |}
      1793795400000000000
    = ret (fid, (68, 72, 76)%nat) /\
    Writer.position fid = 272%nat /\
    length (Writer.content fid) = 272%nat /\
    BlockWriter.read_at false fid Writer.UINT16 2 66 = ret (PyStruct.VInt 208) /\
    BlockWriter.read_at false fid Writer.LINK 4 68 = ret (PyStruct.VInt 272) /\
    BlockWriter.read_at false fid Writer.UINT16 2 80 = ret (PyStruct.VInt 2).
Proof.
  split; [lia |]. split; [reflexivity |]. split; [reflexivity |].
  split; [lia |].
  apply (write3_header_spans_272_bytes false 2 "04:11:2026" "12:30:00");
    [lia | reflexivity | reflexivity | lia].
Defined.

Lemma write3_DG_CG_blocks_witness :
  BlockWriter.at_end {| Writer.content := replicate 272 0%Z; Writer.position := 272 |} /\
  (if (0 <? 0)%nat then BlockWriter.DG_nextDG <$> [] !! (0 - 1)%nat else Some 68%nat)
  = Some 68%nat /\
  (68 + 4 <= Writer.position {| Writer.content := replicate 272 0%Z;
                                Writer.position := 272 |})%nat /\
  (Z.of_nat (Writer.position {| Writer.content := replicate 272 0%Z;
                                Writer.position := 272 |}) + 56 < 2 ^ 32)%Z /\
  (0 <= 3 < 65536)%Z /\ (0 <= 1000 < 2 ^ 32)%Z /\
  exists f1 f2 pDG pCG,
    BlockWriter.write3_DGBlock false
      {| Writer.content := replicate 272 0%Z; Writer.position := 272 |} 68 [] 0
    = ret (f1, pDG) /\
    BlockWriter.write3_CGBlock false f1 pDG 3 1000 = ret (f2, pCG) /\
    Writer.position f1 = (272 + 56)%nat /\
    Writer.position f2 = (272 + 86)%nat /\
    length (Writer.content f2) = (272 + 86)%nat /\
    BlockWriter.read_at false f2 Writer.LINK 4 68
    = ret (PyStruct.VInt (Z.of_nat 272)) /\
    BlockWriter.read_at false f2 Writer.UINT16 2 (272 + 2) = ret (PyStruct.VInt 28) /\
    BlockWriter.DG_CG pDG = (272 + 8)%nat /\
    BlockWriter.read_at false f2 Writer.LINK 4 (272 + 8)
    = ret (PyStruct.VInt (Z.of_nat (272 + 56))) /\
    BlockWriter.read_at false f2 Writer.UINT16 2 (272 + 58) = ret (PyStruct.VInt 30) /\
    BlockWriter.read_at false f2 Writer.UINT16 2 (272 + 74) = ret (PyStruct.VInt 3) /\
    BlockWriter.read_at false f2 BlockWriter.UINT32 4 (272 + 78)
    = ret (PyStruct.VInt 1000) /\
    take 68 (Writer.content f2) = take 68 (replicate 272 0%Z).
Proof.
  split; [reflexivity |]. split; [reflexivity |]. split; [cbn; lia |].
  split; [cbn; lia |]. split; [lia |]. split; [lia |].
  apply (write3_DG_CG_blocks false
           {| Writer.content := replicate 272 0%Z; Writer.position := 272 |}
           68 [] 0 68 3 1000);
    [reflexivity | reflexivity | cbn; lia | cbn; lia | lia | lia].
Defined.

(** ** The master channel comes first *)

Section MasterOrderFacts.
Import MasterOrder.

Lemma leb_trans (s t u : string) :
  String.leb s t = true -> String.leb t u = true -> String.leb s u = true.
Proof.
  unfold String.leb. revert t u.
  induction s as [| a s IH]; intros [| b t] [| c u]; simpl; try congruence.
  unfold Ascii.compare.
  destruct (N.compare_spec (N_of_ascii a) (N_of_ascii b)) as [Hab | Hab | Hab];
    destruct (N.compare_spec (N_of_ascii b) (N_of_ascii c)) as [Hbc | Hbc | Hbc];
    destruct (N.compare_spec (N_of_ascii a) (N_of_ascii c)) as [Hac | Hac | Hac];
    intros H1 H2; try discriminate; try reflexivity; try (exfalso; lia); eauto.
Qed.

Lemma str_le_trans : Transitive str_le.
Proof. intros s t u. apply leb_trans. Qed.

Lemma str_le_total : Total str_le.
Proof. intros s t. apply String.leb_total. Qed.

Lemma sorted_spec (l : list string) :
  sorted l ≡ₚ l /\ StronglySorted str_le (sorted l).
Proof.
  split; [apply merge_sort_Permutation |].
  apply (@StronglySorted_merge_sort _ str_le _ str_le_trans str_le_total).
Qed.

Lemma index_found (x : string) (l : list string) :
  In x l -> exists i, index x l = ret i /\ l !! i = Some x.
Proof.
  intros Hin. apply list_elem_of_In in Hin. unfold index.
  destruct (list_find_elem_of (fun y => y = x) l x Hin eq_refl) as [[i y] Hfind].
  rewrite Hfind. apply list_find_Some in Hfind as (Hi & -> & _).
  now exists i.
Qed.

Lemma index_missing (x : string) (l : list string) :
  ~ In x l -> index x l = raise (ValueError ("'" +:+ x +:+ "' is not in list")).
Proof.
  intros Hnin. unfold index.
  destruct (list_find (fun y => y = x) l) as [[i y] |] eqn:Hfind; [| reflexivity].
  apply list_find_Some in Hfind as (Hi & -> & _).
  exfalso. apply Hnin, list_elem_of_In. now apply list_elem_of_lookup_2 in Hi.
Qed.

(** X20. Before writing, the channels of a data group are put in order:
    when the master is among them, the new list is the master followed by
    the other channels in increasing order, and it has the same channels
    as before (one occurrence of the master is moved, nothing is lost or
    repeated); when the master is not among them, the step raises
    ValueError. *)
Theorem master_first_permutes (master : string) (channels : list string) :
  (In master channels ->
   exists rest,
     master_first master channels = ret (master :: rest) /\
     master :: rest ≡ₚ channels /\
     StronglySorted str_le rest) /\
  (~ In master channels ->
   master_first master channels
   = raise (ValueError ("'" +:+ master +:+ "' is not in list"))).
Proof.
  destruct (sorted_spec channels) as [Hperm Hsorted]. split.
  - intros Hin.
    assert (Hin' : In master (sorted channels)).
    { apply list_elem_of_In. rewrite Hperm. now apply list_elem_of_In. }
    destruct (index_found master (sorted channels) Hin') as (i & Hindex & Hi).
    exists (delete i (sorted channels)). unfold master_first. cbv zeta.
    rewrite Hindex. cbn [bind ret]. split; [reflexivity |]. split.
    + transitivity (sorted channels); [| exact Hperm].
      symmetry. now apply delete_Permutation.
    + rewrite delete_take_drop.
      rewrite <- (take_drop_middle _ _ _ Hi) in Hsorted.
      apply StronglySorted_app in Hsorted as (Hcross & Hl & Hr).
      apply StronglySorted_cons in Hr as [_ Hr].
      apply StronglySorted_app. split; [| now split].
      intros x1 x2 H1 H2. apply Hcross; [exact H1 |].
      apply elem_of_cons. now right.
  - intros Hnin. unfold master_first. cbv zeta.
    rewrite index_missing; [reflexivity |].
    intros Hin. apply Hnin. apply list_elem_of_In. rewrite <- Hperm.
    now apply list_elem_of_In.
Qed.

Example master_first_time :
  master_first "time" ["speed"; "time"; "rpm"] = ret ["time"; "rpm"; "speed"].
Proof. vm_compute. reflexivity. Qed.

End MasterOrderFacts.

(** ** Reading a data group with several channel groups *)

Section DataReadFacts.
Import PyStruct Schema DataBlock DataRead.
Context {recarray : Type}.
Context (readSortedRecord :
           record -> list Z -> Z -> option (gset string) -> Py recarray).

(** X21. [DATA.read] never returns data for an unsorted data group: as
    soon as the DATA object holds two or more records, it raises the
    TypeError of [loadUnSorted], whatever the file, the records and the
    channel set are, and the sorted reader is not called. *)
Theorem read_unsorted_raises (fuel : nat) (host_big : bool) (self : DATA)
    (channelSet : option (gset string)) :
  2 <= size (entries self) ->
  read readSortedRecord fuel host_big self channelSet
  = Some (raise (TypeError "'type' object is not iterable")).
Proof.
  intros Hsize. unfold read. cbv zeta.
  rewrite !length_map_to_list.
  destruct (Nat.eqb_spec (size (entries self)) 1) as [H1 | _]; [lia |].
  destruct (Nat.leb_spec 2 (size (entries self))) as [_ | Hlt]; [| lia].
  now rewrite loadUnSorted_always_raises.
Qed.

End DataReadFacts.

Lemma read_unsorted_raises_witness :
  exists data,
    value_of (DataBlock.read3_DATA (fun n => n) Scenarios.S4_info
                Scenarios.S4_file 0) = Return data /\
    2 <= size (DataBlock.entries data) /\
    DataRead.read (fun _ _ _ _ => ret tt) 8 false data None
    = Some (raise (TypeError "'type' object is not iterable")).
Proof.
  eexists. split; [vm_compute; reflexivity |].
  split; [vm_compute; lia |].
  apply (read_unsorted_raises (fun _ _ _ _ => ret tt) 8 false).
  vm_compute; lia.
Defined.

(** ** The bit field a channel is read from *)

Section BitFieldFacts.
Import Numpy Schema Reader.
Local Open Scope Z_scope.

(** The repack step on an integer column of a channel that does not fill
    whole bytes. *)
Lemma read3_channel_partial (chan : Channel) (dtype : string) (values : list Z) :
  whole_bytes (bitCount chan) = false ->
  In (signalDataType chan) [0; 1; 9; 10; 13; 14] ->
  values <> [] ->
  read3_channel chan (IntArray dtype values)
  = ret (Some (IntArray dtype
                 (map (fun v => Z.land (Z.shiftr v (bitOffset chan))
                                  (mask_of (bitCount chan)))
                      values))).
Proof.
  intros Hw Hsdt Hne. unfold read3_channel.
  destruct values as [| v0 values']; [congruence |].
  cbn [size length Nat.eqb negb].
  rewrite Hw, (proj2 (in_tuple_In _ _) Hsdt).
  cbn [negb right_shift bitwise_and bind ret]. now rewrite map_map.
Qed.

Lemma testbit_field (v off n i : Z) :
  0 <= n -> 0 <= i ->
  Z.testbit (Z.land (Z.shiftr v off) (mask_of n)) i
  = (i <? n) && Z.testbit v (off + i).
Proof.
  intros Hn Hi. unfold mask_of. destruct (Z.ltb_spec n 0) as [Hneg | _]; [lia |].
  replace (2 ^ n - 1) with (Z.ones n) by (rewrite Z.ones_equiv; lia).
  rewrite Z.land_spec, Z.shiftr_spec by exact Hi.
  rewrite Z.testbit_ones_nonneg by lia.
  rewrite (Z.add_comm i off). apply andb_comm.
Qed.

(** X22. Read through a channel of an integer type whose bit count does
    not fill whole bytes, every sample is the bit field of the stored
    value: bit i of the result is bit bitOffset + i of the stored value
    for i below bitCount, and 0 from bitCount on; the result is an integer
    column of the same length. *)
Theorem read3_channel_extracts_bit_field (chan : Channel) (dtype : string)
    (values : list Z) :
  0 <= bitCount chan ->
  whole_bytes (bitCount chan) = false ->
  In (signalDataType chan) [0; 1; 9; 10; 13; 14] ->
  values <> [] ->
  exists dtype' output,
    read3_channel chan (IntArray dtype values) = ret (Some (IntArray dtype' output)) /\
    length output = length values /\
    forall k v w, values !! k = Some v -> output !! k = Some w ->
      forall i, 0 <= i ->
        Z.testbit w i = (i <? bitCount chan) && Z.testbit v (bitOffset chan + i).
Proof.
  intros Hn Hw Hsdt Hne. exists dtype. eexists.
  split; [apply (read3_channel_partial chan dtype values Hw Hsdt Hne) |].
  split; [apply length_map |].
  intros k v w Hv Hout i Hi.
  change (map ?f values) with (f <$> values) in Hout.
  rewrite list_lookup_fmap, Hv in Hout. injection Hout as <-.
  now apply testbit_field.
Qed.

Lemma read3_channel_extracts_bit_field_witness :
  0 <= bitCount Scenarios.S2_channel_b /\
  whole_bytes (bitCount Scenarios.S2_channel_b) = false /\
  In (signalDataType Scenarios.S2_channel_b) [0; 1; 9; 10; 13; 14] /\
  [181; 255] <> [] /\
  exists dtype' output,
    read3_channel Scenarios.S2_channel_b (IntArray "<u1" [181; 255])
    = ret (Some (IntArray dtype' output)) /\
    length output = length [181; 255] /\
    forall k v w, [181; 255] !! k = Some v -> output !! k = Some w ->
      forall i, 0 <= i ->
        Z.testbit w i
        = (i <? bitCount Scenarios.S2_channel_b)
          && Z.testbit v (bitOffset Scenarios.S2_channel_b + i).
Proof.
  split; [vm_compute; discriminate |]. split; [reflexivity |].
  split; [left; reflexivity |]. split; [discriminate |].
  apply (read3_channel_extracts_bit_field Scenarios.S2_channel_b "<u1" [181; 255]);
    [vm_compute; discriminate | reflexivity | left; reflexivity | discriminate].
Defined.

End BitFieldFacts.

(** ** The text of a formula *)

Section FormulaFacts.
Import Formula.
Local Open Scope Z_scope.

Lemma find_no_nul (s : string) : no_nul s -> find Ascii.zero s = -1.
Proof.
  unfold no_nul. induction s as [| a s IH]; intros Hs; [reflexivity |].
  cbn [find]. destruct (Ascii.eqb_spec a Ascii.zero) as [-> | _].
  - exfalso. apply (Hs Ascii.zero); [now left | reflexivity].
  - rewrite IH; [reflexivity |]. intros c Hc. apply Hs. now right.
Qed.

Lemma find_first_nul (a b : string) :
  no_nul a ->
  find Ascii.zero (a +:+ String Ascii.zero b) = Z.of_nat (String.length a).
Proof.
  unfold no_nul. induction a as [| c a IH]; intros Ha; [reflexivity |].
  change (find Ascii.zero (String c a +:+ String Ascii.zero b))
    with (if Ascii.eqb c Ascii.zero then 0
          else if find Ascii.zero (a +:+ String Ascii.zero b) <? 0 then -1
               else find Ascii.zero (a +:+ String Ascii.zero b) + 1).
  destruct (Ascii.eqb_spec c Ascii.zero) as [-> | _].
  - exfalso. apply (Ha Ascii.zero); [now left | reflexivity].
  - rewrite IH by (intros c' Hc'; apply Ha; now right).
    cbn [String.length].
    destruct (Z.ltb_spec (Z.of_nat (String.length a)) 0); lia.
Qed.

Lemma substring_prefix (a b : string) :
  String.substring 0 (String.length a) (a +:+ b) = a.
Proof.
  induction a as [| c a IH]; simpl; [now destruct b | now rewrite IH].
Qed.

(** X23. The formula text handed to the evaluator is the part of
    [textFormula] before its first NUL, with every 'pow(' turned into
    'power('; a text that holds no NUL loses its last character, because
    [find] then returns -1 and the slice [:-1] drops it. *)
Theorem formula_text_cut (textFormula : string) :
  (forall a b, no_nul a -> textFormula = a +:+ String Ascii.zero b ->
               formula_text textFormula = replace_pow a) /\
  (no_nul textFormula ->
   formula_text textFormula
   = replace_pow (String.substring 0 (String.length textFormula - 1) textFormula)).
Proof.
  unfold formula_text, slice_to. split.
  - intros a b Ha ->. rewrite (find_first_nul a b Ha).
    destruct (Z.ltb_spec (Z.of_nat (String.length a)) 0); [lia |].
    now rewrite Nat2Z.id, substring_prefix.
  - intros Hs. rewrite (find_no_nul _ Hs). cbn [Z.ltb Z.compare].
    do 2 f_equal. lia.
Qed.

Example formula_text_terminated :
  formula_text ("pow(X,2)+1" +:+ String Ascii.zero "rest") = "power(X,2)+1"%string.
Proof. reflexivity. Qed.

Example formula_text_unterminated : formula_text "X*2" = "X*"%string.
Proof. reflexivity. Qed.

End FormulaFacts.

(** ** The ID block under the blocks that follow it *)

Section IDBlockKept.
Import PyStruct Writer BlockWriter.
Local Open Scope Z_scope.

(** On either kind of machine, the header block, the first data group
    block and its channel group block leave the 64 bytes of the ID block
    as they were written. *)
Lemma write3_blocks_keep_IDBlock (host_big : bool) (ndataGroup : Z)
    (date time : string) (metadata : file_metadata) (timestamp : Z)
    (numChannels nRecords : Z) :
  0 <= ndataGroup < 65536 ->
  String.length date = 10%nat -> String.length time = 8%nat ->
  0 <= timestamp < 2 ^ 64 ->
  0 <= numChannels < 65536 -> 0 <= nRecords < 2 ^ 32 ->
  exists fid0 fid f1 f2 pDG pCG,
    write3_IDBlock host_big open_wb = ret fid0 /\
    write3_HDBlock host_big fid0 ndataGroup date time metadata timestamp
    = ret (fid, (68, 72, 76)%nat) /\
    write3_DGBlock host_big fid 68 [] 0 = ret (f1, pDG) /\
    write3_CGBlock host_big f1 pDG numChannels nRecords = ret (f2, pCG) /\
    take 64 (content fid) = content fid0 /\
    take 64 (content f2) = content fid0.
Proof.
  intros Hn Hdate Htime Hts Hch Hrec.
  destruct (write3_IDBlock_any_host host_big) as (fid0 & Hid & Hend0 & Hpos0).
  destruct (write3_HDBlock_end host_big fid0 ndataGroup date time metadata
              timestamp Hend0 Hpos0 Hn Hdate Htime Hts)
    as (fid & Hhd & Hend & Hpos & _ & _ & _ & Hkeep).
  assert (Hfull : take 64 (content fid0) = content fid0).
  { apply take_ge. unfold at_end in Hend0. lia. }
  destruct (write3_DGBlock_end host_big fid 68 [] 0 68 Hend eq_refl)
    as (f1 & Hdg & Hend1 & Hpos1 & _ & _ & Hkeep1); [lia | lia |].
  destruct (write3_CGBlock_end host_big f1
              {| DG_nextDG := position fid + 4; DG_CG := position fid + 8;
                 DG_data := position fid + 16 |} numChannels nRecords Hend1)
    as (f2 & Hcg & _ & _ & _ & _ & _ & _ & Hkeep2);
    [cbn [DG_CG]; lia | lia | exact Hch | exact Hrec |].
  cbn [DG_CG] in Hkeep2.
  exists fid0, fid, f1, f2. eexists. eexists.
  split; [exact Hid |]. split; [exact Hhd |]. split; [exact Hdg |].
  split; [exact Hcg |]. split; [now rewrite Hkeep |].
  rewrite <- Hfull, <- Hkeep.
  transitivity (take 64 (content f1)).
  - apply (take_take_le _ _ 64 (position fid + 8)); [lia | exact Hkeep2].
  - apply (take_take_le _ _ 64 68); [lia | exact Hkeep1].
Qed.

End IDBlockKept.
